(** * LLM Council backend: a shallow embedding of the delivery surfaces

    The development follows the Python backend module by module:
    [users.py] (SQLite user table), [auth.py] (JWT verification),
    [main.py] (login, atomic and streaming message endpoints, the voice
    WebSocket endpoint), [openai_realtime.py] (the transcription
    sub-connection) and [voice.py] (the voice chat session).

    Python values are embedded as follows.
    - [str] is a list of Unicode code points ([pystr]); [lit] injects a
      literal.  [bytes] is a list of [Byte.byte].
    - JSON-like dynamic values ([dict], [list], [str], ...) are [json]; a
      [dict] is an association list in insertion order.
    - Effectful code runs in the monad [M S]: explicit state of type [S], an
      append-only trace of externally visible [action]s, and a [result]
      that is a value or a raised exception.  Exceptions are those deriving
      from Python's [Exception]; task cancellation is outside the model.
    - Third-party libraries (PyJWT, bcrypt, base64, the websocket peers)
      and the modules of the repository that the sources only import
      ([storage], [council]) enter as interfaces whose members are
      quantified over in every statement. *)

From Stdlib Require Import ZArith NArith Ascii String List Bool Lia.
From stdpp Require Import base option list sorting gmap.
Import ListNotations.
Open Scope Z_scope.
Set Warnings "-register-all".

(* ================================================================== *)
(** * Python values *)
(* ================================================================== *)

Abbreviation pystr := (list N).
Abbreviation bytes := (list Byte.byte).

Definition lit (s : string) : pystr := N_of_ascii <$> list_ascii_of_string s.

Inductive json : Type :=
| JNull
| JBool (b : bool)
| JInt (z : Z)
| JStr (s : pystr)
| JList (l : list json)
| JDict (d : list (pystr * json)).

Abbreviation pydict := (list (pystr * json)).

(** [d.get(k)] *)
Fixpoint dict_get (d : pydict) (k : pystr) : option json :=
  match d with
  | [] => None
  | (k', v) :: d' => if decide (k' = k) then Some v else dict_get d' k
  end.

(** [d[k] = v]: an existing key keeps its position, a new key goes last. *)
Fixpoint dict_set (k : pystr) (v : json) (d : pydict) : pydict :=
  match d with
  | [] => [(k, v)]
  | (k', v') :: d' =>
      if decide (k' = k) then (k, v) :: d' else (k', v') :: dict_set k v d'
  end.

(** [d.update(e)] *)
Definition dict_update (d e : pydict) : pydict :=
  fold_left (λ acc kv, dict_set kv.1 kv.2 acc) e d.

Definition dict_keys (d : pydict) : list pystr := d.*1.

(** [d.get(k, default)] *)
Definition dict_get_default (d : pydict) (k : pystr) (default : json) : json :=
  match dict_get d k with
  | Some v => v
  | None => default
  end.

(** Truth value of a dynamic value ([if x:], [not x]). *)
Definition truthy (v : json) : bool :=
  match v with
  | JNull => false
  | JBool b => b
  | JInt z => negb (z =? 0)
  | JStr s => negb (bool_decide (s = []))
  | JList l => match l with [] => false | _ => true end
  | JDict d => match d with [] => false | _ => true end
  end.

(** [type(v).__name__], as Python's error messages quote it. *)
Definition type_name (v : json) : pystr :=
  match v with
  | JNull => lit "NoneType"
  | JBool _ => lit "bool"
  | JInt _ => lit "int"
  | JStr _ => lit "str"
  | JList _ => lit "list"
  | JDict _ => lit "dict"
  end.

(** The text of the [AttributeError] for a missing method. *)
Definition no_attribute (v : json) (method : string) : pystr :=
  lit "'" ++ type_name v ++ lit "' object has no attribute '" ++ lit method ++ lit "'".

(** The text of the [TypeError] of [base64.b64decode] on a value that is
    neither a string nor bytes-like. *)
Definition not_bytes_like (v : json) : pystr :=
  lit "argument should be a bytes-like object or ASCII string, not '"
  ++ type_name v ++ lit "'".

(** [str.isspace] on one code point: the characters [str.strip()] removes. *)
Definition py_isspace (c : N) : bool :=
  ((9 <=? c) && (c <=? 13) || (28 <=? c) && (c <=? 32)
   || (c =? 133) || (c =? 160) || (c =? 5760)
   || (8192 <=? c) && (c <=? 8202)
   || (c =? 8232) || (c =? 8233) || (c =? 8239) || (c =? 8287)
   || (c =? 12288))%N.

Fixpoint lstrip (s : pystr) : pystr :=
  match s with
  | [] => []
  | c :: s' => if py_isspace c then lstrip s' else s
  end.

Definition rstrip (s : pystr) : pystr := reverse (lstrip (reverse s)).

(** [s.strip()] *)
Definition strip (s : pystr) : pystr := rstrip (lstrip s).

(* ================================================================== *)
(** * Exceptions *)
(* ================================================================== *)

(** The exception classes the sources name or catch, with the part of the
    class hierarchy of PyJWT, Starlette and websockets they rely on. *)
Inductive exn_class : Type :=
| Exception
| ValueError | TypeError | KeyError | AttributeError | RuntimeError
| BinasciiError            (* binascii.Error, a ValueError *)
| JSONDecodeError          (* json.JSONDecodeError, a ValueError *)
| UnicodeEncodeError       (* a ValueError, through UnicodeError *)
| HTTPException            (* fastapi.HTTPException *)
| WebSocketDisconnect      (* starlette *)
| ConnectionClosed         (* websockets.exceptions.ConnectionClosed *)
| PyJWTError
| InvalidKeyError          (* PyJWTError, not an InvalidTokenError *)
| InvalidTokenError
| DecodeError | InvalidSignatureError | ExpiredSignatureError
| ImmatureSignatureError | InvalidAlgorithmError | InvalidSubjectError.

#[global] Instance exn_class_eq_dec : EqDecision exn_class.
Proof. solve_decision. Defined.

Definition superclass (c : exn_class) : option exn_class :=
  match c with
  | Exception => None
  | BinasciiError | JSONDecodeError | UnicodeEncodeError => Some ValueError
  | InvalidKeyError | InvalidTokenError => Some PyJWTError
  | DecodeError | ExpiredSignatureError | ImmatureSignatureError
  | InvalidAlgorithmError | InvalidSubjectError => Some InvalidTokenError
  | InvalidSignatureError => Some DecodeError
  | _ => Some Exception
  end.

Fixpoint issubclass_upto (depth : nat) (c d : exn_class) : bool :=
  bool_decide (c = d) ||
  match depth with
  | O => false
  | S depth' =>
      match superclass c with
      | Some c' => issubclass_upto depth' c' d
      | None => false
      end
  end.

(** The hierarchy above has depth 4 below [Exception]. *)
Definition issubclass : exn_class → exn_class → bool := issubclass_upto 5.

Inductive exn : Type :=
| PyExn (c : exn_class) (msg : pystr)        (* [str(e) = msg] *)
| HTTPExn (status_code : Z) (detail : pystr) (* [HTTPException(status_code, detail)] *).

Definition class_of (e : exn) : exn_class :=
  match e with
  | PyExn c _ => c
  | HTTPExn _ _ => HTTPException
  end.

(** Decimal rendering, for [str(HTTPException)]. *)
Definition digit (n : N) : N := (48 + n)%N.

Fixpoint decimal_upto (fuel : nat) (n : N) (acc : pystr) : pystr :=
  match fuel with
  | O => acc
  | S fuel' =>
      let acc' := digit (n mod 10) :: acc in
      if (n / 10 =? 0)%N then acc' else decimal_upto fuel' (n / 10) acc'
  end.

Definition decimal (z : Z) : pystr :=
  let n := Z.abs_N z in
  (if z <? 0 then lit "-" else []) ++ decimal_upto (S (N.to_nat (N.log2 n))) n [].

(** [str(e)]; Starlette renders an [HTTPException] as ["<status>: <detail>"]. *)
Definition str_of_exn (e : exn) : pystr :=
  match e with
  | PyExn _ msg => msg
  | HTTPExn code detail => decimal code ++ lit ": " ++ detail
  end.

Definition isinstance (e : exn) (c : exn_class) : bool := issubclass (class_of e) c.







Inductive result (A : Type) : Type :=
| Ret (a : A)
| Raise (e : exn).
Arguments Ret {A} a.
Arguments Raise {A} e.

(** [d[k]] raises [KeyError] on a missing key. *)
Definition dict_index (d : pydict) (k : pystr) : result json :=
  match dict_get d k with
  | Some v => Ret v
  | None => Raise (PyExn KeyError k)
  end.

(** [try: r  except c1: h1(e)  except c2: h2(e) ...] on a pure computation:
    the first clause whose class the exception is an instance of handles it. *)
Fixpoint find_handler {H : Type} (clauses : list (exn_class * H)) (e : exn) : option H :=
  match clauses with
  | [] => None
  | (c, h) :: rest => if isinstance e c then Some h else find_handler rest e
  end.

Definition try_except_pure {A} (r : result A)
    (clauses : list (exn_class * (exn → result A))) : result A :=
  match r with
  | Ret a => Ret a
  | Raise e =>
      match find_handler clauses e with
      | Some h => h e
      | None => Raise e
      end
  end.

(** Lexicographic order on strings (SQLite's BINARY collation on TEXT). *)
Fixpoint pystr_leb (a b : pystr) : bool :=
  match a, b with
  | [], _ => true
  | _ :: _, [] => false
  | x :: a', y :: b' => ((x <? y) || (x =? y) && pystr_leb a' b')%N
  end.

(* ================================================================== *)
(** * users.py: the user table *)
(* ================================================================== *)

Module Users.

(** One row of [CREATE TABLE users (id, email, password_hash, name,
    is_admin, created_at)]. *)
Record row : Type := Row {
  row_id : pystr;
  row_email : pystr;
  row_password_hash : pystr;
  row_name : pystr;
  row_is_admin : bool;
  row_created_at : pystr
}.

(** The table, in rowid order. *)
Definition table : Type := list row.

Inductive column : Type := Id | Email | PasswordHash | Name | IsAdmin | CreatedAt.

Definition column_name (c : column) : pystr :=
  match c with
  | Id => lit "id"
  | Email => lit "email"
  | PasswordHash => lit "password_hash"
  | Name => lit "name"
  | IsAdmin => lit "is_admin"
  | CreatedAt => lit "created_at"
  end.

(** SQLite stores a BOOLEAN as the integers 0 and 1. *)
Definition column_value (c : column) (r : row) : json :=
  match c with
  | Id => JStr (row_id r)
  | Email => JStr (row_email r)
  | PasswordHash => JStr (row_password_hash r)
  | Name => JStr (row_name r)
  | IsAdmin => JInt (if row_is_admin r then 1 else 0)
  | CreatedAt => JStr (row_created_at r)
  end.

(** [dict(row)] for a row of [SELECT cols FROM users]: one key per selected
    column, in the order of the SELECT list. *)
Definition dict_of_row (cols : list column) (r : row) : pydict :=
  (λ c, (column_name c, column_value c r)) <$> cols.

(** [cursor.fetchone()] *)
Definition fetchone {A} (rows : list A) : option A := head rows.

(** [SELECT id, email, name, is_admin, created_at FROM users WHERE id = ?];
    a [None] parameter is SQL NULL and matches no row. *)
Definition get_user_by_id (db : table) (user_id : option pystr) : option pydict :=
  dict_of_row [Id; Email; Name; IsAdmin; CreatedAt]
    <$> fetchone (filter (λ r, user_id = Some (row_id r)) db).

(** [SELECT id, email, password_hash, name, is_admin, created_at FROM users
    WHERE email = ?] *)
Definition get_user_by_email (db : table) (email : pystr) : option pydict :=
  dict_of_row [Id; Email; PasswordHash; Name; IsAdmin; CreatedAt]
    <$> fetchone (filter (λ r, row_email r = email) db).

(** [ORDER BY created_at DESC] *)
Definition created_desc (r1 r2 : row) : Prop :=
  Is_true (pystr_leb (row_created_at r2) (row_created_at r1)).

#[global] Instance created_desc_dec r1 r2 : Decision (created_desc r1 r2).
Proof. unfold created_desc. apply _. Defined.

(** [SELECT id, email, name, is_admin, created_at FROM users ORDER BY
    created_at DESC] *)
Definition list_users (db : table) : list pydict :=
  dict_of_row [Id; Email; Name; IsAdmin; CreatedAt] <$> merge_sort created_desc db.

End Users.

(* ================================================================== *)
(** * auth.py *)
(* ================================================================== *)

Module Auth.

(** config.py *)
Definition JWT_ALGORITHM : pystr := lit "HS256".
Definition JWT_EXPIRATION_HOURS : Z := 24.

(** The libraries [auth.py] calls.  [jwt_decode token key algorithms] is
    [jwt.decode]: the payload, or the exception PyJWT raises (the clock it
    checks [exp] against is part of the function). *)
Class Crypto : Type := {
  JWT_SECRET : pystr;
  jwt_decode : pystr → pystr → list pystr → result pydict;
  jwt_encode : pydict → pystr → pystr → result pystr;
  bcrypt_checkpw : pystr → pystr → result bool;
  utcnow : Z
}.

Section WithCrypto.
Context `{Crypto}.

(** [verify_password] *)
Definition verify_password (password password_hash : pystr) : result bool :=
  bcrypt_checkpw password password_hash.

(** [create_token]; timestamps are seconds since the epoch. *)
Definition create_token (user_id email is_admin : json) : result pystr :=
  let expiration := utcnow + JWT_EXPIRATION_HOURS * 3600 in
  let payload : pydict :=
    [ (lit "sub", user_id); (lit "email", email); (lit "is_admin", is_admin);
      (lit "exp", JInt expiration); (lit "iat", JInt utcnow) ] in
  jwt_encode payload JWT_SECRET JWT_ALGORITHM.

(** [verify_token] *)
Definition verify_token (token : pystr) : result (option pydict) :=
  try_except_pure
    (match jwt_decode token JWT_SECRET [JWT_ALGORITHM] with
     | Ret payload => Ret (Some payload)
     | Raise e => Raise e
     end)
    [ (ExpiredSignatureError, λ _, Ret None);
      (InvalidTokenError, λ _, Ret None) ].

End WithCrypto.

End Auth.

(* ================================================================== *)
(** * Effects: state, trace and exceptions *)
(* ================================================================== *)

(** The collaborators whose invocation is recorded in the trace. *)
Inductive callee : Type :=
| AddUserMessage (conversation_id content : pystr)
| UpdateConversationTitle (conversation_id title : pystr)
| AddAssistantMessage (conversation_id : pystr) (stage1 stage2 stage3 : json)
| GenerateConversationTitle (user_query : pystr)
| RunFullCouncil (user_query : pystr)
| Stage1CollectResponses (user_query : pystr)
| Stage2CollectRankings (user_query : pystr) (stage1 : json)
| CalculateAggregateRankings (stage2 label_to_model : json)
| Stage3SynthesizeFinal (user_query : pystr) (stage1 stage2 : json)
| TextToSpeechStream (text : json) (voice : pystr).

(** What a run does to the outside, in order.
    - [Start c]: [c] is called, or scheduled with [asyncio.create_task];
    - [Await c]: the caller suspends on [c] ([await]);
    - [Done c]: [c] has returned normally to the caller;
    - [Yield ev]: the event generator yields the server-sent event [ev];
    - [WsAccept], [WsClose], [WsSendJson]: calls on the client WebSocket;
    - [RtSend], [RtClose]: a frame sent on, and the closing of, the
      transcription sub-connection. *)
Inductive action : Type :=
| Start (c : callee)
| Await (c : callee)
| Done (c : callee)
| Yield (ev : pydict)
| WsAccept
| WsClose (code : Z) (reason : pystr)
| WsSendJson (message : pydict)
| RtSend (frame : pydict)
| RtClose.

Abbreviation trace := (list action).

Definition M (S A : Type) : Type := S → trace * S * result A.

#[global] Instance M_ret {S} : MRet (M S) := λ A a s, ([], s, Ret a).

#[global] Instance M_bind {S} : MBind (M S) := λ A B k m s,
  match m s with
  | (t1, s1, Ret a) => let '(t2, s2, r) := k a s1 in (t1 ++ t2, s2, r)
  | (t1, s1, Raise e) => (t1, s1, Raise e)
  end.

#[global] Instance M_fmap {S} : FMap (M S) := λ A B f m, a ← m; mret (f a).

Definition raise {S A} (e : exn) : M S A := λ s, ([], s, Raise e).

Definition lift {S A} (r : result A) : M S A := λ s, ([], s, r).

Definition emit {S} (a : action) : M S unit := λ s, ([a], s, Ret tt).

Definition get_state {S} : M S S := λ s, ([], s, Ret s).

Definition modify {S} (f : S → S) : M S unit := λ s, ([], f s, Ret tt).

(** Run a computation on a component of the state. *)
Definition zoom {S T A} (get : S → T) (set : T → S → S) (m : M T A) : M S A := λ s,
  let '(t, x, r) := m (get s) in (t, set x s, r).

(** [try: m  except c1 as e: h1  except c2 as e: h2 ...] *)
Definition try_except {S A} (m : M S A)
    (clauses : list (exn_class * (exn → M S A))) : M S A := λ s,
  match m s with
  | (t1, s1, Raise e) =>
      match find_handler clauses e with
      | Some h => let '(t2, s2, r) := h e s1 in (t1 ++ t2, s2, r)
      | None => (t1, s1, Raise e)
      end
  | out => out
  end.

(** [try: m  finally: f]: [f] always runs; an exception of [f] replaces the
    outcome of [m]. *)
Definition try_finally {S A} (m : M S A) (f : M S unit) : M S A := λ s,
  let '(t1, s1, r) := m s in
  let '(t2, s2, rf) := f s1 in
  (t1 ++ t2, s2, match rf with Ret _ => r | Raise e => Raise e end).

(** A plain (synchronous) call of a collaborator with outcome [r]. *)
Definition call {S A} (c : callee) (r : result A) : M S A := λ s,
  match r with
  | Ret a => ([Start c; Done c], s, Ret a)
  | Raise e => ([Start c], s, Raise e)
  end.

(** [asyncio.create_task(c)]: the task carries its eventual outcome. *)
Record task (A : Type) : Type := Task { task_callee : callee; task_outcome : result A }.
Arguments Task {A} _ _.
Arguments task_callee {A} _.
Arguments task_outcome {A} _.

Definition create_task {S A} (c : callee) (r : result A) : M S (task A) := λ s,
  ([Start c], s, Ret (Task c r)).

(** [await t] *)
Definition await_task {S A} (t : task A) : M S A := λ s,
  match task_outcome t with
  | Ret a => ([Await (task_callee t); Done (task_callee t)], s, Ret a)
  | Raise e => ([Await (task_callee t)], s, Raise e)
  end.

(** [await c(...)]: started and awaited at the same point. *)
Definition await_call {S A} (c : callee) (r : result A) : M S A :=
  t ← create_task c r; await_task t.

Definition run {S A} (m : M S A) (s : S) : trace * S * result A := m s.
Definition trace_of {S A} (o : trace * S * result A) : trace := o.1.1.
Definition state_of {S A} (o : trace * S * result A) : S := o.1.2.
Definition result_of {S A} (o : trace * S * result A) : result A := o.2.

(* ================================================================== *)
(** * The imported modules [storage] and [council] *)
(* ================================================================== *)

(** A stored conversation, with the fields [main.py] declares for it
    ([Conversation]) and the owner it reads with [.get("user_id")]. *)
Record conversation : Type := Conversation {
  conv_id : pystr;
  conv_created_at : pystr;
  conv_title : pystr;
  conv_messages : list json;
  conv_user_id : option pystr
}.

(** [storage]: the functions the sources call, over an abstract store.  A
    mutator returns the new store and may raise. *)
Class Storage : Type := {
  Store : Type;
  get_conversation : Store → pystr → option conversation;
  add_user_message : pystr → pystr → Store → Store * result unit;
  update_conversation_title : pystr → pystr → Store → Store * result unit;
  add_assistant_message : pystr → json → json → json → Store → Store * result unit
}.

(** [council]: the outcome of each stage function on its arguments. *)
Class Council : Type := {
  stage1_collect_responses : pystr → result json;
  stage2_collect_rankings : pystr → json → result (json * json);
  calculate_aggregate_rankings : json → json → result json;
  stage3_synthesize_final : pystr → json → json → result json;
  generate_conversation_title : pystr → result pystr
}.

(** A mutating call into [storage], recorded like [call]. *)
Definition storage_call `{Storage} (c : callee) (f : Store → Store * result unit)
    : M Store unit := λ st,
  match f st with
  | (st', Ret _) => ([Start c; Done c], st', Ret tt)
  | (st', Raise e) => ([Start c], st', Raise e)
  end.

(** [a != b] between the owner stored with a conversation and a dynamic
    value: a string equals only the same string, [None] only [None]. *)
Definition owner_differs (owner : option pystr) (v : json) : bool :=
  match owner, v with
  | Some a, JStr b => negb (bool_decide (a = b))
  | None, JNull => false
  | _, _ => true
  end.

(** The network peers and codecs of a voice session: the client WebSocket,
    the speech provider behind [websockets] and [httpx], and [base64]. *)
Inductive incoming : Type :=
| Message (data : result json)   (* a frame, with the outcome of [json.loads] on it *)
| IterRaise (e : exn).           (* the iteration over the socket raises *)

Class Peers : Type := {
  (** [websocket.send_json(message)] on the client socket *)
  websocket_send_json : pydict → result unit;
  (** [websockets.connect(REALTIME_API_URL, ...)] *)
  websockets_connect : result unit;
  (** [ws.send(json.dumps(frame))] on the transcription sub-connection *)
  ws_send : pydict → result unit;
  (** what [async for message in ws] delivers, until the iteration ends *)
  ws_messages : list incoming;
  (** [ws.close()] *)
  ws_close : result unit;
  (** [text_to_speech_stream(api_key, text, voice, "tts-1", "mp3")]: the
      chunks it yields and the exception that ends it, if any *)
  text_to_speech_stream : pystr → json → pystr → list bytes * option exn;
  b64encode : bytes → pystr;
  b64decode : pystr → result bytes
}.

(** [v.get(k, default)] on a dynamic value: only a [dict] has [get]. *)
Definition json_get_default (v : json) (k : pystr) (default : json) : result json :=
  match v with
  | JDict d => Ret (dict_get_default d k default)
  | _ => Raise (PyExn AttributeError (no_attribute v "get"))
  end.

(** [v == s] for a string literal [s]. *)
Definition eq_str (v : json) (s : string) : bool :=
  match v with
  | JStr x => bool_decide (x = lit s)
  | _ => false
  end.

(** [x if x else None] *)
Definition or_none (v : json) : json := if truthy v then v else JNull.

(* ================================================================== *)
(** * openai_realtime.py: the transcription sub-connection *)
(* ================================================================== *)

Module Realtime.

(** The fields of [RealtimeClient] the methods read: whether [ws] is set,
    and [_connected].  No transcription callback is ever installed. *)
Record RealtimeClient : Type := Client {
  ws : bool;
  _connected : bool
}.

(** [RealtimeClient(api_key)] *)
Definition new : RealtimeClient := {| ws := false; _connected := false |}.

Section WithPeers.
Context `{Peers}.

Definition send (frame : pydict) : M RealtimeClient unit := λ c,
  match ws_send frame with
  | Ret _ => ([RtSend frame], c, Ret tt)
  | Raise e => ([], c, Raise e)
  end.

Definition session_config : pydict :=
  [ (lit "type", JStr (lit "session.update"));
    (lit "session", JDict
       [ (lit "modalities", JList [JStr (lit "text")]);
         (lit "input_audio_format", JStr (lit "pcm16"));
         (lit "input_audio_transcription", JDict [(lit "model", JStr (lit "whisper-1"))]);
         (lit "turn_detection", JNull) ]) ].

Definition _configure_session : M RealtimeClient unit := send session_config.

Definition connect : M RealtimeClient bool :=
  try_except
    (lift websockets_connect;;
     modify (λ c, {| ws := true; _connected := _connected c |});;
     modify (λ c, {| ws := ws c; _connected := true |});;
     _configure_session;;
     mret true)
    [ (Exception, λ _, mret false) ].

Definition send_audio (audio_data : bytes) : M RealtimeClient unit :=
  c ← get_state;
  if negb (_connected c) || negb (ws c) then mret tt
  else
    send [ (lit "type", JStr (lit "input_audio_buffer.append"));
           (lit "audio", JStr (b64encode audio_data)) ].

Definition commit_audio : M RealtimeClient unit :=
  c ← get_state;
  if negb (_connected c) || negb (ws c) then mret tt
  else
    send [ (lit "type", JStr (lit "input_audio_buffer.commit")) ];;
    send [ (lit "type", JStr (lit "response.create"));
           (lit "response", JDict [(lit "modalities", JList [JStr (lit "text")])]) ].

(** The body of [async for message in self.ws] in [receive_messages],
    with the local variable [transcription] threaded through.  The
    outcome is how the loop is left: [Ret v] when the method returns [v]
    from inside the loop, [Raise e] with the value of [transcription] at
    that point when an exception leaves it, and the final
    [transcription] when the iteration ends. *)
Inductive loop_exit : Type :=
| Returned (v : json)
| Raised (e : exn) (transcription : json)
| Exhausted (transcription : json).

Fixpoint receive_loop (messages : list incoming) (transcription : json) : loop_exit :=
  match messages with
  | [] => Exhausted transcription
  | IterRaise e :: _ => Raised e transcription
  | Message (Raise e) :: _ => Raised e transcription
  | Message (Ret data) :: rest =>
      match json_get_default data (lit "type") (JStr []) with
      | Raise e => Raised e transcription
      | Ret event_type =>
          if eq_str event_type "conversation.item.input_audio_transcription.completed" then
            match json_get_default data (lit "transcript") (JStr []) with
            | Raise e => Raised e transcription
            | Ret transcript => Returned transcript
            end
          else if eq_str event_type "response.text.done" then
            match json_get_default data (lit "text") (JStr []) with
            | Raise e => Raised e transcription
            | Ret text =>
                if truthy text && negb (truthy transcription)
                then receive_loop rest text
                else receive_loop rest transcription
            end
          else if eq_str event_type "response.done" then
            if truthy transcription then Returned transcription
            else receive_loop rest transcription
          else if eq_str event_type "error" then Returned JNull
          else receive_loop rest transcription
      end
  end.

Definition receive_messages : M RealtimeClient json :=
  c ← get_state;
  if negb (_connected c) || negb (ws c) then mret JNull
  else
    match receive_loop ws_messages (JStr []) with
    | Returned v => mret v
    | Exhausted transcription => mret (or_none transcription)
    | Raised e transcription =>
        try_except (raise e)
          [ (ConnectionClosed, λ _,
               modify (λ c, {| ws := ws c; _connected := false |});;
               mret (or_none transcription));
            (Exception, λ _, mret (or_none transcription)) ]
    end.

Definition close : M RealtimeClient unit :=
  modify (λ c, {| ws := ws c; _connected := false |});;
  c ← get_state;
  if ws c then
    (λ c, match ws_close with
          | Ret _ => ([RtClose], c, Ret tt)
          | Raise e => ([], c, Raise e)
          end);;
    modify (λ c, {| ws := false; _connected := _connected c |})
  else mret tt.

End WithPeers.

End Realtime.

(* ================================================================== *)
(** * voice.py: the voice chat session *)
(* ================================================================== *)

Module Voice.

Record VoiceChatSession : Type := Session {
  conversation_id : pystr;
  api_key : pystr;
  tts_voice : pystr;
  audio_chunks : list bytes;
  realtime_client : option Realtime.RealtimeClient;
  _is_recording : bool
}.

(** [VoiceChatSession(websocket, conversation_id, api_key, tts_voice)] *)
Definition new (conversation_id api_key tts_voice : pystr) : VoiceChatSession :=
  {| conversation_id := conversation_id; api_key := api_key; tts_voice := tts_voice;
     audio_chunks := []; realtime_client := None; _is_recording := false |}.

Definition set_audio_chunks (v : list bytes) (s : VoiceChatSession) : VoiceChatSession :=
  {| conversation_id := conversation_id s; api_key := api_key s; tts_voice := tts_voice s;
     audio_chunks := v; realtime_client := realtime_client s;
     _is_recording := _is_recording s |}.

Definition set_realtime_client (v : option Realtime.RealtimeClient) (s : VoiceChatSession)
    : VoiceChatSession :=
  {| conversation_id := conversation_id s; api_key := api_key s; tts_voice := tts_voice s;
     audio_chunks := audio_chunks s; realtime_client := v;
     _is_recording := _is_recording s |}.

Definition set_is_recording (v : bool) (s : VoiceChatSession) : VoiceChatSession :=
  {| conversation_id := conversation_id s; api_key := api_key s; tts_voice := tts_voice s;
     audio_chunks := audio_chunks s; realtime_client := realtime_client s;
     _is_recording := v |}.

Section WithCollaborators.
Context `{Storage, Council, Peers}.

(** The state a session runs on: its own fields and the store. *)
Record world : Type := World {
  self : VoiceChatSession;
  storage : Store
}.

Definition on_self {A} (m : M VoiceChatSession A) : M world A :=
  zoom self (λ x w, {| self := x; storage := storage w |}) m.

Definition on_storage {A} (m : M Store A) : M world A :=
  zoom storage (λ x w, {| self := self w; storage := x |}) m.

(** A method call on [self.realtime_client]. *)
Definition on_client {A} (m : M Realtime.RealtimeClient A) : M world A := λ w,
  match realtime_client (self w) with
  | Some c =>
      let '(t, c', r) := m c in
      (t, {| self := set_realtime_client (Some c') (self w); storage := storage w |}, r)
  | None => ([], w, Raise (PyExn AttributeError (lit "'NoneType' object has no attribute")))
  end.

Definition send_event (event_type : string) (data : option pydict) : M world unit :=
  let message := [(lit "type", JStr (lit event_type))] in
  let message :=
    match data with
    | Some (kv :: d) => dict_update message (kv :: d)
    | _ => message
    end in
  λ w, match websocket_send_json message with
       | Ret _ => ([WsSendJson message], w, Ret tt)
       | Raise e => ([], w, Raise e)
       end.

Definition _start_recording : M world unit :=
  on_self (modify (set_audio_chunks []));;
  on_self (modify (set_is_recording true));;
  on_self (modify (set_realtime_client (Some Realtime.new)));;
  connected ← on_client Realtime.connect;
  if negb connected then
    send_event "error"
      (Some [(lit "message", JStr (lit "Failed to connect to transcription service"))])
  else
    send_event "recording_started" None.

Definition _stream_audio_response (text : json) : M world unit :=
  if negb (truthy text) then send_event "audio_complete" None
  else
    try_except
      (send_event "audio_start" None;;
       w ← get_state;
       let '(chunks, failure) :=
         text_to_speech_stream (api_key (self w)) text (tts_voice (self w)) in
       emit (Start (TextToSpeechStream text (tts_voice (self w))));;
       foldr (λ chunk rest,
                send_event "audio_response" (Some [(lit "data", JStr (b64encode chunk))]);;
                rest)
             (match failure with
              | Some e => raise e
              | None => emit (Done (TextToSpeechStream text (tts_voice (self w))))
              end)
             chunks;;
       send_event "audio_complete" None)
      [ (Exception, λ e,
           send_event "error"
             (Some [(lit "message", JStr (lit "TTS error: " ++ str_of_exn e))])) ].

Definition _run_council_process (user_query : pystr) : M world unit :=
  w ← get_state;
  let cid := conversation_id (self w) in
  match get_conversation (storage w) cid with
  | None => send_event "error" (Some [(lit "message", JStr (lit "Conversation not found"))])
  | Some conversation =>
      let is_first_message := bool_decide (length (conv_messages conversation) = 0%nat) in
      on_storage (storage_call (AddUserMessage cid user_query)
                    (add_user_message cid user_query));;
      title_task ←
        (if is_first_message
         then Some <$> create_task (GenerateConversationTitle user_query)
                         (generate_conversation_title user_query)
         else mret None);
      send_event "stage1_start" None;;
      stage1_results ← await_call (Stage1CollectResponses user_query)
                         (stage1_collect_responses user_query);
      send_event "stage1_complete" (Some [(lit "data", stage1_results)]);;
      send_event "stage2_start" None;;
      '(stage2_results, label_to_model) ←
        await_call (Stage2CollectRankings user_query stage1_results)
          (stage2_collect_rankings user_query stage1_results);
      aggregate_rankings ←
        call (CalculateAggregateRankings stage2_results label_to_model)
          (calculate_aggregate_rankings stage2_results label_to_model);
      send_event "stage2_complete"
        (Some [ (lit "data", stage2_results);
                (lit "metadata", JDict [ (lit "label_to_model", label_to_model);
                                         (lit "aggregate_rankings", aggregate_rankings) ]) ]);;
      send_event "stage3_start" None;;
      stage3_result ←
        await_call (Stage3SynthesizeFinal user_query stage1_results stage2_results)
          (stage3_synthesize_final user_query stage1_results stage2_results);
      send_event "stage3_complete" (Some [(lit "data", stage3_result)]);;
      on_storage (storage_call
                    (AddAssistantMessage cid stage1_results stage2_results stage3_result)
                    (add_assistant_message cid stage1_results stage2_results stage3_result));;
      match title_task with
      | Some t =>
          title ← await_task t;
          on_storage (storage_call (UpdateConversationTitle cid title)
                        (update_conversation_title cid title));;
          send_event "title_complete"
            (Some [(lit "data", JDict [(lit "title", JStr title)])])
      | None => mret tt
      end;;
      response ← lift (json_get_default stage3_result (lit "response") (JStr []));
      _stream_audio_response response
  end.

(** The test [not transcription or not transcription.strip()]: [None]
    when it holds (nothing was said), the transcribed string when it
    does not.  [strip] exists on strings only. *)
Definition spoken_text (transcription : json) : result (option pystr) :=
  if negb (truthy transcription) then Ret None
  else
    match transcription with
    | JStr t => Ret (if bool_decide (strip t = []) then None else Some t)
    | _ => Raise (PyExn AttributeError (no_attribute transcription "strip"))
    end.

Definition _stop_recording : M world unit :=
  on_self (modify (set_is_recording false));;
  w ← get_state;
  match realtime_client (self w) with
  | None =>
      send_event "error" (Some [(lit "message", JStr (lit "No recording session active"))])
  | Some _ =>
      try_finally
        (try_except
           (on_client Realtime.commit_audio;;
            transcription ← on_client Realtime.receive_messages;
            spoken ← lift (spoken_text transcription);
            match spoken with
            | None =>
                send_event "error" (Some [(lit "message", JStr (lit "No speech detected"))])
            | Some t =>
                send_event "transcription" (Some [(lit "text", JStr t)]);;
                _run_council_process t
            end)
           [ (Exception, λ e,
                send_event "error" (Some [(lit "message", JStr (str_of_exn e))])) ])
        (on_client Realtime.close;;
         on_self (modify (set_realtime_client None)))
  end.

(** [msg_type == s] for the value of [message.get("type")]. *)
Definition type_is (msg_type : option json) (s : string) : bool :=
  match msg_type with
  | Some v => eq_str v s
  | None => false
  end.

Definition handle_message (message : pydict) : M world bool :=
  let msg_type := dict_get message (lit "type") in
  if type_is msg_type "start_recording" then
    _start_recording;; mret true
  else if type_is msg_type "audio" then
    let audio_data := dict_get_default message (lit "data") (JStr []) in
    (if truthy audio_data then
       decoded ← lift (match audio_data with
                       | JStr payload => b64decode payload
                       | _ => Raise (PyExn TypeError (not_bytes_like audio_data))
                       end);
       on_self (modify (λ s, set_audio_chunks (audio_chunks s ++ [decoded]) s));;
       w ← get_state;
       match realtime_client (self w) with
       | Some _ => on_client (Realtime.send_audio decoded)
       | None => mret tt
       end
     else mret tt);;
    mret true
  else if type_is msg_type "stop_recording" then
    _stop_recording;; mret true
  else if type_is msg_type "close" then
    mret false
  else mret true.

(** The [while True] loop of [run] over the messages the client sends;
    when the client has no more to send it closes the socket, normally
    (code 1000, no reason), and [receive_json] raises
    [WebSocketDisconnect(1000, None)], whose text is ["(1000, None)"]. *)
Fixpoint message_loop (received : list (result pydict)) : M world unit :=
  match received with
  | [] => raise (PyExn WebSocketDisconnect (lit "(1000, None)"))
  | r :: rest =>
      data ← lift r;
      should_continue ← handle_message data;
      if should_continue : bool then message_loop rest else mret tt
  end.

(** [run]: the session loop with its error report and cleanup. *)
Definition run (received : list (result pydict)) : M world unit :=
  try_finally
    (try_except (message_loop received)
       [ (Exception, λ e,
            try_except
              (send_event "error" (Some [(lit "message", JStr (str_of_exn e))]))
              [ (Exception, λ _, mret tt) ]) ])
    (w ← get_state;
     match realtime_client (self w) with
     | Some _ => on_client Realtime.close
     | None => mret tt
     end).

End WithCollaborators.

End Voice.

(* ================================================================== *)
(** * main.py: the endpoints *)
(* ================================================================== *)

Module Main.

(** config.py *)
Definition TTS_VOICE : pystr := lit "alloy".

(** [payload.get("sub")] as the parameter of the SQL query; PyJWT accepts a
    [sub] claim only if it is a string. *)
Definition payload_sub (payload : pydict) : option pystr :=
  match dict_get payload (lit "sub") with
  | Some (JStr s) => Some s
  | _ => None
  end.

Section WithCollaborators.
Context `{Storage, Council, Auth.Crypto, Peers}.

(** [POST /api/auth/login] *)
Definition login (db : Users.table) (email password : pystr) : result pydict :=
  match Users.get_user_by_email db email with
  | None => Raise (HTTPExn 401 (lit "Invalid email or password"))
  | Some user =>
      match dict_index user (lit "password_hash") with
      | Raise e => Raise e
      | Ret (JStr password_hash) =>
          match Auth.verify_password password password_hash with
          | Raise e => Raise e
          | Ret false => Raise (HTTPExn 401 (lit "Invalid email or password"))
          | Ret true =>
              match dict_index user (lit "id"), dict_index user (lit "email"),
                    dict_index user (lit "is_admin") with
              | Ret id, Ret user_email, Ret is_admin =>
                  match Auth.create_token id user_email is_admin with
                  | Raise e => Raise e
                  | Ret token =>
                      let user_response :=
                        filter (λ kv, kv.1 ≠ lit "password_hash") user in
                      Ret [ (lit "token", JStr token); (lit "user", JDict user_response) ]
                  end
              | Raise e, _, _ | _, Raise e, _ | _, _, Raise e => Raise e
              end
          end
      | Ret password_hash =>
          Raise (PyExn AttributeError (no_attribute password_hash "encode"))
      end
  end.

(** Modelled from the spec: [run_full_council] is defined in [council.py],
    which the sources only import.  The atomic contract runs the three
    stages in sequence with the same stage functions as the progressive
    one and returns the stage results together with the ranking
    metadata. *)
Definition run_full_council {S} (user_query : pystr) : M S (json * json * json * json) :=
  emit (Start (RunFullCouncil user_query));;
  emit (Await (RunFullCouncil user_query));;
  stage1_results ← await_call (Stage1CollectResponses user_query)
                     (stage1_collect_responses user_query);
  '(stage2_results, label_to_model) ←
    await_call (Stage2CollectRankings user_query stage1_results)
      (stage2_collect_rankings user_query stage1_results);
  aggregate_rankings ←
    call (CalculateAggregateRankings stage2_results label_to_model)
      (calculate_aggregate_rankings stage2_results label_to_model);
  stage3_result ←
    await_call (Stage3SynthesizeFinal user_query stage1_results stage2_results)
      (stage3_synthesize_final user_query stage1_results stage2_results);
  emit (Done (RunFullCouncil user_query));;
  mret (stage1_results, stage2_results, stage3_result,
        JDict [ (lit "label_to_model", label_to_model);
                (lit "aggregate_rankings", aggregate_rankings) ]).

(** The two precondition checks shared by the message endpoints:
    the conversation, or the [HTTPException] raised. *)
Definition owned_conversation (conversation_id : pystr) (current_user : pydict)
    : M Store conversation :=
  st ← get_state;
  match get_conversation st conversation_id with
  | None => raise (HTTPExn 404 (lit "Conversation not found"))
  | Some conversation =>
      id ← lift (dict_index current_user (lit "id"));
      if owner_differs (conv_user_id conversation) id
      then raise (HTTPExn 403 (lit "Access denied"))
      else mret conversation
  end.

(** [POST /api/conversations/{conversation_id}/message] *)
Definition send_message (conversation_id content : pystr) (current_user : pydict)
    : M Store pydict :=
  conversation ← owned_conversation conversation_id current_user;
  let is_first_message := bool_decide (length (conv_messages conversation) = 0%nat) in
  storage_call (AddUserMessage conversation_id content)
    (add_user_message conversation_id content);;
  (if is_first_message then
     title ← await_call (GenerateConversationTitle content)
               (generate_conversation_title content);
     storage_call (UpdateConversationTitle conversation_id title)
       (update_conversation_title conversation_id title)
   else mret tt);;
  '(stage1_results, stage2_results, stage3_result, metadata) ← run_full_council content;
  storage_call (AddAssistantMessage conversation_id stage1_results stage2_results stage3_result)
    (add_assistant_message conversation_id stage1_results stage2_results stage3_result);;
  mret [ (lit "stage1", stage1_results); (lit "stage2", stage2_results);
         (lit "stage3", stage3_result); (lit "metadata", metadata) ].

(** One server-sent event: [yield f"data: {json.dumps(ev)}\n\n"]. *)
Definition yield_ (ev : pydict) : M Store unit := emit (Yield ev).

(** The statements inside the [try] of [event_generator]. *)
Definition event_generator_body (conversation_id content : pystr) (is_first_message : bool)
    : M Store unit :=
  storage_call (AddUserMessage conversation_id content)
    (add_user_message conversation_id content);;
  title_task ←
    (if is_first_message
     then Some <$> create_task (GenerateConversationTitle content)
                     (generate_conversation_title content)
     else mret None);
  yield_ [(lit "type", JStr (lit "stage1_start"))];;
  stage1_results ← await_call (Stage1CollectResponses content)
                     (stage1_collect_responses content);
  yield_ [(lit "type", JStr (lit "stage1_complete")); (lit "data", stage1_results)];;
  yield_ [(lit "type", JStr (lit "stage2_start"))];;
  '(stage2_results, label_to_model) ←
    await_call (Stage2CollectRankings content stage1_results)
      (stage2_collect_rankings content stage1_results);
  aggregate_rankings ←
    call (CalculateAggregateRankings stage2_results label_to_model)
      (calculate_aggregate_rankings stage2_results label_to_model);
  yield_ [ (lit "type", JStr (lit "stage2_complete")); (lit "data", stage2_results);
           (lit "metadata", JDict [ (lit "label_to_model", label_to_model);
                                    (lit "aggregate_rankings", aggregate_rankings) ]) ];;
  yield_ [(lit "type", JStr (lit "stage3_start"))];;
  stage3_result ←
    await_call (Stage3SynthesizeFinal content stage1_results stage2_results)
      (stage3_synthesize_final content stage1_results stage2_results);
  yield_ [(lit "type", JStr (lit "stage3_complete")); (lit "data", stage3_result)];;
  match title_task with
  | Some t =>
      title ← await_task t;
      storage_call (UpdateConversationTitle conversation_id title)
        (update_conversation_title conversation_id title);;
      yield_ [ (lit "type", JStr (lit "title_complete"));
               (lit "data", JDict [(lit "title", JStr title)]) ]
  | None => mret tt
  end;;
  storage_call (AddAssistantMessage conversation_id stage1_results stage2_results stage3_result)
    (add_assistant_message conversation_id stage1_results stage2_results stage3_result);;
  yield_ [(lit "type", JStr (lit "complete"))].

Definition event_generator (conversation_id content : pystr) (is_first_message : bool)
    : M Store unit :=
  try_except (event_generator_body conversation_id content is_first_message)
    [ (Exception, λ e,
         yield_ [(lit "type", JStr (lit "error")); (lit "message", JStr (str_of_exn e))]) ].

(** [POST /api/conversations/{conversation_id}/message/stream]: the
    checks, then the stream of [event_generator]. *)
Definition send_message_stream (conversation_id content : pystr) (current_user : pydict)
    : M Store unit :=
  conversation ← owned_conversation conversation_id current_user;
  let is_first_message := bool_decide (length (conv_messages conversation) = 0%nat) in
  event_generator conversation_id content is_first_message.

(** [not x] for an optional string: [None] or the empty string. *)
Definition falsy (x : option pystr) : bool :=
  match x with
  | None | Some [] => true
  | Some _ => false
  end.

Definition close (code : Z) (reason : string) : M Store unit :=
  emit (WsClose code (lit reason)).

(** [WEBSOCKET /api/conversations/{conversation_id}/voice]; [received] is
    what the client sends once the session runs. *)
Definition voice_chat_endpoint (db : Users.table) (OPENAI_API_KEY : option pystr)
    (conversation_id : pystr) (token : option pystr) (received : list (result pydict))
    : M Store unit :=
  match token with
  | None | Some [] => close 4001 "Authentication required"
  | Some token =>
      payload ← lift (Auth.verify_token token);
      match payload with
      | None => close 4001 "Invalid token"
      | Some payload =>
          match Users.get_user_by_id db (payload_sub payload) with
          | None => close 4001 "User not found"
          | Some current_user =>
              match OPENAI_API_KEY with
              | None | Some [] => close 4001 "OpenAI API key not configured"
              | Some key =>
                  st ← get_state;
                  match get_conversation st conversation_id with
                  | None => close 4004 "Conversation not found"
                  | Some conversation =>
                      id ← lift (dict_index current_user (lit "id"));
                      if owner_differs (conv_user_id conversation) id
                      then close 4003 "Access denied"
                      else
                        emit WsAccept;;
                        let session := Voice.new conversation_id key TTS_VOICE in
                        zoom (Voice.World session) (λ w _, Voice.storage w)
                          (try_except (Voice.run received)
                             [ (WebSocketDisconnect, λ _, mret tt);
                               (Exception, λ e,
                                  try_except
                                    (λ w,
                                       let message :=
                                         [ (lit "type", JStr (lit "error"));
                                           (lit "message", JStr (str_of_exn e)) ] in
                                       match websocket_send_json message with
                                       | Ret _ => ([WsSendJson message], w, Ret tt)
                                       | Raise e' => ([], w, Raise e')
                                       end)
                                    [ (Exception, λ _, mret tt) ]) ])
                  end
              end
          end
      end
  end.

End WithCollaborators.

End Main.

(* ================================================================== *)
(** * Stage 1 of the council: the response collector *)
(* ================================================================== *)

Module Stage1.

(** Modelled from the spec: the data model's [ModelAnswer], "model
    identifier, answer text | failure reason, latency". *)
Inductive answer : Type :=
| Answered (text : pystr)
| Failed (reason : pystr).

Record ModelAnswer : Type := Answer {
  model : pystr;
  outcome : answer;
  latency : N
}.

Section WithProvider.

(** Modelled from the spec: the collaborator [complete_chat(model_id,
    messages) -> text | error], with the time the call takes. *)
Variable complete_chat : pystr → pystr → N * result pystr.

(** The per-call timeout. *)
Variable timeout : N.

(** Modelled from the spec: how one call settles.  "A model call that
    errors or times out yields a ModelAnswer carrying a failure reason
    rather than aborting the whole stage." *)
Definition settle (user_query model : pystr) : ModelAnswer :=
  let '(elapsed, r) := complete_chat model user_query in
  if (timeout <? elapsed)%N
  then {| model := model; outcome := Failed (lit "timeout"); latency := timeout |}
  else {| model := model;
          outcome := match r with
                     | Ret text => Answered text
                     | Raise e => Failed (str_of_exn e)
                     end;
          latency := elapsed |}.

(** Modelled from the spec: the fan-in of the stage, which [council.py]
    would implement.  There is one slot per configured model, empty until
    the call of that model has settled. *)
Definition on_settled (user_query : pystr) (models : list pystr)
    (slots : list (option ModelAnswer)) (i : nat) : list (option ModelAnswer) :=
  match models !! i with
  | Some m => <[i := Some (settle user_query m)]> slots
  | None => slots
  end.

(** Modelled from the spec: [stage1_collect_responses] of [council.py],
    which the sources only import.  One call per configured model is
    issued concurrently; [completion] lists the positions of the models
    in the order in which their calls settle.  Each settled call fills
    the slot of its model, and the stage returns the slots in the order
    of the configured list once every call has settled ([None] while
    some call has not). *)
Definition stage1_collect_responses (user_query : pystr) (models : list pystr)
    (completion : list nat) : option (list ModelAnswer) :=
  mapM id (foldl (on_settled user_query models)
             (replicate (length models) None) completion).

(** Modelled from the spec: the completion order that the latencies of the
    calls induce, for the scenario "inject artificial latency skew".  The
    positions are sorted by the time at which each call settles (the
    timeout, for a call that exceeds it). *)
Definition settles_no_later (user_query : pystr) (models : list pystr) (i j : nat) : Prop :=
  match models !! i, models !! j with
  | Some a, Some b => (latency (settle user_query a) ≤ latency (settle user_query b))%N
  | _, _ => True
  end.

#[local] Instance settles_no_later_dec q ms i j : Decision (settles_no_later q ms i j).
Proof. unfold settles_no_later. repeat case_match; apply _. Defined.

Definition completion_by_latency (user_query : pystr) (models : list pystr) : list nat :=
  merge_sort (settles_no_later user_query models) (seq 0 (length models)).

End WithProvider.

End Stage1.


(* ================================================================== *)
(** * users.py: writes to the user table *)
(* ================================================================== *)

Module UsersWrite.

(** [create_user]: [uuid4] and [utcnow_isoformat] are the values of
    [str(uuid.uuid4())] and [datetime.utcnow().isoformat()] at the call.
    The INSERT violates a constraint ([sqlite3.IntegrityError]) when the id
    (PRIMARY KEY) or the email (UNIQUE) is already in the table; a new row
    gets the next rowid.  The returned dictionary holds the Python values
    passed in, so [is_admin] is a [bool] here. *)
Definition create_user (uuid4 utcnow_isoformat : pystr) (db : Users.table)
    (email password_hash name : pystr) (is_admin : bool) : Users.table * result pydict :=
  let user_id := uuid4 in
  let created_at := utcnow_isoformat in
  if bool_decide (Exists (λ r, Users.row_id r = user_id ∨ Users.row_email r = email) db)
  then (db, Raise (PyExn ValueError
                     (lit "User with email " ++ email ++ lit " already exists")))
  else
    (db ++ [ {| Users.row_id := user_id; Users.row_email := email;
                Users.row_password_hash := password_hash; Users.row_name := name;
                Users.row_is_admin := is_admin; Users.row_created_at := created_at |} ],
     Ret [ (lit "id", JStr user_id); (lit "email", JStr email); (lit "name", JStr name);
           (lit "is_admin", JBool is_admin); (lit "created_at", JStr created_at) ]).

(** [delete_user]: [DELETE FROM users WHERE id = ?], and [rowcount > 0]. *)
Definition delete_user (db : Users.table) (user_id : pystr) : Users.table * bool :=
  (filter (λ r, Users.row_id r ≠ user_id) db,
   bool_decide (0 < length (filter (λ r, Users.row_id r = user_id) db))%nat).

(** [user_exists]: [SELECT COUNT( * ) FROM users], and [count > 0]. *)
Definition user_exists (db : Users.table) : bool :=
  bool_decide (0 < length db)%nat.

End UsersWrite.

(* ================================================================== *)
(** * auth.py: password hashing *)
(* ================================================================== *)

(** [bcrypt.gensalt(rounds)] and [bcrypt.hashpw(password, salt)]. *)
Class Bcrypt : Type := {
  bcrypt_gensalt : Z → pystr;
  bcrypt_hashpw : pystr → pystr → result pystr
}.

(** [hash_password] *)
Definition hash_password `{Bcrypt} (password : pystr) : result pystr :=
  let salt := bcrypt_gensalt 12 in
  bcrypt_hashpw password salt.

(* ================================================================== *)
(** * middleware.py *)
(* ================================================================== *)

Module Middleware.

Section WithCrypto.
Context `{Auth.Crypto}.

(** [get_current_user], on the token of the bearer credentials. *)
Definition get_current_user (db : Users.table) (token : pystr) : result pydict :=
  match Auth.verify_token token with
  | Raise e => Raise e
  | Ret None => Raise (HTTPExn 401 (lit "Invalid or expired token"))
  | Ret (Some payload) =>
      let user_id := Main.payload_sub payload in
      match Users.get_user_by_id db user_id with
      | None => Raise (HTTPExn 401 (lit "User not found"))
      | Some user => Ret user
      end
  end.

(** [get_current_admin], after its dependency [get_current_user]. *)
Definition get_current_admin (db : Users.table) (token : pystr) : result pydict :=
  match get_current_user db token with
  | Raise e => Raise e
  | Ret current_user =>
      if negb (truthy (dict_get_default current_user (lit "is_admin") JNull))
      then Raise (HTTPExn 403 (lit "Admin privileges required"))
      else Ret current_user
  end.

(** [get_optional_user]: [credentials] is [None] without a bearer header. *)
Definition get_optional_user (db : Users.table) (credentials : option pystr)
    : result (option pydict) :=
  match credentials with
  | None => Ret None
  | Some token =>
      match Auth.verify_token token with
      | Raise e => Raise e
      | Ret None => Ret None
      | Ret (Some payload) =>
          let user_id := Main.payload_sub payload in
          Ret (Users.get_user_by_id db user_id)
      end
  end.

End WithCrypto.

End Middleware.

(* ================================================================== *)
(** * main.py: startup and the admin endpoints *)
(* ================================================================== *)

Module Admin.

(** What the process reads from its environment at these calls. *)
Class Host : Type := {
  ADMIN_EMAIL : pystr;
  ADMIN_PASSWORD : pystr;
  uuid4 : pystr;
  utcnow_isoformat : pystr
}.

Section WithHost.
Context `{Host, Bcrypt}.

(** [startup_event]: the table after it, and the exception it raised. *)
Definition startup_event (db : Users.table) : Users.table * result unit :=
  if negb (UsersWrite.user_exists db) then
    match hash_password ADMIN_PASSWORD with
    | Raise e => (db, Raise e)
    | Ret password_hash =>
        match UsersWrite.create_user uuid4 utcnow_isoformat db
                ADMIN_EMAIL password_hash (lit "Admin") true with
        | (db', Raise e) => (db', Raise e)
        | (db', Ret _) => (db', Ret tt)
        end
    end
  else (db, Ret tt).

(** [POST /api/admin/users], for an authenticated admin: the [try] covers
    the hashing and the insertion, and turns a [ValueError] into a 400. *)
Definition create_user (db : Users.table) (email password name : pystr) (is_admin : bool)
    : Users.table * result pydict :=
  let attempt : Users.table * result pydict :=
    match hash_password password with
    | Raise e => (db, Raise e)
    | Ret password_hash =>
        UsersWrite.create_user uuid4 utcnow_isoformat db email password_hash name is_admin
    end in
  (attempt.1,
   try_except_pure attempt.2
     [ (ValueError, λ e, Raise (HTTPExn 400 (str_of_exn e))) ]).

(** [a == b] between a string and a dynamic value. *)
Definition str_eq (a : pystr) (b : json) : bool :=
  match b with
  | JStr x => bool_decide (a = x)
  | _ => false
  end.

(** [DELETE /api/admin/users/{user_id}], for the authenticated admin
    [current_user]. *)
Definition delete_user (db : Users.table) (user_id : pystr) (current_user : pydict)
    : Users.table * result pydict :=
  match dict_index current_user (lit "id") with
  | Raise e => (db, Raise e)
  | Ret id =>
      if str_eq user_id id then
        (db, Raise (HTTPExn 400 (lit "Cannot delete your own account")))
      else
        let '(db', deleted) := UsersWrite.delete_user db user_id in
        if negb deleted then (db', Raise (HTTPExn 404 (lit "User not found")))
        else (db', Ret [(lit "message", JStr (lit "User deleted successfully"))])
  end.

End WithHost.

End Admin.

(* ================================================================== *)
(** * openai_realtime.py: one-shot transcription *)
(* ================================================================== *)

Module Transcribe.

Section WithPeers.
Context `{Peers}.

(** The statements inside the [try] of [transcribe_audio]. *)
Definition transcribe_body (audio_chunks : list bytes) : M Realtime.RealtimeClient json :=
  connected ← Realtime.connect;
  if negb connected then mret JNull
  else
    foldr (λ chunk rest, Realtime.send_audio chunk;; rest) (mret tt) audio_chunks;;
    Realtime.commit_audio;;
    Realtime.receive_messages.

(** [transcribe_audio]: a fresh client, the body, and [client.close()] in
    the [finally]. *)
Definition transcribe_audio (audio_chunks : list bytes)
    : trace * Realtime.RealtimeClient * result json :=
  run (try_finally (transcribe_body audio_chunks) Realtime.close) Realtime.new.

End WithPeers.

End Transcribe.

(* ================================================================== *)
(** * main.py: reading a conversation *)
(* ================================================================== *)

Module Conversations.

Section WithStorage.
Context `{Storage}.

(** [GET /api/conversations/{conversation_id}] *)
Definition get_conversation (conversation_id : pystr) (current_user : pydict)
    : M Store conversation :=
  st ← get_state;
  match get_conversation st conversation_id with
  | None => raise (HTTPExn 404 (lit "Conversation not found"))
  | Some conversation =>
      id ← lift (dict_index current_user (lit "id"));
      if owner_differs (conv_user_id conversation) id
      then raise (HTTPExn 403 (lit "Access denied"))
      else mret conversation
  end.

End WithStorage.

End Conversations.

(* ================================================================== *)
(** * Concrete collaborators, for running the model *)
(* ================================================================== *)

Module Example.

(** A store that keeps conversations in a map and appends messages. *)
Definition append_message (conversation_id : pystr) (message : json)
    (st : gmap pystr conversation) : gmap pystr conversation * result unit :=
  (alter (λ c, {| conv_id := conv_id c; conv_created_at := conv_created_at c;
                  conv_title := conv_title c;
                  conv_messages := conv_messages c ++ [message];
                  conv_user_id := conv_user_id c |}) conversation_id st,
   Ret tt).

#[local] Instance storage : Storage := {|
  Store := gmap pystr conversation;
  get_conversation st conversation_id := st !! conversation_id;
  add_user_message conversation_id content :=
    append_message conversation_id
      (JDict [(lit "role", JStr (lit "user")); (lit "content", JStr content)]);
  update_conversation_title conversation_id title st :=
    (alter (λ c, {| conv_id := conv_id c; conv_created_at := conv_created_at c;
                    conv_title := title; conv_messages := conv_messages c;
                    conv_user_id := conv_user_id c |}) conversation_id st,
     Ret tt);
  add_assistant_message conversation_id stage1 stage2 stage3 :=
    append_message conversation_id
      (JDict [ (lit "role", JStr (lit "assistant")); (lit "stage1", stage1);
               (lit "stage2", stage2); (lit "stage3", stage3) ])
|}.

Definition fresh (owner : string) : conversation :=
  {| conv_id := lit "c1"; conv_created_at := lit "2025-01-01T00:00:00";
     conv_title := lit "New Conversation"; conv_messages := [];
     conv_user_id := Some (lit owner) |}.

(** One conversation, owned by user [u1], without messages. *)
Definition store1 : gmap pystr conversation := {[ lit "c1" := fresh "u1" ]}.

(** The same conversation after one completed turn. *)
Definition answered : conversation :=
  {| conv_id := lit "c1"; conv_created_at := lit "2025-01-01T00:00:00";
     conv_title := lit "Greeting";
     conv_messages := [JDict [(lit "role", JStr (lit "user"))];
                       JDict [(lit "role", JStr (lit "assistant"))]];
     conv_user_id := Some (lit "u1") |}.

Definition store2 : gmap pystr conversation := {[ lit "c1" := answered ]}.

(** A council whose calls all return. *)
#[local] Instance council : Council := {|
  stage1_collect_responses _ := Ret (JList [JStr (lit "answer")]);
  stage2_collect_rankings _ _ :=
    Ret (JList [JStr (lit "ranking")], JDict [(lit "Response A", JStr (lit "model-a"))]);
  calculate_aggregate_rankings _ _ := Ret (JList [JStr (lit "model-a")]);
  stage3_synthesize_final _ _ _ := Ret (JDict [(lit "response", JStr (lit "final"))]);
  generate_conversation_title _ := Ret (lit "Greeting")
|}.

(** A council whose first stage raises. *)
Definition failing_council : Council := {|
  stage1_collect_responses _ := Raise (PyExn RuntimeError (lit "provider down"));
  stage2_collect_rankings _ _ := Ret (JList [], JDict []);
  calculate_aggregate_rankings _ _ := Ret (JList []);
  stage3_synthesize_final _ _ _ := Ret (JDict []);
  generate_conversation_title _ := Ret (lit "Greeting")
|}.

(** A token checker that knows one good and one expired token. *)
#[local] Instance crypto : Auth.Crypto := {|
  Auth.JWT_SECRET := lit "change-this-secret-in-production";
  Auth.jwt_decode token _ _ :=
    if bool_decide (token = lit "good") then Ret [(lit "sub", JStr (lit "u1"))]
    else if bool_decide (token = lit "ghost") then Ret [(lit "sub", JStr (lit "u9"))]
    else if bool_decide (token = lit "old")
         then Raise (PyExn ExpiredSignatureError (lit "Signature has expired"))
         else Raise (PyExn DecodeError (lit "Not enough segments"));
  Auth.jwt_encode _ _ _ := Ret (lit "good");
  Auth.bcrypt_checkpw password password_hash :=
    Ret (bool_decide (password_hash = lit "bcrypt:" ++ password));
  Auth.utcnow := 1700000000
|}.

Definition alice : Users.row :=
  {| Users.row_id := lit "u1"; Users.row_email := lit "alice@example.com";
     Users.row_password_hash := lit "bcrypt:secret"; Users.row_name := lit "Alice";
     Users.row_is_admin := true; Users.row_created_at := lit "2025-01-01T00:00:00" |}.

Definition bob : Users.row :=
  {| Users.row_id := lit "u2"; Users.row_email := lit "bob@example.com";
     Users.row_password_hash := lit "bcrypt:hunter2"; Users.row_name := lit "Bob";
     Users.row_is_admin := false; Users.row_created_at := lit "2025-02-01T00:00:00" |}.

Definition db : Users.table := [alice; bob].

(** Peers that accept everything; the provider transcribes [heard]. *)
Definition peers (heard : pystr) : Peers := {|
  websocket_send_json _ := Ret tt;
  websockets_connect := Ret tt;
  ws_send _ := Ret tt;
  ws_messages :=
    [ Message (Ret (JDict
        [ (lit "type", JStr (lit "conversation.item.input_audio_transcription.completed"));
          (lit "transcript", JStr heard) ])) ];
  ws_close := Ret tt;
  text_to_speech_stream _ _ _ := ([[Byte.x49; Byte.x44; Byte.x33]], None);
  b64encode _ := lit "SUQz";
  b64decode _ := Ret [Byte.x00; Byte.x01]
|}.

(** A session on [store1], with a buffered chunk. *)
Definition world (client : option Realtime.RealtimeClient) (recording : bool)
    : @Voice.world storage :=
  @Voice.World storage
    {| Voice.conversation_id := lit "c1"; Voice.api_key := lit "sk-test";
       Voice.tts_voice := lit "alloy"; Voice.audio_chunks := [[Byte.x07]];
       Voice.realtime_client := client; Voice._is_recording := recording |}
    store1.

Definition alice_user : pydict := [(lit "id", JStr (lit "u1"))].
Definition bob_user : pydict := [(lit "id", JStr (lit "u2"))].

(** A provider for three models: the first answers, the second exceeds a
    timeout of one second, the third fails at once. *)
Definition complete_chat (model user_query : pystr) : N * result pystr :=
  if bool_decide (model = lit "model-a") then (900%N, Ret (lit "answer a"))
  else if bool_decide (model = lit "model-b") then (5000%N, Ret (lit "answer b"))
  else (20%N, Raise (PyExn RuntimeError (lit "provider down"))).

End Example.


(* ================================================================== *)
(** * More concrete collaborators *)
(* ================================================================== *)

Module Sample.

(** [t] without its prefix [p], if it has it. *)
Fixpoint after_prefix (p t : pystr) : option pystr :=
  match p, t with
  | [], _ => Some t
  | _ :: _, [] => None
  | a :: p', b :: t' => if decide (a = b) then after_prefix p' t' else None
  end.

(** A token format that carries the [sub] claim in the clear, and a
    password hash that carries the password. *)
Definition crypto : Auth.Crypto := {|
  Auth.JWT_SECRET := lit "change-this-secret-in-production";
  Auth.jwt_encode payload _ _ :=
    match dict_get payload (lit "sub") with
    | Some (JStr s) => Ret (lit "jwt." ++ s)
    | _ => Raise (PyExn TypeError (lit "sub must be a string"))
    end;
  Auth.jwt_decode token _ _ :=
    match after_prefix (lit "jwt.") token with
    | Some s => Ret [(lit "sub", JStr s)]
    | None => Raise (PyExn DecodeError (lit "Not enough segments"))
    end;
  Auth.bcrypt_checkpw password password_hash :=
    Ret (bool_decide (password_hash = lit "bcrypt:" ++ password));
  Auth.utcnow := 1700000000
|}.

Definition bcrypt : Bcrypt := {|
  bcrypt_gensalt _ := lit "$2b$12$salt";
  bcrypt_hashpw password _ := Ret (lit "bcrypt:" ++ password)
|}.

Definition host : Admin.Host := {|
  Admin.ADMIN_EMAIL := lit "admin@example.com";
  Admin.ADMIN_PASSWORD := lit "admin123";
  Admin.uuid4 := lit "u3";
  Admin.utcnow_isoformat := lit "2025-03-01T00:00:00"
|}.

Definition carol : Users.row :=
  {| Users.row_id := lit "u3"; Users.row_email := lit "carol@example.com";
     Users.row_password_hash := lit "bcrypt:pw"; Users.row_name := lit "Carol";
     Users.row_is_admin := false; Users.row_created_at := lit "2025-03-01T00:00:00" |}.


End Sample.


(* ================================================================== *)
(** * Vocabulary of the properties *)
(* ================================================================== *)

(** [outcome_is o r]: the run [r] has the outcome [o]. *)
Definition outcome_is {A} (o r : A) : Prop := o = r.

(** ** users.py *)

(** The keys of a user dictionary on the public read paths. *)
Definition public_keys : list pystr :=
  lit <$> ["id"; "email"; "name"; "is_admin"; "created_at"]%string.

(** ** auth.py *)


(** ** The voice endpoint: session setup *)

(** The causes for which a connection attempt is refused. *)
Inductive setup_failure : Type :=
| MissingCredential
| InvalidCredential
| UnknownUser
| UnconfiguredProvider
| UnknownConversation
| AccessDenied.

(** The cause of failure of an attempt: the first requirement, in the order
    credential, user, provider key, conversation, ownership, that does not
    hold; [None] when all of them hold (or the token check itself raises). *)
Definition setup_failure_of `{Storage, Auth.Crypto} (db : Users.table)
    (OPENAI_API_KEY : option pystr) (st : Store) (conversation_id : pystr)
    (token : option pystr) : option setup_failure :=
  match token with
  | None | Some [] => Some MissingCredential
  | Some token =>
      match Auth.verify_token token with
      | Raise _ => None
      | Ret None => Some InvalidCredential
      | Ret (Some payload) =>
          match Users.get_user_by_id db (Main.payload_sub payload) with
          | None => Some UnknownUser
          | Some current_user =>
              if Main.falsy OPENAI_API_KEY then Some UnconfiguredProvider
              else
                match get_conversation st conversation_id with
                | None => Some UnknownConversation
                | Some conversation =>
                    if bool_decide (conv_user_id conversation
                                    = Main.payload_sub payload)
                    then None else Some AccessDenied
                end
          end
      end
  end.

(** The close code and reason [voice_chat_endpoint] uses for each cause. *)
Definition close_code (c : setup_failure) : Z :=
  match c with
  | MissingCredential | InvalidCredential | UnknownUser | UnconfiguredProvider => 4001
  | UnknownConversation => 4004
  | AccessDenied => 4003
  end.

Definition close_reason (c : setup_failure) : pystr :=
  match c with
  | MissingCredential => lit "Authentication required"
  | InvalidCredential => lit "Invalid token"
  | UnknownUser => lit "User not found"
  | UnconfiguredProvider => lit "OpenAI API key not configured"
  | UnknownConversation => lit "Conversation not found"
  | AccessDenied => lit "Access denied"
  end.

(** The code of the first close frame of a run. *)
Fixpoint closed_with (t : trace) : option Z :=
  match t with
  | [] => None
  | WsClose code _ :: _ => Some code
  | _ :: t' => closed_with t'
  end.

(** The claim that the close code tells the causes apart. *)
Definition distinct_close_code_per_cause `{Storage, Council, Auth.Crypto, Peers} : Prop :=
  ∀ db key st conversation_id token1 token2 received c1 c2,
    setup_failure_of db key st conversation_id token1 = Some c1 →
    setup_failure_of db key st conversation_id token2 = Some c2 →
    c1 ≠ c2 →
    closed_with (trace_of (run (Main.voice_chat_endpoint db key conversation_id token1 received) st))
    ≠ closed_with (trace_of (run (Main.voice_chat_endpoint db key conversation_id token2 received) st)).

(** ** The streaming endpoint *)

(** The server-sent events of a run, in order. *)
Definition events (t : trace) : list pydict :=
  omap (λ a, match a with Yield ev => Some ev | _ => None end) t.

Definition event_type (ev : pydict) : json := dict_get_default ev (lit "type") JNull.




Definition error_event (e : exn) : pydict :=
  [(lit "type", JStr (lit "error")); (lit "message", JStr (str_of_exn e))].

(** ** The atomic endpoint *)

(** The trace of the three stages as [run_full_council] runs them. *)
Definition council_trace (q : pystr) (stage1 stage2 label_to_model aggregate stage3 : json)
    : trace :=
  [ Start (RunFullCouncil q); Await (RunFullCouncil q);
    Start (Stage1CollectResponses q); Await (Stage1CollectResponses q);
    Done (Stage1CollectResponses q);
    Start (Stage2CollectRankings q stage1); Await (Stage2CollectRankings q stage1);
    Done (Stage2CollectRankings q stage1);
    Start (CalculateAggregateRankings stage2 label_to_model);
    Done (CalculateAggregateRankings stage2 label_to_model);
    Start (Stage3SynthesizeFinal q stage1 stage2); Await (Stage3SynthesizeFinal q stage1 stage2);
    Done (Stage3SynthesizeFinal q stage1 stage2);
    Done (RunFullCouncil q) ].

(** ** The voice session *)

Definition audio_append_frame `{Peers} (decoded : bytes) : pydict :=
  [ (lit "type", JStr (lit "input_audio_buffer.append"));
    (lit "audio", JStr (b64encode decoded)) ].

Definition no_recording_event : pydict :=
  [(lit "type", JStr (lit "error")); (lit "message", JStr (lit "No recording session active"))].

Definition no_speech_event : pydict :=
  [(lit "type", JStr (lit "error")); (lit "message", JStr (lit "No speech detected"))].

Definition commit_frames : list pydict :=
  [ [ (lit "type", JStr (lit "input_audio_buffer.commit")) ];
    [ (lit "type", JStr (lit "response.create"));
      (lit "response", JDict [(lit "modalities", JList [JStr (lit "text")])]) ] ].

(** The session is idle: no transcription client, not recording. *)
Definition idle (s : Voice.VoiceChatSession) : Prop :=
  Voice.realtime_client s = None ∧ Voice._is_recording s = false.

(** ** Title generation and the stages *)

Definition is_title (a : action) : bool :=
  match a with
  | Start (GenerateConversationTitle _) | Await (GenerateConversationTitle _)
  | Done (GenerateConversationTitle _) => true
  | _ => false
  end.

Definition is_title_start (a : action) : bool :=
  match a with Start (GenerateConversationTitle _) => true | _ => false end.

Definition is_title_await (a : action) : bool :=
  match a with Await (GenerateConversationTitle _) => true | _ => false end.

Definition is_title_done (a : action) : bool :=
  match a with Done (GenerateConversationTitle _) => true | _ => false end.

Definition is_stage1_start (a : action) : bool :=
  match a with Start (Stage1CollectResponses _) => true | _ => false end.

Definition is_stage3_done (a : action) : bool :=
  match a with Done (Stage3SynthesizeFinal _ _ _) => true | _ => false end.

(** The turn is handed to the store, and the store has taken it. *)
Definition is_persist (a : action) : bool :=
  match a with Start (AddAssistantMessage _ _ _ _) => true | _ => false end.

Definition is_persisted (a : action) : bool :=
  match a with Done (AddAssistantMessage _ _ _ _) => true | _ => false end.

(** Every [q]-action of the trace comes after some [p]-action. *)
Fixpoint precedes_from (seen : bool) (p q : action → bool) (t : trace) : bool :=
  match t with
  | [] => true
  | a :: t' => (if q a then seen else true) && precedes_from (seen || p a) p q t'
  end.

Definition precedes (p q : action → bool) (t : trace) : bool := precedes_from false p q t.

(** The claim C3 as stated, for the trace of a completed first-message turn:
    the title call is made, started before Stage 1 begins, and awaited after
    Stage 3 completes and before the turn is persisted. *)
Definition title_in_parallel (t : trace) : Prop :=
  existsb is_title_start t = true
  ∧ existsb is_title_await t = true
  ∧ precedes is_title_start is_stage1_start t = true
  ∧ precedes is_stage3_done is_title_await t = true
  ∧ precedes is_title_await is_persist t = true.

(** What the audio playback does: events to the client and the
    text-to-speech call. *)
Definition is_playback (a : action) : bool :=
  match a with
  | WsSendJson _ | Start (TextToSpeechStream _ _) | Done (TextToSpeechStream _ _) => true
  | _ => false
  end.

Definition playback_only {S A} (m : M S A) : Prop :=
  ∀ s, Forall (λ a, is_playback a = true) (trace_of (run m s)).


(** ** users.py: the table and its columns *)

(** The constraints of the table: ids and emails are unique. *)
Definition constraints_hold (db : Users.table) : Prop :=
  NoDup (Users.row_id <$> db) ∧ NoDup (Users.row_email <$> db).

Definition all_columns : list Users.column :=
  [Users.Id; Users.Email; Users.PasswordHash; Users.Name; Users.IsAdmin; Users.CreatedAt].

Definition public_columns : list Users.column :=
  [Users.Id; Users.Email; Users.Name; Users.IsAdmin; Users.CreatedAt].

(** ** The transcription sub-connection *)

(** A client whose connection is open and marked connected. *)
Definition open_client : Realtime.RealtimeClient :=
  {| Realtime.ws := true; Realtime._connected := true |}.

(** Whether a call of a peer returned. *)
Definition returned {A} (r : result A) : bool :=
  match r with Ret _ => true | Raise _ => false end.

(** The event types [receive_messages] has a branch for. *)
Definition handled_event_types : list string :=
  [ "conversation.item.input_audio_transcription.completed"; "response.text.done";
    "response.done"; "error" ]%string.

(** A well-formed provider event of a type without a branch. *)
Definition unhandled (m : incoming) : Prop :=
  ∃ d, m = Message (Ret (JDict d))
       ∧ Forall (λ name, eq_str (dict_get_default d (lit "type") (JStr [])) name = false)
           handled_event_types.

Definition is_rt_close (a : action) : bool :=
  match a with RtClose => true | _ => false end.

(** ** The voice session: events and invariants *)

Definition recording_started_event : pydict :=
  [(lit "type", JStr (lit "recording_started"))].

Definition connect_failed_event : pydict :=
  [ (lit "type", JStr (lit "error"));
    (lit "message", JStr (lit "Failed to connect to transcription service")) ].

Definition audio_start_event : pydict := [(lit "type", JStr (lit "audio_start"))].

Definition audio_complete_event : pydict := [(lit "type", JStr (lit "audio_complete"))].

Definition audio_response_event `{Peers} (chunk : bytes) : pydict :=
  [(lit "type", JStr (lit "audio_response")); (lit "data", JStr (b64encode chunk))].

Definition tts_error_event (e : exn) : pydict :=
  [(lit "type", JStr (lit "error")); (lit "message", JStr (lit "TTS error: " ++ str_of_exn e))].

(** The message asks to end the session. *)
Definition is_close_message (r : result pydict) : Prop :=
  ∃ message, r = Ret message ∧ dict_get message (lit "type") = Some (JStr (lit "close")).

(** The recording flag is set exactly while a transcription client is
    installed. *)
Definition flag_matches_client (s : Voice.VoiceChatSession) : Prop :=
  Voice._is_recording s = true ↔ is_Some (Voice.realtime_client s).


(** Accepting and closing the client socket. *)
Definition is_lifecycle (a : action) : bool :=
  match a with WsAccept | WsClose _ _ => true | _ => false end.

(** Every action of [m] satisfies [P], and [m] takes a state to one related
    to it by [R]. *)
Definition respects {S A} (P : action → Prop) (R : S → S → Prop) (m : M S A) : Prop :=
  ∀ s, Forall P (trace_of (run m s)) ∧ R s (state_of (run m s)).

(** What a turn may change of a session: it keeps the audio buffer and the
    recording flag, and an installed client stays installed. *)
Definition client_kept `{Storage} (w w' : Voice.world) : Prop :=
  Voice.audio_chunks (Voice.self w') = Voice.audio_chunks (Voice.self w)
  ∧ Voice._is_recording (Voice.self w') = Voice._is_recording (Voice.self w)
  ∧ (is_Some (Voice.realtime_client (Voice.self w)) →
     is_Some (Voice.realtime_client (Voice.self w'))).

(** ** Persistence of a turn *)

(** The store has taken the user message. *)
Definition is_user_stored (a : action) : bool :=
  match a with Done (AddUserMessage _ _) => true | _ => false end.

(** The order in which a turn touches the store: the user message is
    stored before Stage 1 starts, and the answer is handed to the store
    only after Stage 3 is done. *)
Definition stored_in_order (t : trace) : Prop :=
  precedes is_user_stored is_stage1_start t = true
  ∧ precedes is_stage3_done is_persist t = true.

(** ** What the transcription answers *)

(** [v] is the transcript of the completed-transcription event [m]. *)
Definition completed_transcript (m : incoming) (v : json) : Prop :=
  ∃ d, m = Message (Ret (JDict d))
       ∧ dict_get d (lit "type")
         = Some (JStr (lit "conversation.item.input_audio_transcription.completed"))
       ∧ v = dict_get_default d (lit "transcript") (JStr []).

(** [v] is the text of the [response.text.done] event [m]. *)
Definition fallback_text (m : incoming) (v : json) : Prop :=
  ∃ d, m = Message (Ret (JDict d))
       ∧ dict_get d (lit "type") = Some (JStr (lit "response.text.done"))
       ∧ v = dict_get_default d (lit "text") (JStr []).

Definition transcription_event (text : pystr) : pydict :=
  [(lit "type", JStr (lit "transcription")); (lit "text", JStr text)].

(* ================================================================== *)
(** * Properties *)
(* ================================================================== *)

(** String literals and class tests stay folded while runs are simplified. *)
Arguments lit : simpl never.
Arguments isinstance : simpl never.

(** ** Tactics for exploring a run *)

Lemma outcome_intro {A} (r : A) (P : A → Prop) : (∀ o, outcome_is o r → P o) → P r.
Proof. intros HP. by apply HP. Qed.

(** Name the outcome of the run [r] and keep the run as a hypothesis. *)
Ltac outcome_of r := pattern r; apply outcome_intro; intros ?out ?Hrun.

(** Decide the comparisons of two string literals. *)
Ltac decide_literals :=
  repeat match goal with
    | |- context [decide (lit ?a = lit ?b)] =>
        first [ rewrite (decide_True (P := lit a = lit b)) by (vm_compute; reflexivity)
              | rewrite (decide_False (P := lit a = lit b)) by (vm_compute; discriminate) ]
    end.

Ltac decide_literals_in H :=
  repeat match type of H with
    | context [decide (lit ?a = lit ?b)] =>
        first [ rewrite (decide_True (P := lit a = lit b)) in H by (vm_compute; reflexivity)
              | rewrite (decide_False (P := lit a = lit b)) in H by (vm_compute; discriminate) ]
    end.

Lemma isinstance_Exception (e : exn) : isinstance e Exception = true.
Proof. unfold isinstance. by destruct (class_of e). Qed.

(** Case analysis on the innermost value a run in [H] is waiting for. *)
Ltac innermost_case_in H :=
  match type of H with
  | context [match ?x with _ => _ end] =>
      lazymatch x with
      | context [match _ with _ => _ end] => fail
      | _ => destruct x eqn:?
      end
  end.

(** Follow a run along every outcome of the collaborators it consults. *)
Ltac explore H :=
  repeat first
    [ progress (cbn in H)
    | progress (rewrite ?isinstance_Exception in H)
    | progress (decide_literals_in H)
    | innermost_case_in H ].

Ltac conclude H := unfold outcome_is in H; simplify_eq; cbn.

Ltac main_unfold_in H :=
  unfold run, Main.send_message, Main.send_message_stream, Main.owned_conversation,
    Main.run_full_council, Main.event_generator, Main.event_generator_body,
    try_except, storage_call, await_call, create_task, await_task, call, Main.yield_,
    emit, get_state, lift, raise, dict_index, fmap, M_fmap, mret, M_ret, mbind, M_bind in H;
  cbn [find_handler] in H.

Ltac voice_unfold :=
  unfold run, Voice.handle_message, Voice._stop_recording, Voice._start_recording,
    Voice.on_self, Voice.on_client, Voice.on_storage, Voice.send_event, zoom,
    try_finally, try_except, modify, get_state, lift, raise,
    fmap, M_fmap, mret, M_ret, mbind, M_bind.

Ltac voice_turn_unfold_in H :=
  unfold run, Voice._run_council_process, Voice.on_self, Voice.on_client, Voice.on_storage,
    Voice.send_event, zoom, try_finally, try_except, storage_call, await_call, create_task,
    await_task, call, emit, modify, get_state, lift, raise,
    fmap, M_fmap, mret, M_ret, mbind, M_bind in H.

(** ** Dictionaries and strings *)

Lemma dict_get_filter_key (d : pydict) (k : pystr) :
  dict_get (filter (λ kv, kv.1 ≠ k) d) k = None.
Proof.
  induction d as [|[k' v] d IH]; first done.
  rewrite filter_cons. cbn [fst].
  destruct (decide (k' ≠ k)) as [Hne|Heq]; last done.
  cbn [dict_get]. by rewrite decide_False.
Qed.

Lemma lstrip_nil_iff (s : pystr) : lstrip s = [] ↔ forallb py_isspace s = true.
Proof.
  induction s as [|c s IH]; first done.
  cbn [lstrip forallb]. destruct (py_isspace c); cbn [andb]; first done.
  split; discriminate.
Qed.

Lemma lstrip_head (s : pystr) (c : N) (r : pystr) :
  lstrip s = c :: r → py_isspace c = false.
Proof.
  induction s as [|d s IH]; first done.
  cbn [lstrip]. destruct (py_isspace d) eqn:Hd; first done.
  by intros [= <- _].
Qed.

(** [s.strip()] is empty exactly when [s] is empty or all whitespace. *)
Lemma strip_nil_iff (s : pystr) : strip s = [] ↔ forallb py_isspace s = true.
Proof.
  unfold strip, rstrip. split.
  - intros Hs. apply lstrip_nil_iff.
    destruct (lstrip s) as [|c r] eqn:Hl; first done.
    exfalso. apply lstrip_head in Hl.
    apply (f_equal reverse) in Hs. rewrite reverse_involutive in Hs.
    change (reverse []) with (@nil N) in Hs.
    apply lstrip_nil_iff in Hs.
    rewrite reverse_cons, forallb_app in Hs. cbn in Hs.
    rewrite Hl in Hs. by rewrite andb_false_r in Hs.
  - intros Hs. apply lstrip_nil_iff in Hs. by rewrite Hs.
Qed.

(** ** users.py and the login endpoint *)

Lemma public_row_keys (r : Users.row) :
  dict_keys (Users.dict_of_row [Users.Id; Users.Email; Users.Name; Users.IsAdmin;
                                Users.CreatedAt] r) = public_keys.
Proof. reflexivity. Qed.

Lemma get_user_by_id_id (db : Users.table) (user_id : option pystr) (user : pydict) :
  Users.get_user_by_id db user_id = Some user →
  ∃ id, user_id = Some id ∧ dict_index user (lit "id") = Ret (JStr id).
Proof.
  unfold Users.get_user_by_id, Users.fetchone.
  destruct (filter _ db) as [|r rows] eqn:Hrows; first done.
  intros [= <-]. exists (Users.row_id r). split; last done.
  assert (Hin : r ∈ filter (λ r, user_id = Some (Users.row_id r)) db)
    by (rewrite Hrows; left).
  by apply list_elem_of_filter in Hin as [? _].
Qed.

(** C10.  No public read path exposes a stored password hash: the user record
    in a login response is the stored record without its [password_hash]
    key, the dictionaries returned by [get_user_by_id] and [list_users] have
    exactly the keys id, email, name, is_admin and created_at, and only
    [get_user_by_email] returns the hash. *)
Theorem password_hash_not_exposed `{Auth.Crypto} (db : Users.table) :
  (∀ email password response,
     Main.login db email password = Ret response →
     ∃ token user,
       response = [(lit "token", JStr token); (lit "user", JDict user)] ∧
       dict_keys user = public_keys ∧
       dict_get user (lit "password_hash") = None) ∧
  (∀ user_id user,
     Users.get_user_by_id db user_id = Some user →
     dict_keys user = public_keys ∧ dict_get user (lit "password_hash") = None) ∧
  (∀ user,
     user ∈ Users.list_users db →
     dict_keys user = public_keys ∧ dict_get user (lit "password_hash") = None) ∧
  (∀ email user,
     Users.get_user_by_email db email = Some user →
     ∃ password_hash, dict_get user (lit "password_hash") = Some (JStr password_hash)).
Proof.
  split; [|split; [|split]].
  - intros email password response. unfold Main.login, Users.get_user_by_email.
    destruct (Users.fetchone _) as [r|]; cbn [fmap option_fmap option_map]; last done.
    change (dict_index _ (lit "password_hash"))
      with (Ret (A:=json) (JStr (Users.row_password_hash r))).
    cbv iota beta.
    destruct (Auth.verify_password _ _) as [[|]|]; [|done|done].
    change (dict_index _ (lit "id")) with (Ret (A:=json) (JStr (Users.row_id r))).
    change (dict_index _ (lit "email")) with (Ret (A:=json) (JStr (Users.row_email r))).
    change (dict_index _ (lit "is_admin"))
      with (Ret (A:=json) (JInt (if Users.row_is_admin r then 1 else 0))).
    cbv iota beta.
    destruct (Auth.create_token _ _ _) as [token|]; last done.
    intros [= <-]. eexists token, _. split; first reflexivity.
    split; first reflexivity. apply dict_get_filter_key.
  - intros user_id user. unfold Users.get_user_by_id.
    destruct (Users.fetchone _) as [r|]; last done.
    intros [= <-]. split; first apply public_row_keys. reflexivity.
  - intros user. unfold Users.list_users. rewrite list_elem_of_fmap.
    intros (r & -> & _). split; first apply public_row_keys. reflexivity.
  - intros email user. unfold Users.get_user_by_email.
    destruct (Users.fetchone _) as [r|]; last done.
    intros [= <-]. by exists (Users.row_password_hash r).
Qed.

Lemma password_hash_not_exposed_witness :
  ∃ token user,
    @Main.login Example.crypto Example.db (lit "alice@example.com") (lit "secret")
      = Ret [(lit "token", JStr token); (lit "user", JDict user)] ∧
    dict_get user (lit "password_hash") = None.
Proof.
  destruct (@password_hash_not_exposed Example.crypto Example.db) as [Hlogin _].
  destruct (Hlogin (lit "alice@example.com") (lit "secret") _ eq_refl)
    as (token & user & Hresp & _ & Hhash).
  exists token, user. split; last exact Hhash.
  exact (f_equal Ret Hresp).
Defined.

(** ** auth.py *)




Lemma example_pyjwt_contract token e :
  @Auth.jwt_decode Example.crypto token (@Auth.JWT_SECRET Example.crypto) [Auth.JWT_ALGORITHM]
    = Raise e →
  isinstance e InvalidTokenError = true.
Proof.
  cbn. repeat case_bool_decide; try discriminate; by intros [= <-].
Defined.

(** ** The voice endpoint: session setup *)

(** C5 (as amended).  Each setup failure closes the connection, with the
    code and reason of its cause, before the connection is accepted and
    before any session traffic: the close frame is all the endpoint does,
    and the store is untouched.  The reasons tell all six causes apart; the
    close codes tell apart only three groups: 4001 for a missing credential,
    an invalid credential, an unknown user and an unconfigured provider key,
    4004 for an unknown conversation, and 4003 for a conversation of another
    user. *)
Theorem setup_failure_closes_before_accept `{Storage, Council, Auth.Crypto, Peers}
    (db : Users.table) (OPENAI_API_KEY : option pystr) (st : Store)
    (conversation_id : pystr) (token : option pystr) (received : list (result pydict))
    (c : setup_failure) :
  setup_failure_of db OPENAI_API_KEY st conversation_id token = Some c →
  run (Main.voice_chat_endpoint db OPENAI_API_KEY conversation_id token received) st
    = ([WsClose (close_code c) (close_reason c)], st, Ret tt)
  ∧ (∀ c', close_reason c' = close_reason c → c' = c)
  ∧ (close_code c = 4001 ↔
       c = MissingCredential ∨ c = InvalidCredential ∨ c = UnknownUser
       ∨ c = UnconfiguredProvider)
  ∧ (close_code c = 4004 ↔ c = UnknownConversation)
  ∧ (close_code c = 4003 ↔ c = AccessDenied).
Proof.
  intros Hcause. split; [|split; [|split; [|split]]].
  - revert Hcause.
    unfold setup_failure_of, Main.voice_chat_endpoint, run.
    destruct token as [[|ch token]|]; [by intros [= <-]| |by intros [= <-]].
    unfold mbind, M_bind, lift.
    destruct (Auth.verify_token (ch :: token)) as [[payload|]|e]; [|by intros [= <-]|done].
    destruct (Users.get_user_by_id db (Main.payload_sub payload)) as [current_user|] eqn:Huser;
      [|by intros [= <-]].
    apply get_user_by_id_id in Huser as (id & Hsub & Hid).
    destruct OPENAI_API_KEY as [[|k key]|]; [by intros [= <-]| |by intros [= <-]].
    cbn [Main.falsy get_state].
    destruct (get_conversation st conversation_id) as [conversation|]; [|by intros [= <-]].
    rewrite Hid, Hsub.
    destruct (conv_user_id conversation) as [owner|]; cbn [owner_differs].
    + case_bool_decide as Hown; first done. intros [= <-].
      rewrite bool_decide_false by congruence. done.
    + rewrite bool_decide_false by done. by intros [= <-].
  - intros c'. destruct c, c'; (done || discriminate).
  - destruct c; cbn; split; intros Hc; try done; try (by auto);
      by repeat destruct Hc as [Hc|Hc].
  - destruct c; cbn; split; done.
  - destruct c; cbn; split; done.
Qed.

Lemma setup_failure_closes_before_accept_witness :
  run (@Main.voice_chat_endpoint Example.storage Example.council Example.crypto
         (Example.peers []) Example.db (Some (lit "sk-test")) (lit "c9")
         (Some (lit "good")) [])
      Example.store1
  = ([WsClose 4004 (lit "Conversation not found")], Example.store1, Ret tt).
Proof.
  refine (proj1 (@setup_failure_closes_before_accept Example.storage Example.council
                   Example.crypto (Example.peers []) Example.db (Some (lit "sk-test"))
                   Example.store1 (lit "c9") (Some (lit "good")) [] UnknownConversation _)).
  vm_compute. reflexivity.
Defined.

(** C5 (as stated) fails: a missing credential and an invalid credential are
    different causes and are both closed with code 4001. *)
Lemma close_codes_not_distinct :
  ¬ @distinct_close_code_per_cause Example.storage Example.council Example.crypto
      (Example.peers []).
Proof.
  intros Hclaim.
  apply (Hclaim Example.db (Some (lit "sk-test")) Example.store1 (lit "c1")
           None (Some (lit "garbage")) [] MissingCredential InvalidCredential);
    [vm_compute; reflexivity | vm_compute; reflexivity | discriminate |].
  vm_compute. reflexivity.
Qed.

(** ** The streaming endpoint *)



(** A turn whose first stage raises streams [stage1_start] and the [error]
    event with the text of the exception. *)
Example failed_turn_stream :
  events (trace_of (run (@Main.event_generator Example.storage Example.failing_council
                           (lit "c1") (lit "hello") true) Example.store1))
  = [ [(lit "type", JStr (lit "stage1_start"))];
      error_event (PyExn RuntimeError (lit "provider down")) ].
Proof. vm_compute. reflexivity. Qed.

(** ** The atomic endpoint *)

(** C4.  An atomic send-message request for an unknown conversation fails
    with 404, and one for a conversation of another user fails with 403; in
    both cases the endpoint has called nothing and the store is unchanged.
    Otherwise a response is returned only once all three stages have
    completed, it carries their results and the ranking metadata, and it is
    returned whenever the collaborators return. *)
Theorem send_message_preconditions `{Storage, Council}
    (conversation_id content : pystr) (current_user : pydict) (st : Store) :
  let out := run (Main.send_message conversation_id content current_user) st in
  (get_conversation st conversation_id = None →
     out = ([], st, Raise (HTTPExn 404 (lit "Conversation not found"))))
  ∧ (∀ conversation user_id,
       get_conversation st conversation_id = Some conversation →
       dict_get current_user (lit "id") = Some (JStr user_id) →
       conv_user_id conversation ≠ Some user_id →
       out = ([], st, Raise (HTTPExn 403 (lit "Access denied"))))
  ∧ (∀ conversation user_id,
       get_conversation st conversation_id = Some conversation →
       dict_get current_user (lit "id") = Some (JStr user_id) →
       conv_user_id conversation = Some user_id →
       (∀ response,
          result_of out = Ret response →
          ∃ stage1 stage2 label_to_model aggregate stage3,
            stage1_collect_responses content = Ret stage1
            ∧ stage2_collect_rankings content stage1 = Ret (stage2, label_to_model)
            ∧ calculate_aggregate_rankings stage2 label_to_model = Ret aggregate
            ∧ stage3_synthesize_final content stage1 stage2 = Ret stage3
            ∧ response =
                [ (lit "stage1", stage1); (lit "stage2", stage2); (lit "stage3", stage3);
                  (lit "metadata", JDict [ (lit "label_to_model", label_to_model);
                                           (lit "aggregate_rankings", aggregate) ]) ]
            ∧ Done (Stage3SynthesizeFinal content stage1 stage2) ∈ trace_of out
            ∧ Done (AddAssistantMessage conversation_id stage1 stage2 stage3) ∈ trace_of out)
       ∧ (∀ st1 st2 st3 title stage1 stage2 label_to_model aggregate stage3,
            add_user_message conversation_id content st = (st1, Ret tt) →
            (if bool_decide (length (conv_messages conversation) = 0%nat)
             then generate_conversation_title content = Ret title
                  ∧ update_conversation_title conversation_id title st1 = (st2, Ret tt)
             else st2 = st1) →
            stage1_collect_responses content = Ret stage1 →
            stage2_collect_rankings content stage1 = Ret (stage2, label_to_model) →
            calculate_aggregate_rankings stage2 label_to_model = Ret aggregate →
            stage3_synthesize_final content stage1 stage2 = Ret stage3 →
            add_assistant_message conversation_id stage1 stage2 stage3 st2 = (st3, Ret tt) →
            out =
              ( [ Start (AddUserMessage conversation_id content);
                  Done (AddUserMessage conversation_id content) ]
                ++ (if bool_decide (length (conv_messages conversation) = 0%nat)
                    then [ Start (GenerateConversationTitle content);
                           Await (GenerateConversationTitle content);
                           Done (GenerateConversationTitle content);
                           Start (UpdateConversationTitle conversation_id title);
                           Done (UpdateConversationTitle conversation_id title) ]
                    else [])
                ++ council_trace content stage1 stage2 label_to_model aggregate stage3
                ++ [ Start (AddAssistantMessage conversation_id stage1 stage2 stage3);
                     Done (AddAssistantMessage conversation_id stage1 stage2 stage3) ],
                st3,
                Ret [ (lit "stage1", stage1); (lit "stage2", stage2); (lit "stage3", stage3);
                      (lit "metadata", JDict [ (lit "label_to_model", label_to_model);
                                               (lit "aggregate_rankings", aggregate) ]) ] ))).
Proof.
  cbv zeta.
  outcome_of (run (Main.send_message conversation_id content current_user) st).
  main_unfold_in Hrun. split; [|split].
  - intros Hnone. rewrite Hnone in Hrun. by conclude Hrun.
  - intros conversation user_id Hconv Hid Hne. rewrite Hconv, Hid in Hrun.
    cbn in Hrun. destruct (conv_user_id conversation) as [owner|]; cbn in Hrun.
    + rewrite bool_decide_false in Hrun by congruence. by conclude Hrun.
    + by conclude Hrun.
  - intros conversation user_id Hconv Hid Hown. rewrite Hconv, Hid, Hown in Hrun.
    cbn in Hrun. rewrite bool_decide_true in Hrun by done. split.
    + intros response. explore Hrun; conclude Hrun; unfold result_of, trace_of; cbn.
      all: intros [= <-].
      all: eexists _, _, _, _, _; repeat split; eauto.
      all: rewrite ?elem_of_cons; tauto.
    + intros st1 st2 st3 title stage1 stage2 label_to_model aggregate stage3
        Hadd Htitle Hs1 Hs2 Hagg Hs3 Hsave.
      cbn in Hrun. rewrite Hadd in Hrun.
      destruct (bool_decide (length (conv_messages conversation) = 0%nat)).
      * destruct Htitle as [Htitle Hupd]. cbn in Hrun.
        rewrite Htitle, Hupd, Hs1 in Hrun. cbn in Hrun. rewrite Hs2, Hagg in Hrun.
        cbn in Hrun. rewrite Hs3, Hsave in Hrun. by conclude Hrun.
      * subst st2. cbn in Hrun. rewrite Hs1 in Hrun. cbn in Hrun.
        rewrite Hs2, Hagg in Hrun. cbn in Hrun. rewrite Hs3, Hsave in Hrun.
        by conclude Hrun.
Qed.

Lemma send_message_preconditions_witness :
  run (@Main.send_message Example.storage Example.council (lit "c9") (lit "hello")
         Example.alice_user) Example.store1
    = ([], Example.store1, Raise (HTTPExn 404 (lit "Conversation not found")))
  ∧ run (@Main.send_message Example.storage Example.council (lit "c1") (lit "hello")
           Example.bob_user) Example.store1
    = ([], Example.store1, Raise (HTTPExn 403 (lit "Access denied")))
  ∧ result_of (run (@Main.send_message Example.storage Example.council (lit "c1")
                      (lit "hello") Example.alice_user) Example.store1)
    = Ret [ (lit "stage1", JList [JStr (lit "answer")]);
            (lit "stage2", JList [JStr (lit "ranking")]);
            (lit "stage3", JDict [(lit "response", JStr (lit "final"))]);
            (lit "metadata",
             JDict [ (lit "label_to_model", JDict [(lit "Response A", JStr (lit "model-a"))]);
                     (lit "aggregate_rankings", JList [JStr (lit "model-a")]) ]) ].
Proof.
  split; [|split].
  - apply (proj1 (@send_message_preconditions Example.storage Example.council
                    (lit "c9") (lit "hello") Example.alice_user Example.store1)).
    vm_compute. reflexivity.
  - apply (proj1 (proj2 (@send_message_preconditions Example.storage Example.council
                           (lit "c1") (lit "hello") Example.bob_user Example.store1))
             (Example.fresh "u1") (lit "u2")).
    + vm_compute. reflexivity.
    + vm_compute. reflexivity.
    + vm_compute. discriminate.
  - destruct (proj2 (proj2 (@send_message_preconditions Example.storage Example.council
                              (lit "c1") (lit "hello") Example.alice_user Example.store1))
                (Example.fresh "u1") (lit "u1")) as [_ Hreturns].
    + vm_compute. reflexivity.
    + vm_compute. reflexivity.
    + vm_compute. reflexivity.
    + erewrite Hreturns; first reflexivity.
      * vm_compute. reflexivity.
      * vm_compute. split; reflexivity.
      * reflexivity.
      * reflexivity.
      * reflexivity.
      * reflexivity.
      * vm_compute. reflexivity.
Defined.

(** ** The voice session *)

Lemma receive_messages_quiet `{Peers} (c : Realtime.RealtimeClient) :
  ∃ connected v,
    run Realtime.receive_messages c
    = ([], {| Realtime.ws := Realtime.ws c; Realtime._connected := connected |}, Ret v).
Proof.
  unfold run, Realtime.receive_messages, get_state, mbind, M_bind. cbn.
  destruct c as [w cn]. cbn.
  destruct (negb cn || negb w); cbn; first by eexists _, _.
  destruct (Realtime.receive_loop _ _) as [v|e tr|tr]; cbn; try by eexists _, _.
  unfold try_except, raise. cbn [find_handler].
  destruct (isinstance e ConnectionClosed); cbn; first by eexists _, _.
  rewrite isinstance_Exception. cbn. by eexists _, _.
Qed.

(** C8.  With an open transcription sub-connection, an [audio] message with
    a non-empty payload that [base64] decodes is written twice: the decoded
    bytes become the last chunk of the audio buffer, whose earlier chunks
    are unchanged, and the same bytes are sent to the sub-connection in an
    [input_audio_buffer.append] frame.  (The session reads no recording flag
    on this path.) *)
Theorem audio_chunk_dual_write `{Storage, Council, Peers}
    (w : Voice.world) (message : pydict) (payload : pystr) (decoded : bytes) :
  dict_get message (lit "type") = Some (JStr (lit "audio")) →
  dict_get message (lit "data") = Some (JStr payload) →
  payload ≠ [] →
  b64decode payload = Ret decoded →
  Voice.realtime_client (Voice.self w)
    = Some {| Realtime.ws := true; Realtime._connected := true |} →
  ws_send (audio_append_frame decoded) = Ret tt →
  run (Voice.handle_message message) w
  = ( [RtSend (audio_append_frame decoded)],
      {| Voice.self :=
           Voice.set_audio_chunks (Voice.audio_chunks (Voice.self w) ++ [decoded]) (Voice.self w);
         Voice.storage := Voice.storage w |},
      Ret true ).
Proof.
  intros Htype Hdata Hpayload Hdecode Hclient Hsend.
  destruct w as [[cid key voice chunks client recording] st]. cbn in *. subst client.
  voice_unfold. unfold dict_get_default. rewrite Htype, Hdata.
  change (Voice.type_is _ "start_recording") with false.
  change (Voice.type_is _ "audio") with true.
  cbn. rewrite bool_decide_false by done. cbn. rewrite Hdecode. cbn.
  unfold Realtime.send_audio, Realtime.send, get_state, mbind, M_bind. cbn.
  unfold audio_append_frame in Hsend. rewrite Hsend. done.
Qed.

Lemma audio_chunk_dual_write_witness :
  run (@Voice.handle_message Example.storage Example.council (Example.peers [])
         [(lit "type", JStr (lit "audio")); (lit "data", JStr (lit "AAE="))])
      (Example.world (Some {| Realtime.ws := true; Realtime._connected := true |}) true)
  = ( [RtSend [ (lit "type", JStr (lit "input_audio_buffer.append"));
                (lit "audio", JStr (lit "SUQz")) ]],
      @Voice.World Example.storage
        {| Voice.conversation_id := lit "c1"; Voice.api_key := lit "sk-test";
           Voice.tts_voice := lit "alloy";
           Voice.audio_chunks := [[Byte.x07]; [Byte.x00; Byte.x01]];
           Voice.realtime_client := Some {| Realtime.ws := true; Realtime._connected := true |};
           Voice._is_recording := true |}
        Example.store1,
      Ret true ).
Proof.
  refine (@audio_chunk_dual_write Example.storage Example.council (Example.peers [])
            (Example.world (Some {| Realtime.ws := true; Realtime._connected := true |}) true)
            [(lit "type", JStr (lit "audio")); (lit "data", JStr (lit "AAE="))]
            (lit "AAE=") [Byte.x00; Byte.x01] _ _ _ _ _ _);
    try reflexivity.
  vm_compute. discriminate.
Defined.

(** C7.  A [stop_recording] message in an idle session (no transcription
    client) sends one [error] event to the client and nothing else: no frame
    goes to the provider, no collaborator is called, and the state of the
    session and of the store is exactly what it was.  The same holds when a
    [start_recording] failed to connect and left a client without a
    connection: one [error] event, nothing committed or called, and the
    session ends idle with its audio buffer unchanged. *)
Theorem stop_without_recording `{Storage, Council, Peers}
    (w : Voice.world) (message : pydict) :
  dict_get message (lit "type") = Some (JStr (lit "stop_recording")) →
  (idle (Voice.self w) →
   websocket_send_json no_recording_event = Ret tt →
   run (Voice.handle_message message) w = ([WsSendJson no_recording_event], w, Ret true))
  ∧ (∀ connected,
       Voice.realtime_client (Voice.self w)
         = Some {| Realtime.ws := false; Realtime._connected := connected |} →
       websocket_send_json no_speech_event = Ret tt →
       ∃ w',
         run (Voice.handle_message message) w = ([WsSendJson no_speech_event], w', Ret true)
         ∧ idle (Voice.self w')
         ∧ Voice.audio_chunks (Voice.self w') = Voice.audio_chunks (Voice.self w)
         ∧ Voice.storage w' = Voice.storage w).
Proof.
  intros Htype.
  destruct w as [[cid key voice chunks client recording] st]. cbn. split.
  - intros [Hclient Hrecording] Hsend. cbn in Hclient, Hrecording. subst client recording.
    voice_unfold. rewrite Htype.
    change (Voice.type_is _ "start_recording") with false.
    change (Voice.type_is _ "audio") with false.
    change (Voice.type_is _ "stop_recording") with true.
    cbn. decide_literals. unfold no_recording_event in Hsend. by rewrite Hsend.
  - intros connected Hclient Hsend. cbn in Hclient. subst client.
    voice_unfold. rewrite Htype.
    change (Voice.type_is _ "start_recording") with false.
    change (Voice.type_is _ "audio") with false.
    change (Voice.type_is _ "stop_recording") with true.
    unfold Realtime.commit_audio, Realtime.receive_messages, Realtime.close,
      get_state, modify, mbind, M_bind.
    unfold no_speech_event in Hsend.
    destruct connected; cbn; decide_literals; rewrite Hsend; cbn.
    all: eexists; split; [reflexivity | done].
Qed.

Lemma stop_without_recording_witness :
  run (@Voice.handle_message Example.storage Example.council (Example.peers [])
         [(lit "type", JStr (lit "stop_recording"))])
      (Example.world None false)
  = ([WsSendJson no_recording_event], Example.world None false, Ret true).
Proof.
  apply (proj1 (@stop_without_recording Example.storage Example.council (Example.peers [])
                  (Example.world None false) [(lit "type", JStr (lit "stop_recording"))]
                  eq_refl)).
  - split; reflexivity.
  - reflexivity.
Defined.

(** C6.  When the transcription received after [stop_recording] is missing,
    empty or all whitespace, the session sends the [error] event "No speech
    detected", closes the transcription sub-connection and drops the client,
    and [handle_message] returns [True] so the loop reads the next message.
    Apart from the two commit frames and the close, nothing else happens: no
    council stage or storage function is called and the store is unchanged. *)
Theorem silent_transcription_is_noop `{Storage, Council, Peers}
    (w : Voice.world) (message : pydict) (transcription : json) :
  let client := {| Realtime.ws := true; Realtime._connected := true |} in
  dict_get message (lit "type") = Some (JStr (lit "stop_recording")) →
  Voice.realtime_client (Voice.self w) = Some client →
  Forall (λ frame, ws_send frame = Ret tt) commit_frames →
  result_of (run Realtime.receive_messages client) = Ret transcription →
  (transcription = JNull ∨ ∃ t, transcription = JStr t ∧ forallb py_isspace t = true) →
  websocket_send_json no_speech_event = Ret tt →
  ws_close = Ret tt →
  ∃ w',
    run (Voice.handle_message message) w
    = ((RtSend <$> commit_frames) ++ [WsSendJson no_speech_event; RtClose], w', Ret true)
    ∧ idle (Voice.self w')
    ∧ Voice.audio_chunks (Voice.self w') = Voice.audio_chunks (Voice.self w)
    ∧ Voice.storage w' = Voice.storage w.
Proof.
  intros client Htype Hclient Hcommit Hreceived Hsilent Hsend Hclose.
  destruct w as [[cid key voice chunks rc recording] st]. cbn in *. subst rc.
  apply Forall_cons in Hcommit as [Hcommit1 Hcommit2].
  apply Forall_cons in Hcommit2 as [Hcommit2 _].
  destruct (receive_messages_quiet client) as (connected & v & Hrun).
  rewrite Hrun in Hreceived. injection Hreceived as ->.
  assert (Hspoken : Voice.spoken_text transcription = Ret None).
  { destruct Hsilent as [->|(t & -> & Hspace)]; first done.
    unfold Voice.spoken_text. destruct (truthy (JStr t)); last done. cbn.
    by rewrite bool_decide_true by by apply strip_nil_iff. }
  voice_unfold. rewrite Htype.
  change (Voice.type_is _ "start_recording") with false.
  change (Voice.type_is _ "audio") with false.
  change (Voice.type_is _ "stop_recording") with true.
  unfold Realtime.commit_audio, Realtime.send, Realtime.close, get_state, modify, mbind, M_bind.
  cbn -[Realtime.receive_messages]. rewrite Hcommit1. cbn -[Realtime.receive_messages].
  rewrite Hcommit2. cbn -[Realtime.receive_messages].
  unfold run in Hrun. rewrite Hrun. cbn. rewrite Hspoken. cbn. decide_literals.
  unfold no_speech_event in Hsend. rewrite Hsend. cbn. rewrite Hclose. cbn.
  eexists. split; first reflexivity. done.
Qed.

Lemma silent_transcription_is_noop_witness :
  ∃ w',
    run (@Voice.handle_message Example.storage Example.council (Example.peers (lit "  "))
           [(lit "type", JStr (lit "stop_recording"))])
        (Example.world (Some {| Realtime.ws := true; Realtime._connected := true |}) true)
    = ((RtSend <$> commit_frames) ++ [WsSendJson no_speech_event; RtClose], w', Ret true)
    ∧ idle (Voice.self w').
Proof.
  destruct (@silent_transcription_is_noop Example.storage Example.council
              (Example.peers (lit "  "))
              (Example.world (Some {| Realtime.ws := true; Realtime._connected := true |}) true)
              [(lit "type", JStr (lit "stop_recording"))] (JStr (lit "  ")))
    as (w' & Hrun & Hidle & _).
  - reflexivity.
  - reflexivity.
  - repeat constructor.
  - vm_compute. reflexivity.
  - right. exists (lit "  "). split; reflexivity.
  - reflexivity.
  - reflexivity.
  - exists w'. split; [exact Hrun | exact Hidle].
Defined.

(** ** Title generation and the stages *)

Lemma playback_bind {S A B} (m : M S A) (k : A → M S B) :
  playback_only m → (∀ a, playback_only (k a)) → playback_only (m ≫= k).
Proof.
  intros Hm Hk s. specialize (Hm s). unfold run, trace_of, mbind, M_bind in *.
  destruct (m s) as [[t1 s1] [a|e]]; cbn in *; last done.
  specialize (Hk a s1). unfold run, trace_of in Hk.
  destruct (k a s1) as [[t2 s2] r]; cbn in *. by apply Forall_app.
Qed.

Lemma playback_try_except {S A} (m : M S A) (h : exn → M S A) :
  playback_only m → (∀ e, playback_only (h e)) →
  playback_only (try_except m [(Exception, h)]).
Proof.
  intros Hm Hh s. specialize (Hm s). unfold run, trace_of, try_except in *.
  destruct (m s) as [[t1 s1] [a|e]]; cbn in *; first done.
  rewrite isinstance_Exception.
  specialize (Hh e s1). unfold run, trace_of in Hh.
  destruct (h e s1) as [[t2 s2] r]; cbn in *. by apply Forall_app.
Qed.

Lemma playback_send_event `{Storage, Peers} event_type data :
  playback_only (Voice.send_event event_type data).
Proof.
  intros w. unfold run, trace_of, Voice.send_event.
  destruct (websocket_send_json _); cbn; repeat constructor.
Qed.

Lemma playback_stream_audio `{Storage, Peers} (text : json) :
  playback_only (Voice._stream_audio_response text).
Proof.
  unfold Voice._stream_audio_response.
  destruct (negb (truthy text)); first apply playback_send_event.
  apply playback_try_except; last (intros; apply playback_send_event).
  apply playback_bind; first apply playback_send_event. intros _.
  apply playback_bind; first (intros w; constructor). intros w.
  destruct (text_to_speech_stream _ _ _) as [chunks failure].
  apply playback_bind; first (intros w'; repeat constructor). intros _.
  apply playback_bind; last (intros; apply playback_send_event).
  induction chunks as [|chunk chunks IH]; cbn [foldr].
  - destruct failure; intros w'; repeat constructor.
  - apply playback_bind; first apply playback_send_event. intros _. apply IH.
Qed.

Lemma precedes_from_playback seen p q (t : trace) :
  (∀ a, is_playback a = true → q a = false) →
  Forall (λ a, is_playback a = true) t →
  precedes_from seen p q t = true.
Proof.
  intros Hq Ht. revert seen. induction Ht as [|a t Ha Ht IH]; intros seen; first done.
  cbn. rewrite (Hq a Ha). apply IH.
Qed.

Lemma existsb_playback p (t : trace) :
  (∀ a, is_playback a = true → p a = false) →
  Forall (λ a, is_playback a = true) t →
  existsb p t = false.
Proof.
  intros Hp Ht. induction Ht as [|a t Ha Ht IH]; first done.
  cbn. by rewrite (Hp a Ha).
Qed.

Lemma title_schedule_streaming `{Storage, Council}
    (conversation_id content : pystr) (current_user : pydict) (st : Store)
    (conversation : conversation) :
  get_conversation st conversation_id = Some conversation →
  let t := trace_of (run (Main.send_message_stream conversation_id content current_user) st) in
  if bool_decide (length (conv_messages conversation) = 0%nat) then
    precedes is_title_start is_stage1_start t = true
    ∧ precedes is_stage3_done is_title_await t = true
    ∧ precedes is_title_await is_persist t = true
    ∧ (existsb is_persist t = true → title_in_parallel t)
  else existsb is_title t = false.
Proof.
  intros Hconv. cbv zeta. unfold title_in_parallel.
  outcome_of (run (Main.send_message_stream conversation_id content current_user) st).
  main_unfold_in Hrun. rewrite Hconv in Hrun.
  destruct (bool_decide (length (conv_messages conversation) = 0%nat)) eqn:Hfirst.
  all: explore Hrun; conclude Hrun; done || congruence.
Qed.

Lemma title_schedule_atomic `{Storage, Council}
    (conversation_id content : pystr) (current_user : pydict) (st : Store)
    (conversation : conversation) :
  get_conversation st conversation_id = Some conversation →
  let t := trace_of (run (Main.send_message conversation_id content current_user) st) in
  if bool_decide (length (conv_messages conversation) = 0%nat) then
    precedes is_title_done is_stage1_start t = true
    ∧ (existsb is_persist t = true →
       existsb is_title_start t = true ∧ existsb is_title_await t = true
       ∧ existsb is_title_done t = true)
  else existsb is_title t = false.
Proof.
  intros Hconv. cbv zeta.
  outcome_of (run (Main.send_message conversation_id content current_user) st).
  main_unfold_in Hrun. rewrite Hconv in Hrun.
  destruct (bool_decide (length (conv_messages conversation) = 0%nat)) eqn:Hfirst.
  all: explore Hrun; conclude Hrun; done || congruence.
Qed.

Lemma title_schedule_voice `{Storage, Council, Peers}
    (user_query : pystr) (w : Voice.world) (conversation : conversation) :
  get_conversation (Voice.storage w) (Voice.conversation_id (Voice.self w)) = Some conversation →
  let out := run (Voice._run_council_process user_query) w in
  if bool_decide (length (conv_messages conversation) = 0%nat) then
    precedes is_title_start is_stage1_start (trace_of out) = true
    ∧ precedes is_stage3_done is_title_await (trace_of out) = true
    ∧ precedes is_persisted is_title_await (trace_of out) = true
    ∧ (existsb is_persist (trace_of out) = true → existsb is_title_start (trace_of out) = true)
    ∧ (result_of out = Ret tt → existsb is_title_await (trace_of out) = true)
  else existsb is_title (trace_of out) = false.
Proof.
  intros Hconv. cbv zeta.
  outcome_of (run (Voice._run_council_process user_query) w).
  voice_turn_unfold_in Hrun.
  destruct w as [s st]. cbn in Hconv. cbn [Voice.self Voice.storage] in Hrun.
  rewrite Hconv in Hrun.
  destruct (bool_decide (length (conv_messages conversation) = 0%nat)) eqn:Hfirst.
  all: explore Hrun; conclude Hrun; try done; try congruence.
  all: match goal with
       | Haudio : Voice._stream_audio_response ?text ?w = (?t, _, _) |- _ =>
           pose proof (playback_stream_audio text w) as Hplay;
           unfold run, trace_of in Hplay; rewrite Haudio in Hplay; cbn in Hplay
       end.
  all: rewrite ?precedes_from_playback, ?existsb_playback
         by (done || by intros [[]|[]|[]| | | | | |]).
  all: done.
Qed.

(** C3 (as amended).  Title generation is called only on the first message
    of a conversation: on a later message no surface starts or awaits it.
    On a first message,
    - the streaming endpoint starts it before Stage 1 starts and awaits it
      after Stage 3 is done and before the turn is persisted;
    - the voice session starts it before Stage 1 starts and awaits it after
      Stage 3 is done and after the turn has been persisted;
    - the atomic endpoint starts and awaits it, and it is done, before
      Stage 1 starts.
    A turn that gets as far as persisting has made the title call. *)
Theorem title_generation_schedule `{Storage, Council, Peers}
    (conversation_id content : pystr) (current_user : pydict) (st : Store)
    (session : Voice.VoiceChatSession) (conversation : conversation) :
  get_conversation st conversation_id = Some conversation →
  Voice.conversation_id session = conversation_id →
  let atomic := trace_of (run (Main.send_message conversation_id content current_user) st) in
  let streaming :=
    trace_of (run (Main.send_message_stream conversation_id content current_user) st) in
  let voice := run (Voice._run_council_process content) (Voice.World session st) in
  if bool_decide (length (conv_messages conversation) = 0%nat) then
    (precedes is_title_start is_stage1_start streaming = true
     ∧ precedes is_stage3_done is_title_await streaming = true
     ∧ precedes is_title_await is_persist streaming = true
     ∧ (existsb is_persist streaming = true → title_in_parallel streaming))
    ∧ (precedes is_title_start is_stage1_start (trace_of voice) = true
       ∧ precedes is_stage3_done is_title_await (trace_of voice) = true
       ∧ precedes is_persisted is_title_await (trace_of voice) = true
       ∧ (existsb is_persist (trace_of voice) = true →
          existsb is_title_start (trace_of voice) = true)
       ∧ (result_of voice = Ret tt → existsb is_title_await (trace_of voice) = true))
    ∧ (precedes is_title_done is_stage1_start atomic = true
       ∧ (existsb is_persist atomic = true →
          existsb is_title_start atomic = true ∧ existsb is_title_await atomic = true
          ∧ existsb is_title_done atomic = true))
  else
    existsb is_title atomic = false
    ∧ existsb is_title streaming = false
    ∧ existsb is_title (trace_of voice) = false.
Proof.
  intros Hconv Hid. cbv zeta.
  pose proof (title_schedule_streaming conversation_id content current_user st
                conversation Hconv) as Hstreaming.
  pose proof (title_schedule_atomic conversation_id content current_user st
                conversation Hconv) as Hatomic.
  pose proof (title_schedule_voice content (Voice.World session st) conversation) as Hvoice.
  cbn [Voice.self Voice.storage] in Hvoice. rewrite Hid in Hvoice.
  specialize (Hvoice Hconv). cbv zeta in *.
  destruct (bool_decide (length (conv_messages conversation) = 0%nat)); done.
Qed.

Lemma title_generation_schedule_witness :
  title_in_parallel
    (trace_of (run (@Main.send_message_stream Example.storage Example.council
                      (lit "c1") (lit "hello") Example.alice_user) Example.store1))
  ∧ existsb is_title
      (trace_of (run (@Main.send_message_stream Example.storage Example.council
                        (lit "c1") (lit "hello") Example.alice_user) Example.store2))
    = false.
Proof.
  split.
  - apply (@title_generation_schedule Example.storage Example.council (Example.peers [])
             (lit "c1") (lit "hello") Example.alice_user Example.store1
             (Voice.self (Example.world None false)) (Example.fresh "u1")).
    + vm_compute. reflexivity.
    + reflexivity.
    + vm_compute. reflexivity.
  - assert (Hconv : @get_conversation Example.storage Example.store2 (lit "c1")
                    = Some Example.answered) by (vm_compute; reflexivity).
    exact (proj1 (proj2 (@title_generation_schedule Example.storage Example.council
             (Example.peers [])
             (lit "c1") (lit "hello") Example.alice_user Example.store2
             (Voice.self (Example.world None false)) Example.answered Hconv eq_refl))).
Defined.

(** C3 (as stated) fails on the atomic endpoint and in the voice session.
    In a completed first-message turn of the atomic endpoint the title call
    is awaited before Stage 1 has started, and in one of the voice session
    it is awaited only after the turn has been persisted. *)
Lemma title_not_parallel_on_atomic_and_voice :
  ¬ title_in_parallel
      (trace_of (run (@Main.send_message Example.storage Example.council
                        (lit "c1") (lit "hello") Example.alice_user) Example.store1))
  ∧ ¬ title_in_parallel
        (trace_of (run (@Voice._run_council_process Example.storage Example.council
                          (Example.peers []) (lit "hello")) (Example.world None false))).
Proof.
  split.
  - intros (_ & _ & _ & Hawait & _). vm_compute in Hawait. discriminate Hawait.
  - intros (_ & _ & _ & _ & Hpersist). vm_compute in Hpersist. discriminate Hpersist.
Qed.

(** ** Stage 1 *)

Section Stage1Facts.
Variable complete_chat : pystr → pystr → N * result pystr.
Variable timeout : N.
Variable user_query : pystr.
Variable models : list pystr.

Abbreviation settle := (Stage1.settle complete_chat timeout user_query).
Abbreviation on_settled := (Stage1.on_settled complete_chat timeout user_query models).

Lemma on_settled_length slots i : length (on_settled slots i) = length slots.
Proof. unfold Stage1.on_settled. destruct (models !! i); by rewrite ?length_insert. Qed.

Lemma foldl_on_settled_length completion slots :
  length (foldl on_settled slots completion) = length slots.
Proof.
  revert slots. induction completion as [|j completion IH]; intros slots; first done.
  cbn [foldl]. by rewrite IH, on_settled_length.
Qed.

(** A slot holds the answer of its model once its call has settled, and
    is untouched by the settling of other calls. *)
Lemma foldl_on_settled_lookup completion slots i m :
  length slots = length models →
  models !! i = Some m →
  foldl on_settled slots completion !! i
  = if decide (i ∈ completion) then Some (Some (settle m)) else slots !! i.
Proof.
  intros Hlen Hm. revert slots Hlen.
  induction completion as [|j completion IH]; intros slots Hlen.
  - cbn. by rewrite decide_False by apply not_elem_of_nil.
  - cbn [foldl]. rewrite IH by by rewrite on_settled_length.
    destruct (decide (i ∈ completion)) as [Hin|Hnin].
    + by rewrite decide_True by by right.
    + unfold Stage1.on_settled. destruct (decide (i = j)) as [<-|Hne].
      * rewrite decide_True by by left. rewrite Hm.
        apply list_lookup_insert_eq. rewrite Hlen. by eapply lookup_lt_Some.
      * rewrite decide_False by (by intros [?|?]%elem_of_cons).
        destruct (models !! j); by rewrite ?list_lookup_insert_ne.
Qed.

Lemma stage1_all_settled completion :
  (∀ i, (i < length models)%nat → i ∈ completion) →
  Stage1.stage1_collect_responses complete_chat timeout user_query models completion
  = Some (settle <$> models).
Proof.
  intros Hall. unfold Stage1.stage1_collect_responses.
  replace (foldl _ _ _) with (Some <$> (settle <$> models)).
  { by apply mapM_fmap_Some. }
  apply list_eq. intros i.
  destruct (models !! i) as [m|] eqn:Hm.
  - rewrite (foldl_on_settled_lookup _ _ _ m) by by rewrite ?length_replicate.
    rewrite decide_True by (apply Hall; by eapply lookup_lt_Some).
    by rewrite !list_lookup_fmap, Hm.
  - rewrite !list_lookup_fmap, Hm. cbn. symmetry. apply lookup_ge_None.
    rewrite foldl_on_settled_length, length_replicate. by apply lookup_ge_None.
Qed.

Lemma settle_model m : Stage1.model (settle m) = m.
Proof. unfold Stage1.settle. destruct (complete_chat _ _). by destruct (_ <? _)%N. Qed.

End Stage1Facts.

(** C2.  Whatever the order in which the concurrent calls complete, Stage 1
    returns one answer per configured model, in the order of the configured
    list: the answer at each position is the one of the model at that
    position, a text or a failure reason, and the list does not depend on
    the completion order.  In particular this holds for the completion order
    that the latencies of the calls induce. *)
Theorem stage1_configured_order (complete_chat : pystr → pystr → N * result pystr)
    (timeout : N) (user_query : pystr) (models : list pystr) (completion : list nat) :
  completion ≡ₚ seq 0 (length models) →
  ∃ answers,
    Stage1.stage1_collect_responses complete_chat timeout user_query models completion
      = Some answers
    ∧ length answers = length models
    ∧ Stage1.model <$> answers = models
    ∧ answers = Stage1.settle complete_chat timeout user_query <$> models
    ∧ Forall (λ a, (∃ text, Stage1.outcome a = Stage1.Answered text)
                   ∨ (∃ reason, Stage1.outcome a = Stage1.Failed reason)) answers
    ∧ Stage1.stage1_collect_responses complete_chat timeout user_query models
        (Stage1.completion_by_latency complete_chat timeout user_query models)
      = Some answers.
Proof.
  intros Hperm. eexists. split; [|split; [|split; [|split; [|split]]]].
  - apply stage1_all_settled. intros i Hi. rewrite Hperm. apply elem_of_seq. lia.
  - by rewrite length_fmap.
  - rewrite <- list_fmap_compose. rewrite <- (list_fmap_id models) at 2.
    apply list_fmap_ext. intros _ m _. apply settle_model.
  - reflexivity.
  - apply Forall_fmap, Forall_true. intros m. cbn.
    destruct (Stage1.outcome _); eauto.
  - apply stage1_all_settled. intros i Hi. unfold Stage1.completion_by_latency.
    rewrite merge_sort_Permutation. apply elem_of_seq. lia.
Qed.

Lemma stage1_configured_order_witness :
  Stage1.stage1_collect_responses Example.complete_chat 1000 (lit "hello")
    [lit "model-a"; lit "model-b"; lit "model-c"] [2; 0; 1]%nat
  = Some [ Stage1.Answer (lit "model-a") (Stage1.Answered (lit "answer a")) 900;
           Stage1.Answer (lit "model-b") (Stage1.Failed (lit "timeout")) 1000;
           Stage1.Answer (lit "model-c") (Stage1.Failed (lit "provider down")) 20 ].
Proof.
  destruct (stage1_configured_order Example.complete_chat 1000 (lit "hello")
              [lit "model-a"; lit "model-b"; lit "model-c"] [2; 0; 1]%nat)
    as (answers & Hrun & _ & _ & -> & _).
  - cbn. etransitivity; [apply perm_swap|]. apply perm_skip, perm_swap.
  - exact Hrun.
Defined.

(* ================================================================== *)
(** * Properties of the code around the claims *)
(* ================================================================== *)

(** ** users.py: writes *)

Lemma fetchone_filter_app_l {A} (P : A → Prop) `{∀ x, Decision (P x)} (l k : list A) x :
  Users.fetchone (filter P l) = Some x → Users.fetchone (filter P (l ++ k)) = Some x.
Proof.
  unfold Users.fetchone. rewrite filter_app.
  destruct (filter P l); [done|]. by cbn.
Qed.

Lemma fetchone_filter_app_r {A} (P : A → Prop) `{∀ x, Decision (P x)} (l k : list A) :
  Forall (λ x, ¬ P x) l → Users.fetchone (filter P (l ++ k)) = Users.fetchone (filter P k).
Proof.
  intros Hl. rewrite filter_app.
  replace (filter P l) with (@nil A); first done.
  symmetry. induction Hl as [|x l Hx Hl IH]; first done.
  by rewrite filter_cons_False.
Qed.

Lemma fetchone_filter_None {A} (P : A → Prop) `{∀ x, Decision (P x)} (l : list A) :
  Users.fetchone (filter P l) = None ↔ Forall (λ x, ¬ P x) l.
Proof.
  unfold Users.fetchone. split.
  - intros Hnone. apply Forall_forall. intros x Hx HP.
    assert (Hin : x ∈ filter P l) by by apply list_elem_of_filter.
    destruct (filter P l); [by apply elem_of_nil in Hin | done].
  - intros Hl. induction Hl as [|x l Hx Hl IH]; first done.
    by rewrite filter_cons_False.
Qed.

Lemma create_user_succeeds_iff uuid now (db : Users.table) email hash name adm :
  Forall (λ r, Users.row_id r ≠ uuid ∧ Users.row_email r ≠ email) db ↔
  ∃ user, UsersWrite.create_user uuid now db email hash name adm
          = (db ++ [ {| Users.row_id := uuid; Users.row_email := email;
                        Users.row_password_hash := hash; Users.row_name := name;
                        Users.row_is_admin := adm; Users.row_created_at := now |} ],
             Ret user).
Proof.
  unfold UsersWrite.create_user. cbv zeta. case_bool_decide as Hdup.
  - split; last by intros [user [= _]].
    intros Hfresh. exfalso. apply Exists_exists in Hdup as (r & Hr & Hclash).
    rewrite Forall_forall in Hfresh. destruct (Hfresh r Hr). tauto.
  - split; last first.
    + intros _. apply Forall_forall. intros r Hr. split; intros Heq; apply Hdup;
        apply Exists_exists; exists r; tauto.
    + intros _. by eexists.
Qed.

(** X1.  [create_user] refuses an email that is already in the table: it
    raises [ValueError] with the message naming the email and leaves the
    table as it was, and the admin endpoint turns this into a 400 whose
    detail is that message. *)
Theorem create_user_rejects_duplicate `{Admin.Host, Bcrypt}
    (uuid now : pystr) (db : Users.table) (email password hash name : pystr) (adm : bool)
    (r : Users.row) :
  r ∈ db → Users.row_email r = email →
  let message := lit "User with email " ++ email ++ lit " already exists" in
  UsersWrite.create_user uuid now db email hash name adm
    = (db, Raise (PyExn ValueError message))
  ∧ (hash_password password = Ret hash →
     Admin.create_user db email password name adm = (db, Raise (HTTPExn 400 message))).
Proof.
  intros Hr Hemail. cbv zeta.
  assert (Hdup : ∀ id, Exists (λ r, Users.row_id r = id ∨ Users.row_email r = email) db).
  { intros id. apply Exists_exists. exists r. tauto. }
  split.
  - unfold UsersWrite.create_user. cbv zeta. by rewrite bool_decide_true by apply Hdup.
  - intros Hhash. unfold Admin.create_user. rewrite Hhash.
    unfold UsersWrite.create_user. cbv zeta. by rewrite bool_decide_true by apply Hdup.
Qed.

Lemma create_user_inserts (uuid now : pystr) (db db' : Users.table)
    (email hash name : pystr) (adm : bool) (user : pydict) :
  UsersWrite.create_user uuid now db email hash name adm = (db', Ret user) →
  Forall (λ r, Users.row_id r ≠ uuid ∧ Users.row_email r ≠ email) db
  ∧ db' = db ++ [ {| Users.row_id := uuid; Users.row_email := email;
                     Users.row_password_hash := hash; Users.row_name := name;
                     Users.row_is_admin := adm; Users.row_created_at := now |} ]
  ∧ user = [ (lit "id", JStr uuid); (lit "email", JStr email); (lit "name", JStr name);
             (lit "is_admin", JBool adm); (lit "created_at", JStr now) ].
Proof.
  intros Hcreate.
  assert (Hfresh : Forall (λ r, Users.row_id r ≠ uuid ∧ Users.row_email r ≠ email) db).
  { apply (create_user_succeeds_iff uuid now db email hash name adm).
    revert Hcreate. unfold UsersWrite.create_user. cbv zeta.
    case_bool_decide; first done. intros [= <- <-]. by eexists. }
  split; first done.
  revert Hcreate. unfold UsersWrite.create_user. cbv zeta.
  case_bool_decide; first done. by intros [= <- <-].
Qed.

Lemma inserted_found_by_email (db : Users.table) (row : Users.row) :
  Forall (λ r, Users.row_email r ≠ Users.row_email row) db →
  Users.get_user_by_email (db ++ [row]) (Users.row_email row)
  = Some (Users.dict_of_row all_columns row).
Proof.
  intros Hfresh. unfold Users.get_user_by_email, Users.table in *.
  rewrite fetchone_filter_app_r by done.
  by rewrite filter_cons_True.
Qed.

(** X2.  A user that [create_user] has inserted is found again: by email,
    with the password hash that was given, and by id, with the public
    columns.  The dictionary [create_user] returns is the one a lookup by id
    returns, except that it holds [is_admin] as a [bool] where the table
    gives back the integer 0 or 1.  Lookups of every other id and email are
    unchanged. *)
Theorem create_user_then_lookup (uuid now : pystr) (db db' : Users.table)
    (email hash name : pystr) (adm : bool) (user : pydict) :
  UsersWrite.create_user uuid now db email hash name adm = (db', Ret user) →
  let row := {| Users.row_id := uuid; Users.row_email := email;
                Users.row_password_hash := hash; Users.row_name := name;
                Users.row_is_admin := adm; Users.row_created_at := now |} in
  Users.get_user_by_email db' email = Some (Users.dict_of_row all_columns row)
  ∧ Users.get_user_by_id db' (Some uuid) = Some (Users.dict_of_row public_columns row)
  ∧ user = dict_set (lit "is_admin") (JBool adm) (Users.dict_of_row public_columns row)
  ∧ (∀ id, id ≠ uuid →
       Users.get_user_by_id db' (Some id) = Users.get_user_by_id db (Some id))
  ∧ (∀ e, e ≠ email → Users.get_user_by_email db' e = Users.get_user_by_email db e).
Proof.
  intros (Hfresh & -> & ->)%create_user_inserts. cbv zeta.
  split; [|split; [|split; [|split]]].
  - apply (inserted_found_by_email db (Users.Row uuid email hash name adm now)).
    eapply Forall_impl; [exact Hfresh|]. cbn. tauto.
  - unfold Users.get_user_by_id, Users.table in *.
    rewrite fetchone_filter_app_r
      by (eapply Forall_impl; [exact Hfresh|]; cbn; intros r [? ?] [= ?]; congruence).
    rewrite filter_cons_True by done. done.
  - vm_compute. reflexivity.
  - intros id Hid. unfold Users.get_user_by_id, Users.table in *.
    f_equal. rewrite filter_app.
    rewrite (filter_cons_False _ _ []) by (cbn; congruence).
    by rewrite filter_nil, app_nil_r.
  - intros e He. unfold Users.get_user_by_email, Users.table in *.
    f_equal. rewrite filter_app.
    rewrite (filter_cons_False _ _ []) by (cbn; congruence).
    by rewrite filter_nil, app_nil_r.
Qed.

Lemma delete_user_reports (db : Users.table) (user_id : pystr) :
  (UsersWrite.delete_user db user_id).2 = true
  ↔ is_Some (Users.get_user_by_id db (Some user_id)).
Proof.
  unfold UsersWrite.delete_user, Users.get_user_by_id, Users.table in *. cbn [snd].
  rewrite bool_decide_eq_true, fmap_is_Some.
  replace (filter (λ r, Some user_id = Some (Users.row_id r)) db)
    with (filter (λ r, Users.row_id r = user_id) db)
    by (apply list_filter_iff; intros r; split; [by intros <-|by intros [= <-]]).
  unfold Users.fetchone. destruct (filter _ db); cbn; split.
  - lia.
  - by intros [? ?].
  - by eexists.
  - lia.
Qed.

Lemma delete_user_gone (db : Users.table) (user_id : pystr) :
  Users.get_user_by_id (UsersWrite.delete_user db user_id).1 (Some user_id) = None.
Proof.
  unfold UsersWrite.delete_user, Users.get_user_by_id, Users.table in *. cbn [fst].
  rewrite (proj2 (fetchone_filter_None _ _)); first done.
  apply Forall_forall. intros r [Hne _]%list_elem_of_filter [= Heq]. by apply Hne.
Qed.

Lemma delete_user_unchanged (db : Users.table) (user_id : pystr) :
  (UsersWrite.delete_user db user_id).2 = false →
  (UsersWrite.delete_user db user_id).1 = db.
Proof.
  unfold UsersWrite.delete_user, Users.table in *. cbn [fst snd].
  rewrite bool_decide_eq_false. intros Hnone.
  induction db as [|r db IH]; first done.
  rewrite filter_cons in Hnone. rewrite filter_cons.
  destruct (decide (Users.row_id r = user_id)) as [Heq|Hne].
  - cbn in Hnone. lia.
  - rewrite decide_True by done. f_equal. by apply IH.
Qed.

Lemma delete_user_others (db : Users.table) (user_id id : pystr) :
  id ≠ user_id →
  Users.get_user_by_id (UsersWrite.delete_user db user_id).1 (Some id)
  = Users.get_user_by_id db (Some id).
Proof.
  intros Hid. unfold UsersWrite.delete_user, Users.get_user_by_id, Users.table in *.
  cbn [fst]. f_equal. f_equal. apply list_filter_filter_l.
  intros r [= ->]. done.
Qed.

(** X3.  [delete_user] reports [True] exactly when a user with the id
    was stored; afterwards no user has the id, a table without the id is
    left as it is, and the lookup of every other id is unchanged. *)
Theorem delete_user_then_lookup (db : Users.table) (user_id : pystr) :
  let db' := (UsersWrite.delete_user db user_id).1 in
  let deleted := (UsersWrite.delete_user db user_id).2 in
  (deleted = true ↔ is_Some (Users.get_user_by_id db (Some user_id)))
  ∧ Users.get_user_by_id db' (Some user_id) = None
  ∧ (deleted = false → db' = db)
  ∧ (∀ id, id ≠ user_id →
       Users.get_user_by_id db' (Some id) = Users.get_user_by_id db (Some id)).
Proof.
  cbv zeta. split; [|split; [|split]].
  - apply delete_user_reports.
  - apply delete_user_gone.
  - apply delete_user_unchanged.
  - intros id Hid. by apply delete_user_others.
Qed.

(** X4.  The uniqueness of ids and of emails in the table is kept by
    [create_user], whether it inserts or refuses, and by [delete_user]. *)
Theorem table_constraints_kept (uuid now : pystr) (db : Users.table)
    (email hash name user_id : pystr) (adm : bool) :
  constraints_hold db →
  constraints_hold (UsersWrite.create_user uuid now db email hash name adm).1
  ∧ constraints_hold (UsersWrite.delete_user db user_id).1.
Proof.
  intros [Hids Hemails]. split.
  - unfold UsersWrite.create_user. cbv zeta. case_bool_decide as Hdup; first done.
    cbn [fst]. unfold constraints_hold, Users.table in *. rewrite !fmap_app. cbn.
    split; apply NoDup_app; (split; [done|split; [|apply NoDup_singleton]]).
    + intros id (r & -> & Hr)%list_elem_of_fmap Hin%list_elem_of_singleton.
      apply Hdup, Exists_exists. exists r. tauto.
    + intros e (r & -> & Hr)%list_elem_of_fmap Hin%list_elem_of_singleton.
      apply Hdup, Exists_exists. exists r. tauto.
  - unfold UsersWrite.delete_user, constraints_hold, Users.table in *. cbn [fst].
    split; [eapply sublist_NoDup; [exact Hids|] | eapply sublist_NoDup; [exact Hemails|]];
      apply fmap_sublist, sublist_filter.
Qed.

Lemma pystr_leb_total (a b : pystr) : pystr_leb a b = true ∨ pystr_leb b a = true.
Proof.
  revert b. induction a as [|x a IH]; intros [|y b]; cbn; auto.
  destruct (N.compare_spec x y) as [->|Hlt|Hgt].
  - rewrite N.eqb_refl, N.ltb_irrefl. cbn. apply IH.
  - left. apply N.ltb_lt in Hlt. by rewrite Hlt.
  - right. apply N.ltb_lt in Hgt. by rewrite Hgt.
Qed.

#[local] Instance created_desc_total : Total Users.created_desc.
Proof.
  intros r1 r2. unfold Users.created_desc.
  destruct (pystr_leb_total (Users.row_created_at r2) (Users.row_created_at r1)) as [->| ->];
    [by left | by right].
Qed.

(** X5.  [list_users] returns every stored user exactly once, as its public
    columns, ordered from the newest [created_at] to the oldest. *)
Theorem list_users_newest_first (db : Users.table) :
  ∃ rows,
    Users.list_users db = Users.dict_of_row public_columns <$> rows
    ∧ rows ≡ₚ db
    ∧ Sorted Users.created_desc rows
    ∧ length (Users.list_users db) = length db.
Proof.
  exists (merge_sort Users.created_desc db). split; first done.
  split; first apply merge_sort_Permutation.
  split; first apply (Sorted_merge_sort _).
  unfold Users.list_users. by rewrite length_fmap, merge_sort_Permutation.
Qed.

Lemma create_user_rejects_duplicate_witness :
  UsersWrite.create_user (lit "u3") (lit "2025-03-01T00:00:00") Example.db
    (lit "bob@example.com") (lit "bcrypt:x") (lit "Bobby") false
  = (Example.db,
     Raise (PyExn ValueError (lit "User with email bob@example.com already exists"))).
Proof.
  refine (proj1 (@create_user_rejects_duplicate
                   {| Admin.ADMIN_EMAIL := lit "admin@example.com";
                      Admin.ADMIN_PASSWORD := lit "admin123";
                      Admin.uuid4 := lit "u3";
                      Admin.utcnow_isoformat := lit "2025-03-01T00:00:00" |}
                   {| bcrypt_gensalt _ := lit "salt";
                      bcrypt_hashpw password _ := Ret (lit "bcrypt:" ++ password) |}
                   (lit "u3") (lit "2025-03-01T00:00:00") Example.db
                   (lit "bob@example.com") (lit "x") (lit "bcrypt:x") (lit "Bobby") false
                   Example.bob _ _)).
  - right. left.
  - reflexivity.
Defined.

Lemma create_user_then_lookup_witness :
  Users.get_user_by_id
    (Example.db ++ [ {| Users.row_id := lit "u3"; Users.row_email := lit "carol@example.com";
                        Users.row_password_hash := lit "bcrypt:pw";
                        Users.row_name := lit "Carol"; Users.row_is_admin := false;
                        Users.row_created_at := lit "2025-03-01T00:00:00" |} ])
    (Some (lit "u3"))
  = Some [ (lit "id", JStr (lit "u3")); (lit "email", JStr (lit "carol@example.com"));
           (lit "name", JStr (lit "Carol")); (lit "is_admin", JInt 0);
           (lit "created_at", JStr (lit "2025-03-01T00:00:00")) ].
Proof.
  refine (proj1 (proj2 (create_user_then_lookup (lit "u3") (lit "2025-03-01T00:00:00")
                          Example.db _ (lit "carol@example.com") (lit "bcrypt:pw")
                          (lit "Carol") false _ _))).
  vm_compute. reflexivity.
Defined.

Lemma table_constraints_kept_witness :
  constraints_hold
    (UsersWrite.create_user (lit "u3") (lit "2025-03-01T00:00:00") Example.db
       (lit "carol@example.com") (lit "bcrypt:pw") (lit "Carol") false).1.
Proof.
  refine (proj1 (table_constraints_kept (lit "u3") (lit "2025-03-01T00:00:00") Example.db
                   (lit "carol@example.com") (lit "bcrypt:pw") (lit "Carol") (lit "u1")
                   false _)).
  split; cbn; repeat constructor; rewrite ?elem_of_cons, ?elem_of_nil;
    intros Hin; repeat destruct Hin as [Hin|Hin]; try done;
    vm_compute in Hin; discriminate Hin.
Defined.

(** ** middleware.py *)

Lemma fetched_row_of_user_id (db : Users.table) (user_id : option pystr) (user : pydict) :
  Users.get_user_by_id db user_id = Some user →
  ∃ r, r ∈ db ∧ user_id = Some (Users.row_id r)
       ∧ user = Users.dict_of_row public_columns r.
Proof.
  unfold Users.get_user_by_id, Users.fetchone, Users.table in *.
  destruct (filter _ db) as [|r rows] eqn:Hrows; first done.
  intros [= <-]. exists r.
  assert (Hin : r ∈ filter (λ r, user_id = Some (Users.row_id r)) db)
    by (rewrite Hrows; left).
  apply list_elem_of_filter in Hin as [? ?]. done.
Qed.

Lemma verify_token_returns `{Auth.Crypto}
    (pyjwt_contract : ∀ token e,
       Auth.jwt_decode token Auth.JWT_SECRET [Auth.JWT_ALGORITHM] = Raise e →
       isinstance e InvalidTokenError = true)
    (token : pystr) :
  Auth.verify_token token
  = Ret (match Auth.jwt_decode token Auth.JWT_SECRET [Auth.JWT_ALGORITHM] with
         | Ret payload => Some payload
         | Raise _ => None
         end).
Proof.
  unfold Auth.verify_token.
  destruct (Auth.jwt_decode _ _ _) as [payload|e] eqn:Hdecode; first done.
  apply pyjwt_contract in Hdecode.
  unfold try_except_pure. cbn [find_handler].
  destruct (isinstance e ExpiredSignatureError); first done.
  by rewrite Hdecode.
Qed.

(** X6.  Authentication has three outcomes (PyJWT rejecting tokens only
    with [InvalidTokenError]s): the stored user whose id is the [sub] of the
    token, as its public columns; 401 "Invalid or expired token"; or 401
    "User not found".  [get_optional_user] never raises: it returns the same
    user when [get_current_user] returns one and [None] otherwise, as it
    does without credentials. *)
Theorem authentication_outcomes `{Auth.Crypto}
    (pyjwt_contract : ∀ token e,
       Auth.jwt_decode token Auth.JWT_SECRET [Auth.JWT_ALGORITHM] = Raise e →
       isinstance e InvalidTokenError = true)
    (db : Users.table) (token : pystr) :
  ((∃ r payload,
      Middleware.get_current_user db token = Ret (Users.dict_of_row public_columns r)
      ∧ r ∈ db
      ∧ Auth.jwt_decode token Auth.JWT_SECRET [Auth.JWT_ALGORITHM] = Ret payload
      ∧ dict_get payload (lit "sub") = Some (JStr (Users.row_id r)))
   ∨ Middleware.get_current_user db token
     = Raise (HTTPExn 401 (lit "Invalid or expired token"))
   ∨ Middleware.get_current_user db token = Raise (HTTPExn 401 (lit "User not found")))
  ∧ Middleware.get_optional_user db (Some token)
    = Ret (match Middleware.get_current_user db token with
           | Ret user => Some user
           | Raise _ => None
           end)
  ∧ Middleware.get_optional_user db None = Ret None.
Proof.
  unfold Middleware.get_current_user, Middleware.get_optional_user.
  rewrite (verify_token_returns pyjwt_contract).
  destruct (Auth.jwt_decode _ _ _) as [payload|e] eqn:Hdecode; last by auto.
  cbv zeta.
  destruct (Users.get_user_by_id db (Main.payload_sub payload)) as [user|] eqn:Huser;
    last by auto.
  split; last done. left.
  apply fetched_row_of_user_id in Huser as (r & Hr & Hsub & ->).
  exists r, payload. repeat split; try done.
  unfold Main.payload_sub in Hsub.
  destruct (dict_get payload (lit "sub")) as [[| | |s| |]|]; try done. by injection Hsub as ->.
Qed.

Lemma authentication_outcomes_witness :
  @Middleware.get_optional_user Example.crypto Example.db (Some (lit "good"))
  = Ret (match @Middleware.get_current_user Example.crypto Example.db (lit "good") with
         | Ret user => Some user
         | Raise _ => None
         end).
Proof.
  exact (proj1 (proj2 (@authentication_outcomes Example.crypto example_pyjwt_contract
                         Example.db (lit "good")))).
Defined.

(** X7.  The admin dependency lets an authenticated user through exactly
    when the [is_admin] column of its row is set: it returns the user that
    [get_current_user] returned, or raises 403 "Admin privileges required";
    a failed authentication is passed on unchanged. *)
Theorem admin_gate `{Auth.Crypto} (db : Users.table) (token : pystr) :
  match Middleware.get_current_user db token with
  | Raise e => Middleware.get_current_admin db token = Raise e
  | Ret user =>
      ∃ r, r ∈ db ∧ user = Users.dict_of_row public_columns r
           ∧ Middleware.get_current_admin db token
             = if Users.row_is_admin r then Ret user
               else Raise (HTTPExn 403 (lit "Admin privileges required"))
  end.
Proof.
  unfold Middleware.get_current_admin.
  destruct (Middleware.get_current_user db token) as [user|e] eqn:Hauth; last done.
  assert (∃ user_id, Users.get_user_by_id db user_id = Some user) as [user_id Huser].
  { revert Hauth. unfold Middleware.get_current_user.
    destruct (Auth.verify_token token) as [[payload|]|]; try done. cbv zeta.
    destruct (Users.get_user_by_id db _) eqn:Hfound; last done.
    intros [= <-]. by eexists. }
  apply fetched_row_of_user_id in Huser as (r & Hr & _ & ->).
  exists r. repeat split; try done. by destruct r as [? ? ? ? [] ?].
Qed.

(** ** main.py: login, startup and the admin endpoints *)

Lemma fetchone_unique_id (db : Users.table) (r : Users.row) :
  NoDup (Users.row_id <$> db) → r ∈ db →
  Users.get_user_by_id db (Some (Users.row_id r))
  = Some (Users.dict_of_row public_columns r).
Proof.
  unfold Users.get_user_by_id, Users.table in *. intros Hids Hr.
  induction db as [|r' db IH]; first by apply elem_of_nil in Hr.
  rewrite fmap_cons in Hids. apply NoDup_cons in Hids as [Hfresh Hids].
  rewrite filter_cons. destruct (decide (Some (Users.row_id r) = Some (Users.row_id r')))
    as [[= Heq]|Hne].
  - cbn. apply elem_of_cons in Hr as [->|Hr]; first done.
    exfalso. apply Hfresh. rewrite <- Heq. apply list_elem_of_fmap. by exists r.
  - apply elem_of_cons in Hr as [->|Hr]; first done. by apply IH.
Qed.

(** X8.  A login with an email that no user has, and a login with a
    password that bcrypt checks and rejects, fail in the same way, with 401
    "Invalid email or password".  An exception of the bcrypt check itself
    is not caught: [login] raises it unchanged, while an unknown email gets
    the 401 whatever the password. *)
Theorem login_failure_outcomes `{Auth.Crypto} (db : Users.table) (email password : pystr) :
  (Forall (λ r, Users.row_email r ≠ email) db →
   Main.login db email password = Raise (HTTPExn 401 (lit "Invalid email or password")))
  ∧ (∀ user password_hash,
       Users.get_user_by_email db email = Some user →
       dict_get user (lit "password_hash") = Some (JStr password_hash) →
       (Auth.bcrypt_checkpw password password_hash = Ret false →
        Main.login db email password
        = Raise (HTTPExn 401 (lit "Invalid email or password")))
       ∧ (∀ e, Auth.bcrypt_checkpw password password_hash = Raise e →
               Main.login db email password = Raise e)).
Proof.
  split.
  - intros Hnone. unfold Main.login, Users.get_user_by_email, Users.table in *.
    by rewrite (proj2 (fetchone_filter_None _ _)).
  - intros user password_hash Huser Hhash. unfold Main.login.
    rewrite Huser. unfold dict_index. rewrite Hhash.
    unfold Auth.verify_password. split.
    + by intros ->.
    + by intros e ->.
Qed.

Lemma login_failure_outcomes_witness :
  @Main.login Example.crypto Example.db (lit "nobody@example.com") (lit "secret")
  = @Main.login Example.crypto Example.db (lit "alice@example.com") (lit "wrong").
Proof.
  destruct (@login_failure_outcomes Example.crypto Example.db
              (lit "nobody@example.com") (lit "secret")) as [Hunknown _].
  destruct (@login_failure_outcomes Example.crypto Example.db
              (lit "alice@example.com") (lit "wrong")) as [_ Hwrong].
  rewrite Hunknown.
  - symmetry.
    apply (proj1 (Hwrong _ (lit "bcrypt:secret") eq_refl eq_refl)). reflexivity.
  - repeat constructor; vm_compute; discriminate.
Defined.

(** X9.  The token of a successful login authenticates its user: when a
    token that [jwt.encode] issued decodes to a payload with the same [sub],
    and ids are unique in the table, [get_current_user] on the token of the
    login response returns exactly the user of that response. *)
Theorem login_token_authenticates `{Auth.Crypto}
    (jwt_round_trip : ∀ payload token,
       Auth.jwt_encode payload Auth.JWT_SECRET Auth.JWT_ALGORITHM = Ret token →
       ∃ payload',
         Auth.jwt_decode token Auth.JWT_SECRET [Auth.JWT_ALGORITHM] = Ret payload'
         ∧ dict_get payload' (lit "sub") = dict_get payload (lit "sub"))
    (db : Users.table) (email password token : pystr) (user : pydict) :
  NoDup (Users.row_id <$> db) →
  Main.login db email password
    = Ret [(lit "token", JStr token); (lit "user", JDict user)] →
  Middleware.get_current_user db token = Ret user.
Proof.
  intros Hids. unfold Main.login, Users.get_user_by_email.
  destruct (Users.fetchone _) as [r|] eqn:Hrow; cbn [fmap option_fmap option_map]; last done.
  change (dict_index _ (lit "password_hash"))
    with (Ret (A:=json) (JStr (Users.row_password_hash r))).
  cbv iota beta.
  destruct (Auth.verify_password _ _) as [[|]|]; [|done|done].
  change (dict_index _ (lit "id")) with (Ret (A:=json) (JStr (Users.row_id r))).
  change (dict_index _ (lit "email")) with (Ret (A:=json) (JStr (Users.row_email r))).
  change (dict_index _ (lit "is_admin"))
    with (Ret (A:=json) (JInt (if Users.row_is_admin r then 1 else 0))).
  cbv iota beta. unfold Auth.create_token.
  destruct (Auth.jwt_encode _ _ _) as [token'|] eqn:Hencode; last done.
  intros [= <- <-].
  apply jwt_round_trip in Hencode as (payload' & Hdecode & Hsub).
  unfold Middleware.get_current_user, Auth.verify_token. rewrite Hdecode.
  cbn [try_except_pure]. cbv zeta. unfold Main.payload_sub. rewrite Hsub.
  change (dict_get _ (lit "sub")) with (Some (JStr (Users.row_id r))). cbv iota beta.
  assert (Hr : r ∈ db).
  { unfold Users.fetchone, Users.table in *.
    destruct (filter _ db) as [|r' rows] eqn:Hrows; first done. injection Hrow as ->.
    assert (Hin : r ∈ filter (λ r, Users.row_email r = email) db) by (rewrite Hrows; left).
    by apply list_elem_of_filter in Hin as [_ ?]. }
  rewrite (fetchone_unique_id db r Hids Hr). done.
Qed.

Lemma after_prefix_app (p s : pystr) : Sample.after_prefix p (p ++ s) = Some s.
Proof.
  induction p as [|a p IH]; first done.
  cbn. by rewrite decide_True.
Defined.

Lemma sample_jwt_round_trip payload token :
  @Auth.jwt_encode Sample.crypto payload (@Auth.JWT_SECRET Sample.crypto) Auth.JWT_ALGORITHM
    = Ret token →
  ∃ payload',
    @Auth.jwt_decode Sample.crypto token (@Auth.JWT_SECRET Sample.crypto) [Auth.JWT_ALGORITHM]
      = Ret payload'
    ∧ dict_get payload' (lit "sub") = dict_get payload (lit "sub").
Proof.
  cbn. destruct (dict_get payload (lit "sub")) as [[| | |s| |]|]; try discriminate.
  intros Hencode.
  assert (Htoken : lit "jwt." ++ s = token) by (by injection Hencode).
  rewrite <- Htoken, after_prefix_app. by eexists.
Defined.

Lemma login_token_authenticates_witness :
  @Middleware.get_current_user Sample.crypto Example.db (lit "jwt.u1")
  = Ret [ (lit "id", JStr (lit "u1")); (lit "email", JStr (lit "alice@example.com"));
          (lit "name", JStr (lit "Alice")); (lit "is_admin", JInt 1);
          (lit "created_at", JStr (lit "2025-01-01T00:00:00")) ].
Proof.
  apply (@login_token_authenticates Sample.crypto sample_jwt_round_trip Example.db
           (lit "alice@example.com") (lit "secret")).
  - cbn. repeat constructor; rewrite ?elem_of_cons, ?elem_of_nil;
      intros Hin; repeat destruct Hin as [Hin|Hin]; try done;
      vm_compute in Hin; discriminate Hin.
  - vm_compute. reflexivity.
Defined.

(** X10.  A user created through the admin endpoint can log in with the
    password that was given (bcrypt accepting a password against its own
    hash): the new row is the last of the table, with the email and the
    admin flag of the request, and a login with that email and password
    succeeds whenever the token can be issued; its response carries the
    public columns of the new row. *)
Theorem created_user_can_log_in `{Admin.Host, Bcrypt, Auth.Crypto}
    (bcrypt_accepts_own_hash : ∀ password salt password_hash,
       bcrypt_hashpw password salt = Ret password_hash →
       Auth.bcrypt_checkpw password password_hash = Ret true)
    (db db' : Users.table) (email password name : pystr) (is_admin : bool) (user : pydict) :
  Admin.create_user db email password name is_admin = (db', Ret user) →
  ∃ row,
    db' = db ++ [row]
    ∧ Users.row_email row = email ∧ Users.row_id row = Admin.uuid4
    ∧ Users.row_is_admin row = is_admin
    ∧ Main.login db' email password
      = match Auth.create_token (JStr Admin.uuid4) (JStr email)
                (JInt (if is_admin then 1 else 0)) with
        | Ret token =>
            Ret [ (lit "token", JStr token);
                  (lit "user", JDict (Users.dict_of_row public_columns row)) ]
        | Raise e => Raise e
        end.
Proof.
  unfold Admin.create_user.
  destruct (hash_password password) as [password_hash|e] eqn:Hhash;
    cbn [fst snd]; last first.
  { unfold try_except_pure. cbn [find_handler]. destruct (isinstance e ValueError); done. }
  destruct (UsersWrite.create_user _ _ db email password_hash name is_admin)
    as [db1 [user1|e]] eqn:Hcreate; cbn [fst snd try_except_pure]; last first.
  { cbn [find_handler]. destruct (isinstance e ValueError); done. }
  intros [= <- <-].
  apply create_user_inserts in Hcreate as (Hfresh & Hdb & _).
  eexists. split; first exact Hdb. repeat split.
  unfold Main.login. rewrite Hdb.
  rewrite (inserted_found_by_email db
             (Users.Row Admin.uuid4 email password_hash name is_admin
                Admin.utcnow_isoformat))
    by (eapply Forall_impl; [exact Hfresh|]; cbn; tauto).
  change (dict_index _ (lit "password_hash")) with (Ret (A:=json) (JStr password_hash)).
  cbv iota beta. unfold Auth.verify_password.
  rewrite (bcrypt_accepts_own_hash password (bcrypt_gensalt 12) password_hash Hhash).
  change (dict_index _ (lit "id")) with (Ret (A:=json) (JStr Admin.uuid4)).
  change (dict_index _ (lit "email")) with (Ret (A:=json) (JStr email)).
  change (dict_index _ (lit "is_admin"))
    with (Ret (A:=json) (JInt (if is_admin then 1 else 0))).
  cbv iota beta. destruct (Auth.create_token _ _ _); done.
Qed.

Lemma created_user_can_log_in_witness :
  ∃ row,
    Example.db ++ [Sample.carol] = Example.db ++ [row]
    ∧ @Main.login Sample.crypto (Example.db ++ [Sample.carol])
        (lit "carol@example.com") (lit "pw")
      = Ret [ (lit "token", JStr (lit "jwt.u3"));
              (lit "user", JDict (Users.dict_of_row public_columns row)) ].
Proof.
  destruct (@created_user_can_log_in Sample.host Sample.bcrypt Sample.crypto)
    with (db := Example.db) (db' := Example.db ++ [Sample.carol])
         (email := lit "carol@example.com") (password := lit "pw") (name := lit "Carol")
         (is_admin := false)
         (user := [ (lit "id", JStr (lit "u3")); (lit "email", JStr (lit "carol@example.com"));
                    (lit "name", JStr (lit "Carol")); (lit "is_admin", JBool false);
                    (lit "created_at", JStr (lit "2025-03-01T00:00:00")) ])
    as (row & Hdb & _ & _ & _ & Hlogin).
  - intros password salt password_hash [= <-]. cbn. by rewrite bool_decide_true.
  - vm_compute. reflexivity.
  - exists row. split; first exact Hdb. exact Hlogin.
Defined.

(** X11.  The delete endpoint never removes the admin who calls it: a
    request for the caller's own id fails with 400 and the table unchanged,
    and after any request the caller is still found.  A request for an id
    that no user has fails with 404 and the table unchanged; otherwise the
    user is removed and is no longer found. *)
Theorem delete_endpoint_keeps_caller (db : Users.table) (user_id caller : pystr)
    (current_user : pydict) :
  dict_get current_user (lit "id") = Some (JStr caller) →
  let out := Admin.delete_user db user_id current_user in
  (user_id = caller →
   out = (db, Raise (HTTPExn 400 (lit "Cannot delete your own account"))))
  ∧ (user_id ≠ caller → Users.get_user_by_id db (Some user_id) = None →
     out = (db, Raise (HTTPExn 404 (lit "User not found"))))
  ∧ (user_id ≠ caller → is_Some (Users.get_user_by_id db (Some user_id)) →
     out.2 = Ret [(lit "message", JStr (lit "User deleted successfully"))]
     ∧ Users.get_user_by_id out.1 (Some user_id) = None)
  ∧ Users.get_user_by_id out.1 (Some caller) = Users.get_user_by_id db (Some caller).
Proof.
  intros Hid. cbv zeta. unfold Admin.delete_user, dict_index. rewrite Hid.
  cbn [Admin.str_eq].
  pose proof (delete_user_reports db user_id) as Hdeleted.
  pose proof (delete_user_gone db user_id) as Hgone.
  pose proof (delete_user_unchanged db user_id) as Hsame.
  pose proof (λ id, delete_user_others db user_id id) as Hothers.
  destruct (UsersWrite.delete_user db user_id) as [db' deleted] eqn:Hdelete.
  cbn [fst snd] in *.
  split; [|split; [|split]].
  - intros ->. by rewrite bool_decide_true.
  - intros Hne Hnone. rewrite bool_decide_false by done.
    destruct deleted; cbn.
    + destruct (proj1 Hdeleted eq_refl) as [u Hu]. congruence.
    + by rewrite Hsame.
  - intros Hne Hsome. rewrite bool_decide_false by done.
    rewrite (proj2 Hdeleted Hsome). cbn. done.
  - case_bool_decide as Hself; first done.
    destruct deleted; cbn; apply Hothers; congruence.
Qed.

Lemma delete_endpoint_keeps_caller_witness :
  Admin.delete_user Example.db (lit "u1") Example.alice_user
  = (Example.db, Raise (HTTPExn 400 (lit "Cannot delete your own account"))).
Proof.
  apply (proj1 (delete_endpoint_keeps_caller Example.db (lit "u1") (lit "u1")
                  Example.alice_user eq_refl)).
  reflexivity.
Defined.

(** X12.  [startup_event] creates the default admin only in an empty table
    and is idempotent: with any user stored it changes nothing, a second run
    leaves the table of the first, and after a run that returns the table
    is not empty.  On an empty table with the password hashed to [h], the
    admin row is stored under [ADMIN_EMAIL] with hash [h] and [is_admin]
    set. *)
Theorem startup_event_idempotent `{Admin.Host, Bcrypt} (db : Users.table) :
  let first_run := Admin.startup_event db in
  (Admin.startup_event first_run.1).1 = first_run.1
  ∧ (UsersWrite.user_exists db = true → first_run = (db, Ret tt))
  ∧ (first_run.2 = Ret tt → UsersWrite.user_exists first_run.1 = true)
  ∧ (∀ h, db = [] → hash_password Admin.ADMIN_PASSWORD = Ret h →
       first_run.2 = Ret tt
       ∧ Users.get_user_by_email first_run.1 Admin.ADMIN_EMAIL
         = Some (Users.dict_of_row all_columns
                   {| Users.row_id := Admin.uuid4; Users.row_email := Admin.ADMIN_EMAIL;
                      Users.row_password_hash := h; Users.row_name := lit "Admin";
                      Users.row_is_admin := true;
                      Users.row_created_at := Admin.utcnow_isoformat |})).
Proof.
  cbv zeta.
  assert (Hkeep : ∀ d, UsersWrite.user_exists d = true →
                       Admin.startup_event d = (d, Ret tt)).
  { intros d Hd. unfold Admin.startup_event. by rewrite Hd. }
  destruct db as [|r db]; last first.
  { rewrite (Hkeep (r :: db)) by done. cbn [fst snd].
    rewrite (Hkeep (r :: db)) by done. done. }
  assert (Hfirst : Admin.startup_event []
            = match hash_password Admin.ADMIN_PASSWORD with
              | Raise e => ([], Raise e)
              | Ret h =>
                  ([ {| Users.row_id := Admin.uuid4; Users.row_email := Admin.ADMIN_EMAIL;
                        Users.row_password_hash := h; Users.row_name := lit "Admin";
                        Users.row_is_admin := true;
                        Users.row_created_at := Admin.utcnow_isoformat |} ], Ret tt)
              end).
  { unfold Admin.startup_event.
    change (UsersWrite.user_exists []) with false. cbn [negb].
    destruct (hash_password Admin.ADMIN_PASSWORD) as [h|e]; last done.
    unfold UsersWrite.create_user. cbv zeta.
    rewrite bool_decide_false by (by intros ?%Exists_nil). done. }
  rewrite Hfirst.
  destruct (hash_password Admin.ADMIN_PASSWORD) as [h|e] eqn:Hhash; cbn [fst snd].
  - rewrite Hkeep by done. split; [done|split; [done|split; [done|]]].
    intros h' _ [= <-]. split; first done.
    unfold Users.get_user_by_email, Users.table. rewrite filter_cons_True by done. done.
  - rewrite Hfirst. split; [done|split; [done|split; [done|]]].
    by intros h _ [=].
Qed.

(** ** openai_realtime.py *)

Lemma run_bind {S A B} (m : M S A) (k : A → M S B) (s : S) :
  run (m ≫= k) s
  = match run m s with
    | (t1, s1, Ret a) => let '(t2, s2, r) := run (k a) s1 in (t1 ++ t2, s2, r)
    | (t1, s1, Raise e) => (t1, s1, Raise e)
    end.
Proof. reflexivity. Qed.

Ltac rt_unfold :=
  unfold run, Realtime.connect, Realtime._configure_session, Realtime.send_audio,
    Realtime.commit_audio, Realtime.close, Realtime.send, try_except, modify, get_state,
    lift, raise, mret, M_ret, mbind, M_bind.

Lemma connect_run `{Peers} (c : Realtime.RealtimeClient) :
  run Realtime.connect c
  = match websockets_connect with
    | Raise _ => ([], c, Ret false)
    | Ret _ =>
        match ws_send Realtime.session_config with
        | Ret _ => ([RtSend Realtime.session_config], open_client, Ret true)
        | Raise _ => ([], open_client, Ret false)
        end
    end.
Proof.
  rt_unfold. cbn [find_handler].
  destruct websockets_connect as [[]|e]; cbn; last by rewrite isinstance_Exception.
  destruct (ws_send Realtime.session_config) as [[]|e]; cbn; first done.
  by rewrite isinstance_Exception.
Qed.

(** X13.  [connect] never raises.  It answers [True] exactly when the
    socket was opened and the session configuration was sent.  When opening
    the socket fails the client is unchanged; once the socket is open the
    client holds it and is marked connected, also when sending the
    configuration fails and [connect] answers [False]: the socket is not
    closed on that path. *)
Theorem connect_outcomes `{Peers} (c : Realtime.RealtimeClient) :
  let out := run Realtime.connect c in
  (∃ connected,
     result_of out = Ret connected
     ∧ connected = returned websockets_connect
                   && returned (ws_send Realtime.session_config))
  ∧ state_of out = (if returned websockets_connect then open_client else c)
  ∧ trace_of out
    = (if returned websockets_connect && returned (ws_send Realtime.session_config)
       then [RtSend Realtime.session_config] else []).
Proof.
  cbv zeta. rewrite connect_run.
  destruct websockets_connect as [[]|e]; cbn; last by eauto.
  destruct (ws_send Realtime.session_config) as [[]|e]; cbn; by eauto.
Qed.

(** X14.  On a client that is not marked connected, or that holds no
    socket, [send_audio], [commit_audio] and [receive_messages] do nothing:
    no frame is sent, nothing is read, the client is unchanged, and
    [receive_messages] answers [None]. *)
Theorem disconnected_client_is_silent `{Peers} (c : Realtime.RealtimeClient)
    (audio_data : bytes) :
  Realtime._connected c = false ∨ Realtime.ws c = false →
  run (Realtime.send_audio audio_data) c = ([], c, Ret tt)
  ∧ run Realtime.commit_audio c = ([], c, Ret tt)
  ∧ run Realtime.receive_messages c = ([], c, Ret JNull).
Proof.
  intros Hoff.
  assert (Hguard : negb (Realtime._connected c) || negb (Realtime.ws c) = true).
  { destruct Hoff as [-> | ->]; first done. by rewrite orb_true_r. }
  unfold Realtime.receive_messages. rt_unfold. cbn. by rewrite Hguard.
Qed.

Lemma disconnected_client_is_silent_witness :
  run (@Realtime.send_audio (Example.peers []) [Byte.x07]) Realtime.new
    = ([], Realtime.new, Ret tt)
  ∧ run (@Realtime.commit_audio (Example.peers [])) Realtime.new = ([], Realtime.new, Ret tt)
  ∧ run (@Realtime.receive_messages (Example.peers [])) Realtime.new
    = ([], Realtime.new, Ret JNull).
Proof.
  apply (@disconnected_client_is_silent (Example.peers []) Realtime.new [Byte.x07]).
  by left.
Defined.

Lemma close_run `{Peers} (c : Realtime.RealtimeClient) :
  run Realtime.close c
  = if Realtime.ws c then
      match ws_close with
      | Ret _ => ([RtClose], Realtime.new, Ret tt)
      | Raise e => ([], {| Realtime.ws := true; Realtime._connected := false |}, Raise e)
      end
    else ([], Realtime.new, Ret tt).
Proof.
  rt_unfold. destruct c as [[] cn]; cbn; last done.
  by destruct ws_close as [[]|e].
Qed.

(** X15.  [close] always clears the connected mark.  It closes the socket
    only if the client holds one; when that succeeds the client is as new,
    so a second [close] does nothing, and so does every [close] of a client
    without socket.  When closing the socket raises, the exception leaves
    [close] and the client keeps the socket. *)
Theorem close_disconnects `{Peers} (c : Realtime.RealtimeClient) :
  let out := run Realtime.close c in
  Realtime._connected (state_of out) = false
  ∧ trace_of out = (if Realtime.ws c && returned ws_close then [RtClose] else [])
  ∧ (returned (result_of out) = true →
     state_of out = Realtime.new
     ∧ run Realtime.close (state_of out) = ([], Realtime.new, Ret tt))
  ∧ (∀ e, result_of out = Raise e →
     ws_close = Raise e ∧ Realtime.ws c = true ∧ Realtime.ws (state_of out) = true).
Proof.
  cbv zeta. rewrite close_run.
  destruct (Realtime.ws c); cbn; [destruct ws_close as [[]|e] eqn:Hclose; cbn|].
  all: repeat split; try done; try (by intros ? [=]); try (by intros ? [= <-]).
Qed.

Lemma receive_loop_unhandled (m : incoming) (rest : list incoming) (t : json) :
  unhandled m → Realtime.receive_loop (m :: rest) t = Realtime.receive_loop rest t.
Proof.
  intros (d & -> & Htypes).
  apply Forall_cons in Htypes as [H1 Htypes].
  apply Forall_cons in Htypes as [H2 Htypes].
  apply Forall_cons in Htypes as [H3 Htypes].
  apply Forall_cons in Htypes as [H4 _].
  cbn [Realtime.receive_loop json_get_default].
  by rewrite H1, H2, H3, H4.
Qed.

(** X16.  [receive_messages] skips provider events of a type it has no
    branch for: they change neither the transcription collected so far nor
    what the rest of the stream yields.  So after any number of them a
    [conversation.item.input_audio_transcription.completed] event decides
    the answer, which is its [transcript], whatever was collected before
    and whatever follows; and a stream of only such events ends with the
    transcription collected so far. *)
Theorem unhandled_events_are_skipped (skipped rest : list incoming) (transcription : json) :
  Forall unhandled skipped →
  Realtime.receive_loop (skipped ++ rest) transcription
    = Realtime.receive_loop rest transcription
  ∧ Realtime.receive_loop skipped transcription = Realtime.Exhausted transcription
  ∧ ∀ d transcript,
      dict_get d (lit "type")
        = Some (JStr (lit "conversation.item.input_audio_transcription.completed")) →
      dict_get_default d (lit "transcript") (JStr []) = transcript →
      Realtime.receive_loop (skipped ++ Message (Ret (JDict d)) :: rest) transcription
        = Realtime.Returned transcript.
Proof.
  intros Hskipped.
  assert (Hskip : ∀ rest', Realtime.receive_loop (skipped ++ rest') transcription
                           = Realtime.receive_loop rest' transcription).
  { intros rest'. induction Hskipped as [|m skipped Hm Hskipped IH]; first done.
    cbn [app]. by rewrite receive_loop_unhandled. }
  split; first apply Hskip. split.
  - rewrite <- (app_nil_r skipped) at 1. by rewrite Hskip.
  - intros d transcript Htype <-. rewrite Hskip.
    cbn [Realtime.receive_loop json_get_default]. unfold dict_get_default at 1.
    rewrite Htype. cbn [eq_str]. by rewrite bool_decide_true.
Qed.

Lemma unhandled_events_are_skipped_witness :
  Realtime.receive_loop
    [ Message (Ret (JDict [(lit "type", JStr (lit "session.updated"))]));
      Message (Ret (JDict [(lit "type", JStr (lit "input_audio_buffer.committed"))]));
      Message (Ret (JDict
        [ (lit "type", JStr (lit "conversation.item.input_audio_transcription.completed"));
          (lit "transcript", JStr (lit "hello")) ]));
      IterRaise (PyExn ConnectionClosed []) ]
    (JStr [])
  = Realtime.Returned (JStr (lit "hello")).
Proof.
  refine (proj2 (proj2 (unhandled_events_are_skipped
    [ Message (Ret (JDict [(lit "type", JStr (lit "session.updated"))]));
      Message (Ret (JDict [(lit "type", JStr (lit "input_audio_buffer.committed"))])) ]
    [ IterRaise (PyExn ConnectionClosed []) ] (JStr []) _)) _ _ _ _).
  - repeat constructor; eexists; (split; [reflexivity|]); repeat constructor.
  - reflexivity.
  - reflexivity.
Defined.

Lemma send_audio_run `{Peers} (c : Realtime.RealtimeClient) (chunk : bytes) :
  run (Realtime.send_audio chunk) c
  = if negb (Realtime._connected c) || negb (Realtime.ws c) then ([], c, Ret tt)
    else match ws_send (audio_append_frame chunk) with
         | Ret _ => ([RtSend (audio_append_frame chunk)], c, Ret tt)
         | Raise e => ([], c, Raise e)
         end.
Proof.
  rt_unfold. cbn. destruct (negb _ || negb _); first done.
  unfold audio_append_frame. by destruct (ws_send _) as [[]|e].
Qed.

Lemma send_chunks_run `{Peers} (c : Realtime.RealtimeClient) (chunks : list bytes) :
  ∃ t r,
    run (foldr (λ chunk rest, Realtime.send_audio chunk;; rest) (mret tt) chunks) c = (t, c, r)
    ∧ existsb is_rt_close t = false
    ∧ (c = open_client →
       Forall (λ frame, ws_send frame = Ret tt) (audio_append_frame <$> chunks) →
       t = RtSend <$> (audio_append_frame <$> chunks) ∧ r = Ret tt).
Proof.
  induction chunks as [|chunk chunks (t & r & Hrest & Hquiet & Hsent)].
  { by eexists [], (Ret tt). }
  cbn [foldr]. unfold run, mbind, M_bind in *.
  pose proof (send_audio_run c chunk) as Hchunk. unfold run in Hchunk. rewrite Hchunk.
  destruct (negb _ || negb _) eqn:Hoff.
  - rewrite Hrest. eexists _, _. split; first done. split; first done.
    intros ->. done.
  - destruct (ws_send (audio_append_frame chunk)) as [[]|e] eqn:Hsend.
    + rewrite Hrest. eexists _, _. split; first done. split; first done.
      intros Hc [_ Hframes]%Forall_cons. destruct (Hsent Hc Hframes) as [-> ->]. done.
    + eexists _, _. split; first done. split; first done.
      intros _ [Hframe _]%Forall_cons. congruence.
Qed.

Lemma commit_audio_run `{Peers} (c : Realtime.RealtimeClient) :
  ∃ t r,
    run Realtime.commit_audio c = (t, c, r)
    ∧ existsb is_rt_close t = false
    ∧ (c = open_client →
       Forall (λ frame, ws_send frame = Ret tt) commit_frames →
       t = RtSend <$> commit_frames ∧ r = Ret tt).
Proof.
  rt_unfold. cbn. destruct (negb _ || negb _) eqn:Hoff.
  { eexists _, _. split; first done. split; first done. by intros ->. }
  destruct (ws_send [(lit "type", JStr (lit "input_audio_buffer.commit"))]) as [[]|e] eqn:H1;
    cbn; last first.
  { eexists _, _. split; first done. split; first done.
    intros _ [Hframe _]%Forall_cons. congruence. }
  destruct (ws_send _) as [[]|e] eqn:H2 in |- *; cbn.
  - eexists _, _. split; first done. split; first done. done.
  - eexists _, _. split; first done. split; first done.
    intros _ [_ [Hframe _]%Forall_cons]%Forall_cons. congruence.
Qed.

Lemma transcribe_body_run `{Peers} (audio_chunks : list bytes) :
  let out := run (Transcribe.transcribe_body audio_chunks) Realtime.new in
  existsb is_rt_close (trace_of out) = false
  ∧ Realtime.ws (state_of out) = returned websockets_connect
  ∧ (returned websockets_connect && returned (ws_send Realtime.session_config) = false →
     trace_of out = [] ∧ result_of out = Ret JNull)
  ∧ (returned websockets_connect = true →
     Forall (λ frame, ws_send frame = Ret tt)
       (Realtime.session_config :: (audio_append_frame <$> audio_chunks) ++ commit_frames) →
     trace_of out
       = RtSend <$> (Realtime.session_config
                       :: (audio_append_frame <$> audio_chunks) ++ commit_frames)
     ∧ result_of out = result_of (run Realtime.receive_messages open_client)).
Proof.
  cbv zeta.
  assert (Hbody : run (Transcribe.transcribe_body audio_chunks) Realtime.new
    = match run Realtime.connect Realtime.new with
      | (t1, c1, Ret connected) =>
          let '(t2, c2, r) :=
            (if negb connected then mret JNull
             else
               foldr (λ chunk rest, Realtime.send_audio chunk;; rest) (mret tt) audio_chunks;;
               Realtime.commit_audio;;
               Realtime.receive_messages) c1 in
          (t1 ++ t2, c2, r)
      | (t1, c1, Raise e) => (t1, c1, Raise e)
      end) by reflexivity.
  rewrite Hbody, connect_run. clear Hbody.
  destruct websockets_connect as [[]|e]; last first.
  { cbn. repeat split; try done. }
  destruct (ws_send Realtime.session_config) as [[]|e] eqn:Hconfig; last first.
  { cbn. split; [done|split; [done|split; [done|]]].
    intros _ [Hframe _]%Forall_cons. congruence. }
  cbn [negb returned andb].
  destruct (send_chunks_run open_client audio_chunks) as (t1 & r1 & Hchunks & Hquiet1 & Hsent1).
  destruct (commit_audio_run open_client) as (t2 & r2 & Hcommit & Hquiet2 & Hsent2).
  destruct (receive_messages_quiet open_client) as (connected & v & Hreceive).
  unfold run, mbind, M_bind in Hchunks, Hcommit, Hreceive |- *.
  rewrite Hchunks.
  unfold trace_of, state_of, result_of.
  destruct r1 as [[]|e1].
  - rewrite Hcommit. destruct r2 as [[]|e2].
    + rewrite Hreceive. cbn [fst snd]. rewrite !app_nil_r.
      split. { cbn. by rewrite existsb_app, Hquiet1, Hquiet2. }
      split; first done. split; first done.
      intros _ [_ [Hframes Hcommits]%Forall_app]%Forall_cons.
      destruct (Hsent1 eq_refl Hframes) as [-> _].
      destruct (Hsent2 eq_refl Hcommits) as [-> _].
      by rewrite fmap_cons, fmap_app.
    + cbn [fst snd].
      split. { cbn. by rewrite existsb_app, Hquiet1, Hquiet2. }
      split; first done. split; first done.
      intros _ [_ [Hframes Hcommits]%Forall_app]%Forall_cons.
      by destruct (Hsent2 eq_refl Hcommits) as [_ [=]].
  - cbn [fst snd]. split; first done. split; first done. split; first done.
    intros _ [_ [Hframes Hcommits]%Forall_app]%Forall_cons.
    by destruct (Hsent1 eq_refl Hframes) as [_ [=]].
Qed.

(** X17.  [transcribe_audio] always closes what it opened.  When closing
    the socket succeeds, the client ends as new, the socket is closed
    exactly when it was opened, and closing is the last thing done.  When
    the socket cannot be opened or configured the answer is [None] and no
    audio is sent.  When every frame is accepted, the frames sent are the
    session configuration, one [input_audio_buffer.append] per chunk in the
    order of the chunks, and the two commit frames; the answer is what
    [receive_messages] yields on the open connection. *)
Theorem transcribe_audio_closes `{Peers} (audio_chunks : list bytes) :
  ws_close = Ret tt →
  let out := Transcribe.transcribe_audio audio_chunks in
  state_of out = Realtime.new
  ∧ (∃ sent,
       trace_of out = sent ++ (if returned websockets_connect then [RtClose] else [])
       ∧ existsb is_rt_close sent = false)
  ∧ (returned websockets_connect && returned (ws_send Realtime.session_config) = false →
     out = (if returned websockets_connect then [RtClose] else [], Realtime.new, Ret JNull))
  ∧ (returned websockets_connect = true →
     Forall (λ frame, ws_send frame = Ret tt)
       (Realtime.session_config :: (audio_append_frame <$> audio_chunks) ++ commit_frames) →
     trace_of out
       = (RtSend <$> (Realtime.session_config
                        :: (audio_append_frame <$> audio_chunks) ++ commit_frames))
         ++ [RtClose]
     ∧ result_of out = result_of (run Realtime.receive_messages open_client)).
Proof.
  intros Hclose. cbv zeta.
  pose proof (transcribe_body_run audio_chunks) as (Hquiet & Hws & Hfailed & Hsent).
  unfold Transcribe.transcribe_audio, run, try_finally in *.
  destruct (Transcribe.transcribe_body audio_chunks Realtime.new) as [[t1 c1] r1].
  unfold trace_of, state_of, result_of in *. cbn [fst snd] in *.
  pose proof (close_run c1) as Hrun. unfold run in Hrun. rewrite Hrun, Hws, Hclose.
  destruct (returned websockets_connect); cbn [fst snd].
  - split; first done. split; first by exists t1. split.
    + intros Hconfig. by destruct (Hfailed Hconfig) as [-> ->].
    + intros _ Hframes. by destruct (Hsent eq_refl Hframes) as [-> ->].
  - split; first done. split; first by exists t1. split.
    + intros Hconfig. by destruct (Hfailed Hconfig) as [-> ->].
    + done.
Qed.

Lemma transcribe_audio_closes_witness :
  @Transcribe.transcribe_audio (Example.peers (lit "hello")) [[Byte.x07]; [Byte.x08]]
  = ( [ RtSend Realtime.session_config;
        RtSend [ (lit "type", JStr (lit "input_audio_buffer.append"));
                 (lit "audio", JStr (lit "SUQz")) ];
        RtSend [ (lit "type", JStr (lit "input_audio_buffer.append"));
                 (lit "audio", JStr (lit "SUQz")) ];
        RtSend [ (lit "type", JStr (lit "input_audio_buffer.commit")) ];
        RtSend [ (lit "type", JStr (lit "response.create"));
                 (lit "response", JDict [(lit "modalities", JList [JStr (lit "text")])]) ];
        RtClose ],
      Realtime.new, Ret (JStr (lit "hello")) ).
Proof.
  pose proof (@transcribe_audio_closes (Example.peers (lit "hello"))
                [[Byte.x07]; [Byte.x08]] eq_refl) as (Hstate & _ & _ & Hsent).
  destruct Hsent as [Htrace Hresult]; [reflexivity | by repeat constructor |].
  destruct (@Transcribe.transcribe_audio (Example.peers (lit "hello")) _) as [[t c] r].
  unfold trace_of, state_of, result_of in *. cbn [fst snd] in *.
  by rewrite Hstate, Htrace, Hresult.
Defined.

Lemma eq_str_default (d : pydict) (k : pystr) (s : string) :
  lit s ≠ [] →
  eq_str (dict_get_default d k (JStr [])) s = true →
  dict_get d k = Some (JStr (lit s)).
Proof.
  intros Hs. unfold dict_get_default.
  destruct (dict_get d k) as [[| | |x| |]|]; cbn; try done.
  - by intros ->%bool_decide_eq_true.
  - intros Heq%bool_decide_eq_true. by destruct Hs.
Qed.

Lemma receive_loop_answer (Q : json → Prop) (messages : list incoming)
    (transcription : json) :
  (∀ m v, m ∈ messages → fallback_text m v → Q v) →
  transcription = JStr [] ∨ truthy transcription = true ∧ Q transcription →
  match Realtime.receive_loop messages transcription with
  | Realtime.Returned v =>
      v = JNull ∨ truthy v = true ∧ Q v
      ∨ Exists (λ m, completed_transcript m v) messages
  | Realtime.Raised _ t | Realtime.Exhausted t => t = JStr [] ∨ truthy t = true ∧ Q t
  end.
Proof.
  revert transcription.
  induction messages as [|m messages IH]; intros transcription HQ Hacc; first done.
  assert (Hrest : ∀ t, t = JStr [] ∨ truthy t = true ∧ Q t →
            match Realtime.receive_loop messages t with
            | Realtime.Returned v =>
                v = JNull ∨ truthy v = true ∧ Q v
                ∨ Exists (λ m, completed_transcript m v) (m :: messages)
            | Realtime.Raised _ t' | Realtime.Exhausted t' =>
                t' = JStr [] ∨ truthy t' = true ∧ Q t'
            end).
  { intros t Ht.
    assert (HQ' : ∀ m' v, m' ∈ messages → fallback_text m' v → Q v)
      by (intros m' v Hin; apply HQ; by right).
    specialize (IH t HQ' Ht).
    destruct (Realtime.receive_loop messages t); try done.
    destruct IH as [?|[?|?]]; auto using Exists_cons_tl. }
  destruct m as [[data|e]|e]; [|done|done].
  destruct data as [| | | | |d]; try done.
  cbn [Realtime.receive_loop json_get_default].
  destruct (eq_str _ "conversation.item.input_audio_transcription.completed") eqn:Hcompleted.
  { right. right. apply Exists_cons_hd. exists d. split; first done. split; last done.
    by apply eq_str_default in Hcompleted. }
  destruct (eq_str _ "response.text.done") eqn:Hdone.
  { destruct (truthy (dict_get_default d (lit "text") (JStr []))) eqn:Htext; cbn [andb];
      last by apply Hrest.
    destruct (truthy transcription) eqn:Htruthy; cbn [negb]; apply Hrest.
    { destruct Hacc as [->|[_ ?]]; [by left | by right]. }
    right. split; first done.
    apply (HQ (Message (Ret (JDict d)))); first by left.
    exists d. split; first done. split; last done.
    by apply eq_str_default in Hdone. }
  destruct (eq_str _ "response.done").
  { destruct (truthy transcription) eqn:Htruthy.
    - destruct Hacc as [->|[_ ?]]; [done | by right; left].
    - apply Hrest. destruct Hacc as [->|[? _]]; [by left | done]. }
  destruct (eq_str _ "error"); [by auto | by apply Hrest].
Qed.

(** X29.  [receive_messages] never raises and sends nothing; it leaves the
    socket with the client and never marks the client connected.  Its
    answer is [None], or the [text] of a [response.text.done] event of the
    stream, which is then a true value (non-empty when it is a string), or
    the [transcript] of a completed-transcription event of the stream,
    whatever that is: an empty string is answered in that case only. *)
Theorem receive_messages_answer `{Peers} (c : Realtime.RealtimeClient) :
  let out := run Realtime.receive_messages c in
  ∃ v,
    result_of out = Ret v
    ∧ (v = JNull
       ∨ truthy v = true ∧ Exists (λ m, fallback_text m v) ws_messages
       ∨ Exists (λ m, completed_transcript m v) ws_messages)
    ∧ trace_of out = []
    ∧ Realtime.ws (state_of out) = Realtime.ws c
    ∧ (Realtime._connected (state_of out) = true → Realtime._connected c = true).
Proof.
  cbv zeta. unfold run, Realtime.receive_messages, get_state, mbind, M_bind. cbn.
  destruct c as [w cn]. cbn.
  destruct (negb cn || negb w); cbn; first by eauto 10.
  pose proof (receive_loop_answer (λ v, Exists (λ m, fallback_text m v) ws_messages)
                ws_messages (JStr [])
                ltac:(by intros m v Hin Hm; apply Exists_exists; exists m)
                ltac:(by left)) as Hanswer.
  assert (Hnone : ∀ (Q : json → Prop) t, t = JStr [] ∨ truthy t = true ∧ Q t →
                    or_none t = JNull ∨ truthy (or_none t) = true ∧ Q (or_none t)).
  { intros Q t [->|[Ht HQ]]; first by left. right. unfold or_none. by rewrite Ht. }
  destruct (Realtime.receive_loop _ _) as [v|e tr|tr]; cbn.
  - exists v. split; [done | split; [exact Hanswer | done]].
  - unfold try_except, raise. cbn [find_handler].
    destruct (isinstance e ConnectionClosed); cbn.
    + exists (or_none tr). split; [done | split; [|done]].
      destruct (Hnone (λ v, Exists (λ m, fallback_text m v) ws_messages) tr Hanswer); auto.
    + rewrite isinstance_Exception. cbn.
      exists (or_none tr). split; [done | split; [|done]].
      destruct (Hnone (λ v, Exists (λ m, fallback_text m v) ws_messages) tr Hanswer); auto.
  - exists (or_none tr). split; [done | split; [|done]].
    destruct (Hnone (λ v, Exists (λ m, fallback_text m v) ws_messages) tr Hanswer); auto.
Qed.

(** ** voice.py: the message handlers *)

Lemma type_is_true (msg_type : option json) (s : string) :
  Voice.type_is msg_type s = true ↔ msg_type = Some (JStr (lit s)).
Proof.
  destruct msg_type as [[]|]; cbn; try by split.
  rewrite bool_decide_eq_true. split; [by intros -> | by intros [= ->]].
Qed.

Ltac message_type H :=
  rewrite H;
  repeat match goal with
    | |- context [Voice.type_is (Some (JStr (lit ?a))) ?b] =>
        first [ change (Voice.type_is (Some (JStr (lit a))) b) with true
              | change (Voice.type_is (Some (JStr (lit a))) b) with false ]
    end;
  cbv iota.

Lemma start_recording_run `{Storage, Council, Peers} (w : Voice.world) :
  let out := run Voice._start_recording w in
  let opened := returned websockets_connect in
  let configured := opened && returned (ws_send Realtime.session_config) in
  let report := if configured then recording_started_event else connect_failed_event in
  state_of out
  = Voice.World
      {| Voice.conversation_id := Voice.conversation_id (Voice.self w);
         Voice.api_key := Voice.api_key (Voice.self w);
         Voice.tts_voice := Voice.tts_voice (Voice.self w);
         Voice.audio_chunks := [];
         Voice.realtime_client := Some (if opened then open_client else Realtime.new);
         Voice._is_recording := true |}
      (Voice.storage w)
  ∧ trace_of out
    = (if configured then [RtSend Realtime.session_config] else [])
      ++ (if returned (websocket_send_json report) then [WsSendJson report] else [])
  ∧ result_of out
    = match websocket_send_json report with Ret _ => Ret tt | Raise e => Raise e end.
Proof.
  cbv zeta. destruct w as [[cid key voice chunks client recording] st].
  voice_unfold. cbn -[Realtime.connect].
  pose proof (connect_run Realtime.new) as Hconnect. unfold run in Hconnect.
  rewrite Hconnect. clear Hconnect.
  unfold recording_started_event, connect_failed_event.
  destruct websockets_connect as [[]|e]; cbn.
  - destruct (ws_send Realtime.session_config) as [[]|e]; cbn; decide_literals;
      destruct (websocket_send_json _) as [[]|e']; done.
  - decide_literals. destruct (websocket_send_json _) as [[]|e']; done.
Qed.

(** X18.  A [start_recording] message empties the audio buffer, sets the
    recording flag and installs a new transcription client, whatever
    happens next.  The client holds an open socket exactly when opening it
    succeeded.  The session reports [recording_started] after the
    configuration frame was sent, and otherwise the error "Failed to
    connect to transcription service"; on that path the flag stays set and
    the client stays installed.  The handler raises only what sending the
    report raises. *)
Theorem start_recording_resets_session `{Storage, Council, Peers}
    (w : Voice.world) (message : pydict) :
  dict_get message (lit "type") = Some (JStr (lit "start_recording")) →
  let out := run (Voice.handle_message message) w in
  let opened := returned websockets_connect in
  let configured := opened && returned (ws_send Realtime.session_config) in
  let report := if configured then recording_started_event else connect_failed_event in
  state_of out
  = Voice.World
      {| Voice.conversation_id := Voice.conversation_id (Voice.self w);
         Voice.api_key := Voice.api_key (Voice.self w);
         Voice.tts_voice := Voice.tts_voice (Voice.self w);
         Voice.audio_chunks := [];
         Voice.realtime_client := Some (if opened then open_client else Realtime.new);
         Voice._is_recording := true |}
      (Voice.storage w)
  ∧ trace_of out
    = (if configured then [RtSend Realtime.session_config] else [])
      ++ (if returned (websocket_send_json report) then [WsSendJson report] else [])
  ∧ result_of out
    = match websocket_send_json report with Ret _ => Ret true | Raise e => Raise e end.
Proof.
  intros Htype. cbv zeta.
  pose proof (start_recording_run w) as (Hstate & Htrace & Hresult).
  unfold Voice.handle_message. cbv zeta. message_type Htype.
  rewrite run_bind. destruct (run Voice._start_recording w) as [[t w'] r].
  unfold state_of, trace_of, result_of in *. cbn [fst snd] in *. subst t w' r.
  destruct (websocket_send_json _) as [[]|e]; cbn; by rewrite ?app_nil_r.
Qed.

Lemma start_recording_resets_session_witness :
  run (@Voice.handle_message Example.storage Example.council (Example.peers [])
         [(lit "type", JStr (lit "start_recording"))])
      (Example.world None false)
  = ( [RtSend Realtime.session_config; WsSendJson recording_started_event],
      @Voice.World Example.storage
        {| Voice.conversation_id := lit "c1"; Voice.api_key := lit "sk-test";
           Voice.tts_voice := lit "alloy"; Voice.audio_chunks := [];
           Voice.realtime_client := Some open_client; Voice._is_recording := true |}
        Example.store1,
      Ret true ).
Proof.
  pose proof (@start_recording_resets_session Example.storage Example.council
                (Example.peers []) (Example.world None false)
                [(lit "type", JStr (lit "start_recording"))] eq_refl)
    as (Hstate & Htrace & Hresult).
  destruct (run _ _) as [[t w] r].
  unfold trace_of, state_of, result_of in *. cbn [fst snd] in *.
  by rewrite Hstate, Htrace, Hresult.
Defined.

(** X19.  An [audio] message without data, or with empty data, does
    nothing.  Data that is not a string raises [TypeError] out of the
    handler, and a payload that [base64] rejects raises its exception; both
    leave the session as it was.  A decoded chunk is always appended as the
    last chunk of the buffer, whatever the client and whether sending it on
    succeeds, and nothing else of the session changes.  It is sent on only
    to a client that is connected: with no client, or with a client that is
    not connected, nothing is sent and the handler answers [True]. *)
Theorem audio_message_edge_cases `{Storage, Council, Peers}
    (w : Voice.world) (message : pydict) :
  dict_get message (lit "type") = Some (JStr (lit "audio")) →
  let out := run (Voice.handle_message message) w in
  (truthy (dict_get_default message (lit "data") (JStr [])) = false →
   out = ([], w, Ret true))
  ∧ (∀ data,
       dict_get message (lit "data") = Some data → truthy data = true →
       (∀ payload, data ≠ JStr payload) →
       ∃ e, out = ([], w, Raise e) ∧ class_of e = TypeError)
  ∧ (∀ payload e,
       dict_get message (lit "data") = Some (JStr payload) → payload ≠ [] →
       b64decode payload = Raise e →
       out = ([], w, Raise e))
  ∧ (∀ payload decoded,
       dict_get message (lit "data") = Some (JStr payload) → payload ≠ [] →
       b64decode payload = Ret decoded →
       state_of out
       = Voice.World
           {| Voice.conversation_id := Voice.conversation_id (Voice.self w);
              Voice.api_key := Voice.api_key (Voice.self w);
              Voice.tts_voice := Voice.tts_voice (Voice.self w);
              Voice.audio_chunks := Voice.audio_chunks (Voice.self w) ++ [decoded];
              Voice.realtime_client := Voice.realtime_client (Voice.self w);
              Voice._is_recording := Voice._is_recording (Voice.self w) |}
           (Voice.storage w)
       ∧ (match Voice.realtime_client (Voice.self w) with
          | None => True
          | Some c => Realtime._connected c = false ∨ Realtime.ws c = false
          end →
          trace_of out = [] ∧ result_of out = Ret true)).
Proof.
  intros Htype. cbv zeta.
  destruct w as [[cid key voice chunks client recording] st].
  voice_unfold. message_type Htype. split; [|split; [|split]].
  - intros ->. done.
  - intros data Hdata Htruthy Hother. unfold dict_get_default. rewrite Hdata, Htruthy.
    destruct data as [|b|z|payload|l|d];
      [discriminate Htruthy | | | by destruct (Hother payload) | |];
      eexists; split; reflexivity.
  - intros payload e Hdata Hpayload Hdecode. unfold dict_get_default. rewrite Hdata.
    cbn. rewrite bool_decide_false by done. cbn. by rewrite Hdecode.
  - intros payload decoded Hdata Hpayload Hdecode.
    unfold dict_get_default. rewrite Hdata.
    cbn. rewrite bool_decide_false by done. cbn. rewrite Hdecode. cbn.
    destruct client as [[socket connected]|]; last done.
    pose proof (send_audio_run (Realtime.Client socket connected) decoded) as Hsend.
    unfold run in Hsend. cbn -[Realtime.send_audio]. rewrite Hsend.
    destruct socket, connected; cbn; try (split; done).
    destruct (ws_send _) as [[]|e]; cbn; (split; [done | by intros [?|?]]).
Qed.

Lemma audio_message_edge_cases_witness :
  run (@Voice.handle_message Example.storage Example.council (Example.peers [])
         [(lit "type", JStr (lit "audio")); (lit "data", JStr (lit "AAE="))])
      (Example.world None false)
  = ( [],
      @Voice.World Example.storage
        {| Voice.conversation_id := lit "c1"; Voice.api_key := lit "sk-test";
           Voice.tts_voice := lit "alloy";
           Voice.audio_chunks := [[Byte.x07]; [Byte.x00; Byte.x01]];
           Voice.realtime_client := None; Voice._is_recording := false |}
        Example.store1,
      Ret true ).
Proof.
  destruct (proj2 (proj2 (proj2
              (@audio_message_edge_cases Example.storage Example.council
                 (Example.peers []) (Example.world None false)
                 [(lit "type", JStr (lit "audio")); (lit "data", JStr (lit "AAE="))]
                 eq_refl)))
              (lit "AAE=") [Byte.x00; Byte.x01] eq_refl)
    as [Hstate Hquiet]; [vm_compute; discriminate | reflexivity |].
  destruct (Hquiet I) as [Htrace Hresult].
  destruct (run _ _) as [[t w] r].
  unfold trace_of, state_of, result_of in *. cbn [fst snd] in *.
  by rewrite Hstate, Htrace, Hresult.
Defined.

Lemma then_true_result {S A} (m : M S A) (s : S) :
  result_of (run (m;; mret true) s) ≠ Ret false.
Proof.
  unfold result_of, run, mbind, M_bind, mret, M_ret.
  by destruct (m s) as [[t s'] [a|e]].
Qed.

Lemma handle_message_close `{Storage, Council, Peers} (w : Voice.world) (message : pydict) :
  dict_get message (lit "type") = Some (JStr (lit "close")) →
  run (Voice.handle_message message) w = ([], w, Ret false).
Proof. intros Htype. unfold Voice.handle_message. cbv zeta. by message_type Htype. Qed.

Lemma handle_message_false `{Storage, Council, Peers} (w : Voice.world) (message : pydict) :
  result_of (run (Voice.handle_message message) w) = Ret false →
  dict_get message (lit "type") = Some (JStr (lit "close")).
Proof.
  unfold Voice.handle_message. cbv zeta.
  destruct (Voice.type_is _ "start_recording"); first by intros ?%then_true_result.
  destruct (Voice.type_is _ "audio"); first by intros ?%then_true_result.
  destruct (Voice.type_is _ "stop_recording"); first by intros ?%then_true_result.
  destruct (Voice.type_is _ "close") eqn:Htype; last done.
  intros _. by apply type_is_true.
Qed.

(** X20.  [handle_message] answers [False], which ends the session, for a
    [close] message and for no other: a [close] message does nothing else,
    and a message whose type is none of [start_recording], [audio],
    [stop_recording] and [close] (or that has no type) is ignored. *)
Theorem only_close_ends_session `{Storage, Council, Peers}
    (w : Voice.world) (message : pydict) :
  let out := run (Voice.handle_message message) w in
  (result_of out = Ret false
   ↔ dict_get message (lit "type") = Some (JStr (lit "close")))
  ∧ (dict_get message (lit "type") = Some (JStr (lit "close")) → out = ([], w, Ret false))
  ∧ (Forall (λ name, Voice.type_is (dict_get message (lit "type")) name = false)
       ["start_recording"; "audio"; "stop_recording"; "close"]%string →
     out = ([], w, Ret true)).
Proof.
  cbv zeta. split; [split|split].
  - apply handle_message_false.
  - by intros ->%(handle_message_close w).
  - apply handle_message_close.
  - intros (Ht1 & (Ht2 & (Ht3 & (Ht4 & _)%Forall_cons)%Forall_cons)%Forall_cons)%Forall_cons.
    unfold Voice.handle_message. cbv zeta. by rewrite Ht1, Ht2, Ht3, Ht4.
Qed.

(** X21.  The message loop ends normally only on a [close] message, and
    reads nothing after it: a run of the loop that returns has received a
    [close] message, and what follows the first [close] message has no
    effect on the run. *)
Theorem loop_ends_on_close `{Storage, Council, Peers}
    (received rest : list (result pydict)) (message : pydict) (w : Voice.world) :
  (result_of (run (Voice.message_loop received) w) = Ret tt →
   Exists is_close_message received)
  ∧ (dict_get message (lit "type") = Some (JStr (lit "close")) →
     run (Voice.message_loop (received ++ Ret message :: rest)) w
     = run (Voice.message_loop (received ++ [Ret message])) w).
Proof.
  split.
  - revert w. induction received as [|r received IH]; intros w; first done.
    cbn [Voice.message_loop]. unfold run, mbind, M_bind, lift, result_of in *.
    destruct r as [data|e]; last done.
    destruct (Voice.handle_message data w) as [[t1 w1] [[]|e]] eqn:Hhandle; last done.
    + destruct (Voice.message_loop received w1) as [[t2 w2] r2] eqn:Hloop.
      cbn [snd]. intros ->. apply Exists_cons_tl. apply (IH w1). by rewrite Hloop.
    + intros _. apply Exists_cons_hd. exists data. split; first done.
      apply (handle_message_false w). unfold result_of, run. by rewrite Hhandle.
  - intros Htype. revert w. induction received as [|r received IH]; intros w.
    + cbn [app Voice.message_loop]. unfold run, mbind, M_bind, lift.
      pose proof (handle_message_close w message Htype) as Hclose.
      unfold run in Hclose. by rewrite Hclose.
    + cbn [app Voice.message_loop]. unfold run, mbind, M_bind, lift in *.
      destruct r as [data|e]; last done.
      destruct (Voice.handle_message data w) as [[t1 w1] [[]|e]]; try done.
      by rewrite IH.
Qed.

Lemma send_event_ok `{Storage, Peers} (event_type : string) (data : option pydict)
    (w : Voice.world) :
  (∀ message, websocket_send_json message = Ret tt) →
  ∃ message, run (Voice.send_event event_type data) w = ([WsSendJson message], w, Ret tt)
             ∧ message = match data with
                         | Some (kv :: d) =>
                             dict_update [(lit "type", JStr (lit event_type))] (kv :: d)
                         | _ => [(lit "type", JStr (lit event_type))]
                         end.
Proof.
  intros Hsend. unfold run, Voice.send_event. eexists. rewrite Hsend. done.
Qed.

Lemma audio_chunks_run `{Storage, Peers} (chunks : list bytes) (tail : M Voice.world unit)
    (w : Voice.world) :
  (∀ message, websocket_send_json message = Ret tt) →
  run (foldr (λ chunk rest,
                Voice.send_event "audio_response" (Some [(lit "data", JStr (b64encode chunk))]);;
                rest) tail chunks) w
  = let '(t, w', r) := run tail w in
    ((WsSendJson ∘ audio_response_event <$> chunks) ++ t, w', r).
Proof.
  intros Hsend. induction chunks as [|chunk chunks IH].
  { unfold run. cbn [foldr]. by destruct (tail w) as [[t w'] r]. }
  cbn [foldr]. unfold run, mbind, M_bind in *.
  destruct (send_event_ok "audio_response" (Some [(lit "data", JStr (b64encode chunk))]) w Hsend)
    as (message & Hrun & ->).
  unfold run in Hrun. rewrite Hrun, IH.
  destruct (tail w) as [[t w'] r]. cbn. decide_literals. done.
Qed.

(** X24.  When the client accepts every event, the audio playback of a
    non-empty text is [audio_start], then one [audio_response] per chunk of
    speech, in the order of the chunks and each carrying the chunk in
    base64, then [audio_complete].  When the speech stream fails, the
    chunks it had yielded are still sent, then a "TTS error" event with the
    text of the exception, and no [audio_complete].  An empty text is
    answered with [audio_complete] alone, without a speech request.  The
    playback never raises and leaves the session as it was. *)
Theorem audio_response_stream `{Storage, Council, Peers} (text : json) (w : Voice.world) :
  (∀ message, websocket_send_json message = Ret tt) →
  let speech := TextToSpeechStream text (Voice.tts_voice (Voice.self w)) in
  let stream :=
    text_to_speech_stream (Voice.api_key (Voice.self w)) text
      (Voice.tts_voice (Voice.self w)) in
  run (Voice._stream_audio_response text) w
  = ( if truthy text then
        [WsSendJson audio_start_event; Start speech]
        ++ (WsSendJson ∘ audio_response_event <$> stream.1)
        ++ match stream.2 with
           | None => [Done speech; WsSendJson audio_complete_event]
           | Some e => [WsSendJson (tts_error_event e)]
           end
      else [WsSendJson audio_complete_event],
      w, Ret tt ).
Proof.
  intros Hsend. cbv zeta. unfold Voice._stream_audio_response.
  destruct (truthy text); cbn [negb]; last first.
  { destruct (send_event_ok "audio_complete" None w Hsend) as (message & Hrun & ->).
    by rewrite Hrun. }
  unfold run, try_except.
  assert (Hbody : ∀ A (m : M Voice.world A) (k : A → M Voice.world unit),
            (m ≫= k) w
            = match m w with
              | (t1, w1, Ret a) => let '(t2, w2, r) := k a w1 in (t1 ++ t2, w2, r)
              | (t1, w1, Raise e) => (t1, w1, Raise e)
              end) by reflexivity.
  rewrite Hbody.
  destruct (send_event_ok "audio_start" None w Hsend) as (message & Hrun & ->).
  unfold run in Hrun. rewrite Hrun. clear Hbody Hrun.
  unfold mbind at 1, M_bind at 1, get_state.
  destruct (text_to_speech_stream _ _ _) as [chunks failure]. cbn [fst snd].
  unfold mbind at 1, M_bind at 1, emit.
  unfold mbind at 1, M_bind at 1.
  pose proof (audio_chunks_run chunks
                (match failure with
                 | Some e => raise e
                 | None => emit (Done (TextToSpeechStream text
                                         (Voice.tts_voice (Voice.self w))))
                 end) w Hsend) as Hchunks.
  unfold run, emit in Hchunks. rewrite Hchunks. clear Hchunks.
  destruct failure as [e|].
  - unfold raise. cbn [find_handler]. rewrite isinstance_Exception.
    destruct (send_event_ok "error"
                (Some [(lit "message", JStr (lit "TTS error: " ++ str_of_exn e))]) w Hsend)
      as (message & Hrun & ->).
    unfold run in Hrun. rewrite Hrun. cbn. decide_literals.
    by rewrite app_nil_r.
  - destruct (send_event_ok "audio_complete" None w Hsend) as (message & Hrun & ->).
    unfold run in Hrun. unfold mbind, M_bind. rewrite Hrun. cbn.
    by rewrite <- !app_assoc.
Qed.

Lemma audio_response_stream_witness :
  run (@Voice._stream_audio_response Example.storage (Example.peers [])
         (JStr (lit "final")))
      (Example.world None false)
  = ( [ WsSendJson audio_start_event;
        Start (TextToSpeechStream (JStr (lit "final")) (lit "alloy"));
        WsSendJson [(lit "type", JStr (lit "audio_response")); (lit "data", JStr (lit "SUQz"))];
        Done (TextToSpeechStream (JStr (lit "final")) (lit "alloy"));
        WsSendJson audio_complete_event ],
      Example.world None false, Ret tt ).
Proof.
  apply (@audio_response_stream Example.storage Example.council (Example.peers [])
           (JStr (lit "final")) (Example.world None false)).
  reflexivity.
Defined.




(** ** What a run emits and what it keeps *)

Lemma find_handler_elem_of {H} (clauses : list (exn_class * H)) (e : exn) (h : H) :
  find_handler clauses e = Some h → ∃ c, (c, h) ∈ clauses.
Proof.
  induction clauses as [|[c h'] clauses IH]; first done.
  cbn. destruct (isinstance e c).
  - intros [= ->]. exists c. apply elem_of_cons. by left.
  - intros (c' & Hin)%IH. exists c'. apply elem_of_cons. by right.
Qed.

Section Respects.
Context {S : Type} (P : action → Prop) (R : S → S → Prop).
Context `{!Reflexive R, !Transitive R}.
Hypothesis Pcalls : ∀ c, P (Start c) ∧ P (Await c) ∧ P (Done c).

Lemma respects_ret {A} (a : A) : respects P R (mret a : M S A).
Proof. intros s. by split. Qed.

Lemma respects_lift {A} (r : result A) : respects P R (lift r : M S A).
Proof. intros s. by split. Qed.

Lemma respects_raise {A} (e : exn) : respects P R (raise e : M S A).
Proof. intros s. by split. Qed.

Lemma respects_get_state : respects P R (get_state : M S S).
Proof. intros s. by split. Qed.

Lemma respects_emit (a : action) : P a → respects P R (emit a : M S unit).
Proof. intros Ha s. split; [by repeat constructor | done]. Qed.

Lemma respects_bind {A B} (m : M S A) (k : A → M S B) :
  respects P R m → (∀ a, respects P R (k a)) → respects P R (m ≫= k).
Proof.
  intros Hm Hk s. rewrite run_bind. specialize (Hm s).
  destruct (run m s) as [[t1 s1] [a|e]]; last done.
  specialize (Hk a s1). destruct (run (k a) s1) as [[t2 s2] r].
  unfold trace_of, state_of in *. cbn [fst snd] in *.
  destruct Hm as [Ht1 Hs1], Hk as [Ht2 Hs2].
  split; [by apply Forall_app | by etrans].
Qed.

Lemma respects_fmap {A B} (f : A → B) (m : M S A) :
  respects P R m → respects P R (f <$> m).
Proof. intros Hm. apply respects_bind; [done | intros a; apply respects_ret]. Qed.

Lemma respects_try_except {A} (m : M S A) (clauses : list (exn_class * (exn → M S A))) :
  respects P R m →
  (∀ c h e, (c, h) ∈ clauses → respects P R (h e)) →
  respects P R (try_except m clauses).
Proof.
  intros Hm Hclauses s. unfold run, try_except. specialize (Hm s). unfold run in Hm.
  destruct (m s) as [[t1 s1] [a|e]]; first done.
  destruct (find_handler clauses e) as [h|] eqn:Hfind; last done.
  apply find_handler_elem_of in Hfind as [c Hin].
  specialize (Hclauses c h e Hin s1). unfold run in Hclauses.
  destruct (h e s1) as [[t2 s2] r].
  unfold trace_of, state_of in *. cbn [fst snd] in *.
  destruct Hm as [Ht1 Hs1], Hclauses as [Ht2 Hs2].
  split; [by apply Forall_app | by etrans].
Qed.

Lemma respects_try_finally {A} (m : M S A) (f : M S unit) :
  respects P R m → respects P R f → respects P R (try_finally m f).
Proof.
  intros Hm Hf s. unfold run, try_finally. specialize (Hm s). unfold run in Hm.
  destruct (m s) as [[t1 s1] r]. specialize (Hf s1). unfold run in Hf.
  destruct (f s1) as [[t2 s2] rf].
  unfold trace_of, state_of in *. cbn [fst snd] in *.
  destruct Hm as [Ht1 Hs1], Hf as [Ht2 Hs2].
  split; [by apply Forall_app | by etrans].
Qed.

Lemma respects_call {A} (c : callee) (r : result A) : respects P R (call c r : M S A).
Proof.
  intros s. destruct (Pcalls c) as (? & ? & ?).
  unfold run, call. destruct r; (split; [by repeat constructor | done]).
Qed.

Lemma respects_create_task {A} (c : callee) (r : result A) :
  respects P R (create_task c r : M S (task A)).
Proof.
  intros s. destruct (Pcalls c) as (? & ? & ?). split; [by repeat constructor | done].
Qed.

Lemma respects_await_task {A} (t : task A) : respects P R (await_task t : M S A).
Proof.
  intros s. destruct (Pcalls (task_callee t)) as (? & ? & ?).
  unfold run, await_task. destruct (task_outcome t); (split; [by repeat constructor | done]).
Qed.

Lemma respects_await_call {A} (c : callee) (r : result A) :
  respects P R (await_call c r : M S A).
Proof.
  apply respects_bind; [apply respects_create_task | intros t; apply respects_await_task].
Qed.

End Respects.

Section RealtimeTraces.
Context `{Peers} (P : action → Prop).
Hypothesis Prt : ∀ frame, P (RtSend frame).
Hypothesis Pclose : P RtClose.

Lemma connect_trace c : Forall P (trace_of (run Realtime.connect c)).
Proof.
  rewrite connect_run. destruct websockets_connect; last done.
  destruct (ws_send _); by repeat constructor.
Qed.

Lemma send_audio_trace chunk c : Forall P (trace_of (run (Realtime.send_audio chunk) c)).
Proof.
  rewrite send_audio_run. destruct (negb _ || negb _); first done.
  destruct (ws_send _); by repeat constructor.
Qed.

Lemma commit_audio_trace c : Forall P (trace_of (run Realtime.commit_audio c)).
Proof.
  rt_unfold. cbn. destruct (negb _ || negb _); first done.
  destruct (ws_send _) as [[]|e]; cbn; last done.
  destruct (ws_send _) as [[]|e] in |- *; cbn; by repeat constructor.
Qed.

Lemma receive_messages_trace c : Forall P (trace_of (run Realtime.receive_messages c)).
Proof. destruct (receive_messages_quiet c) as (connected & v & ->). done. Qed.

Lemma close_trace c : Forall P (trace_of (run Realtime.close c)).
Proof.
  rewrite close_run. destruct (Realtime.ws c); last done.
  destruct ws_close; by repeat constructor.
Qed.

End RealtimeTraces.

Section VoiceRespects.
Context `{Storage, Council, Peers}.
Context (P : action → Prop) (R : Voice.world → Voice.world → Prop).
Context `{!Reflexive R, !Transitive R}.
Hypothesis Pcalls : ∀ c, P (Start c) ∧ P (Await c) ∧ P (Done c).
Hypothesis Psend : ∀ message, P (WsSendJson message).
Hypothesis Prt : ∀ frame, P (RtSend frame).
Hypothesis Pclose : P RtClose.
Hypothesis Rstorage : ∀ w st, R w (Voice.World (Voice.self w) st).
Hypothesis Rclient : ∀ w c c',
  Voice.realtime_client (Voice.self w) = Some c →
  R w (Voice.World (Voice.set_realtime_client (Some c') (Voice.self w)) (Voice.storage w)).
Hypothesis Rself : ∀ w s, R w (Voice.World s (Voice.storage w)).

Lemma respects_send_event event_type data :
  respects P R (Voice.send_event event_type data).
Proof.
  intros w. unfold run, Voice.send_event.
  destruct (websocket_send_json _); (split; [by repeat constructor | done]).
Qed.

Lemma respects_on_storage c f :
  respects P R (Voice.on_storage (storage_call c f)).
Proof.
  intros w. destruct (Pcalls c) as (? & ? & ?).
  unfold run, Voice.on_storage, zoom, storage_call.
  destruct (f (Voice.storage w)) as [st [[]|e]];
    (split; [by repeat constructor | apply Rstorage]).
Qed.

Lemma respects_on_client {A} (m : M Realtime.RealtimeClient A) :
  (∀ c, Forall P (trace_of (run m c))) → respects P R (Voice.on_client m).
Proof.
  intros Hm w. unfold run, Voice.on_client.
  destruct (Voice.realtime_client (Voice.self w)) as [c|] eqn:Hclient; last done.
  specialize (Hm c). unfold run in Hm. destruct (m c) as [[t c'] r].
  split; [done | by eapply Rclient].
Qed.

Lemma respects_on_self (f : Voice.VoiceChatSession → Voice.VoiceChatSession) :
  respects P R (Voice.on_self (modify f)).
Proof. intros w. split; [done | apply Rself]. Qed.

Lemma respects_audio_chunks (tail : M Voice.world unit) chunks :
  respects P R tail →
  respects P R
    (foldr (λ chunk rest,
              Voice.send_event "audio_response" (Some [(lit "data", JStr (b64encode chunk))]);;
              rest) tail chunks).
Proof.
  intros Htail. induction chunks as [|chunk chunks IH]; first done.
  cbn [foldr]. apply respects_bind; [done | apply respects_send_event | done].
Qed.

Lemma respects_stream_audio text : respects P R (Voice._stream_audio_response text).
Proof.
  unfold Voice._stream_audio_response.
  destruct (negb (truthy text)); first apply respects_send_event.
  apply respects_try_except; first done.
  - apply respects_bind; [done | apply respects_send_event | intros _].
    apply respects_bind; [done | by apply respects_get_state | intros w].
    destruct (text_to_speech_stream _ _ _) as [chunks failure].
    apply respects_bind; [done | apply respects_emit; try done; apply Pcalls | intros _].
    apply respects_bind; [done | | intros _; apply respects_send_event].
    apply respects_audio_chunks.
    destruct failure; [by apply respects_raise | apply respects_emit; try done; apply Pcalls].
  - intros c h e [[= -> ->]|Hin%elem_of_nil]%elem_of_cons; last done.
    apply respects_send_event.
Qed.

Ltac respects_step :=
  lazymatch goal with
  | |- respects _ _ (mret _) => by apply respects_ret
  | |- respects _ _ (lift _) => by apply respects_lift
  | |- respects _ _ (raise _) => by apply respects_raise
  | |- respects _ _ get_state => by apply respects_get_state
  | |- respects _ _ (Voice.send_event _ _) => apply respects_send_event
  | |- respects _ _ (Voice._stream_audio_response _) => apply respects_stream_audio
  | |- respects _ _ (Voice.on_storage (storage_call _ _)) => apply respects_on_storage
  | |- respects _ _ (await_call _ _) => by apply respects_await_call
  | |- respects _ _ (call _ _) => by apply respects_call
  | |- respects _ _ (create_task _ _) => by apply respects_create_task
  | |- respects _ _ (await_task _) => by apply respects_await_task
  | |- respects _ _ (_ <$> _) => apply respects_fmap; [done|done|]
  | |- respects _ _ (_ ≫= _) => apply respects_bind; [done| |intros ?]
  | |- respects _ _ (match ?x with _ => _ end) => destruct x
  end.

Lemma respects_run_council user_query :
  respects P R (Voice._run_council_process user_query).
Proof. unfold Voice._run_council_process. repeat respects_step. Qed.

Ltac handlers :=
  let Hin := fresh "Hin" in
  intros ? ? ? Hin;
  repeat (apply elem_of_cons in Hin as [[= -> ->]|Hin]);
  [.. | by apply elem_of_nil in Hin].

(** The turn of [_stop_recording]: the statements inside its [try]. *)
Lemma respects_stop_turn :
  respects P R
    (try_except
       (Voice.on_client Realtime.commit_audio;;
        transcription ← Voice.on_client Realtime.receive_messages;
        spoken ← lift (Voice.spoken_text transcription);
        match spoken with
        | None =>
            Voice.send_event "error" (Some [(lit "message", JStr (lit "No speech detected"))])
        | Some t =>
            Voice.send_event "transcription" (Some [(lit "text", JStr t)]);;
            Voice._run_council_process t
        end)
       [ (Exception, λ e,
            Voice.send_event "error" (Some [(lit "message", JStr (str_of_exn e))])) ]).
Proof.
  apply respects_try_except; [done | | handlers; apply respects_send_event].
  apply respects_bind; [done | | intros _].
  { apply respects_on_client. intros c. by apply commit_audio_trace. }
  apply respects_bind; [done | | intros transcription].
  { apply respects_on_client. intros c. by apply receive_messages_trace. }
  apply respects_bind; [done | by apply respects_lift | intros [t|]].
  - apply respects_bind; [done | apply respects_send_event | intros _].
    apply respects_run_council.
  - apply respects_send_event.
Qed.

Lemma respects_stop_recording : respects P R Voice._stop_recording.
Proof.
  unfold Voice._stop_recording.
  apply respects_bind; [done | apply respects_on_self | intros _].
  apply respects_bind; [done | by apply respects_get_state | intros w].
  destruct (Voice.realtime_client (Voice.self w)); last apply respects_send_event.
  apply respects_try_finally; [done | apply respects_stop_turn |].
  apply respects_bind; [done | | intros _; apply respects_on_self].
  apply respects_on_client. intros c. by apply close_trace.
Qed.

Lemma respects_start_recording : respects P R Voice._start_recording.
Proof.
  unfold Voice._start_recording.
  do 3 (apply respects_bind; [done | apply respects_on_self | intros _]).
  apply respects_bind; [done | | intros connected].
  { apply respects_on_client. intros c. by apply connect_trace. }
  destruct (negb connected); apply respects_send_event.
Qed.

Lemma respects_handle_message message : respects P R (Voice.handle_message message).
Proof.
  unfold Voice.handle_message. cbv zeta.
  destruct (Voice.type_is _ "start_recording").
  { apply respects_bind; [done | apply respects_start_recording | intros _].
    by apply respects_ret. }
  destruct (Voice.type_is _ "audio").
  { apply respects_bind; [done | | intros _; by apply respects_ret].
    destruct (truthy _); last by apply respects_ret.
    apply respects_bind; [done | by apply respects_lift | intros decoded].
    apply respects_bind; [done | apply respects_on_self | intros _].
    apply respects_bind; [done | by apply respects_get_state | intros w].
    destruct (Voice.realtime_client (Voice.self w)); last by apply respects_ret.
    apply respects_on_client. intros c. by apply send_audio_trace. }
  destruct (Voice.type_is _ "stop_recording").
  { apply respects_bind; [done | apply respects_stop_recording | intros _].
    by apply respects_ret. }
  destruct (Voice.type_is _ "close"); by apply respects_ret.
Qed.

Lemma respects_message_loop received : respects P R (Voice.message_loop received).
Proof.
  induction received as [|r received IH]; first by apply respects_raise.
  cbn [Voice.message_loop].
  apply respects_bind; [done | by apply respects_lift | intros data].
  apply respects_bind; [done | apply respects_handle_message | intros [|]]; first done.
  by apply respects_ret.
Qed.

Lemma respects_session_run received : respects P R (Voice.run received).
Proof.
  unfold Voice.run.
  apply respects_try_finally; first done.
  - apply respects_try_except; [done | apply respects_message_loop | handlers].
    apply respects_try_except; [done | apply respects_send_event | handlers].
    by apply respects_ret.
  - apply respects_bind; [done | by apply respects_get_state | intros w].
    destruct (Voice.realtime_client (Voice.self w)); last by apply respects_ret.
    apply respects_on_client. intros c. by apply close_trace.
Qed.

(** The session as [voice_chat_endpoint] runs it, with its two handlers. *)
Lemma respects_endpoint_session received :
  respects P R
    (try_except (Voice.run received)
       [ (WebSocketDisconnect, λ _, mret tt);
         (Exception, λ e,
            try_except
              (λ w,
                 let message :=
                   [ (lit "type", JStr (lit "error"));
                     (lit "message", JStr (str_of_exn e)) ] in
                 match websocket_send_json message with
                 | Ret _ => ([WsSendJson message], w, Ret tt)
                 | Raise e' => ([], w, Raise e')
                 end)
              [ (Exception, λ _, mret tt) ]) ]).
Proof.
  apply respects_try_except; [done | apply respects_session_run | handlers].
  - by apply respects_ret.
  - apply respects_try_except; [done | | handlers; by apply respects_ret].
    intros w. unfold run. cbv zeta.
    destruct (websocket_send_json _); (split; [by repeat constructor | done]).
Qed.

End VoiceRespects.

(** ** voice.py: the session between messages *)

#[local] Instance client_kept_reflexive `{Storage} : Reflexive client_kept.
Proof. intros w. by repeat split. Qed.

#[local] Instance client_kept_transitive `{Storage} : Transitive client_kept.
Proof.
  intros w1 w2 w3 (Hc1 & Hr1 & Hk1) (Hc2 & Hr2 & Hk2).
  split; [congruence | split; [congruence | auto]].
Qed.

Lemma stop_recording_run `{Storage, Council, Peers} (w : Voice.world) :
  ws_close = Ret tt →
  let out := run Voice._stop_recording w in
  idle (Voice.self (state_of out))
  ∧ Voice.audio_chunks (Voice.self (state_of out)) = Voice.audio_chunks (Voice.self w).
Proof.
  intros Hclose. cbv zeta.
  destruct w as [[cid key voice chunks client recording] st].
  unfold Voice._stop_recording. rewrite run_bind.
  change (run (Voice.on_self (modify (Voice.set_is_recording false))) _)
    with (@nil action, Voice.World (Voice.Session cid key voice chunks client false) st,
          Ret ()).
  cbv iota beta. rewrite run_bind.
  change (run get_state ?w) with (@nil action, w, Ret w).
  cbv iota beta. cbn [Voice.self Voice.realtime_client].
  destruct client as [c|]; last first.
  { unfold run, Voice.send_event. by destruct (websocket_send_json _). }
  unfold run, try_finally.
  match goal with
  | |- context [try_except ?m ?h ?w0] =>
      pose proof (respects_stop_turn (λ _, True) client_kept
                    ltac:(done) ltac:(done) ltac:(done) ltac:(by repeat split)
                    ltac:(by repeat split) w0) as [_ Hkept];
      unfold run, state_of in Hkept;
      destruct (try_except m h w0) as [[t1 w1] r1]
  end.
  cbn [fst snd] in Hkept. destruct Hkept as (Hchunks & Hrecording & Hclient).
  cbn in Hchunks, Hrecording, Hclient.
  destruct Hclient as [c1 Hc1]; first by eexists.
  destruct w1 as [[cid1 key1 voice1 chunks1 client1 recording1] st1].
  cbn in Hchunks, Hrecording, Hc1. subst chunks1 recording1 client1.
  unfold mbind, M_bind, Voice.on_client. cbn [Voice.self Voice.realtime_client].
  pose proof (close_run c1) as Hrun. unfold run in Hrun. rewrite Hrun, Hclose.
  by destruct (Realtime.ws c1).
Qed.

(** X23.  When closing the transcription socket succeeds, a
    [stop_recording] message always leaves the session idle, with no client
    installed and the recording flag cleared, and leaves the audio buffer
    as it was: whether a client was installed or not, whether speech was
    detected or not, and whether the turn completed, failed or its report
    could not be sent. *)
Theorem stop_recording_leaves_idle `{Storage, Council, Peers}
    (w : Voice.world) (message : pydict) :
  ws_close = Ret tt →
  dict_get message (lit "type") = Some (JStr (lit "stop_recording")) →
  let out := run (Voice.handle_message message) w in
  idle (Voice.self (state_of out))
  ∧ Voice.audio_chunks (Voice.self (state_of out)) = Voice.audio_chunks (Voice.self w).
Proof.
  intros Hclose Htype. cbv zeta.
  pose proof (stop_recording_run w Hclose) as Hstop. cbv zeta in Hstop.
  unfold Voice.handle_message. cbv zeta. message_type Htype.
  rewrite run_bind. by destruct (run Voice._stop_recording w) as [[t w'] [[]|e]].
Qed.

Lemma stop_recording_leaves_idle_witness :
  idle (Voice.self (state_of
    (run (@Voice.handle_message Example.storage Example.council (Example.peers (lit "hello"))
            [(lit "type", JStr (lit "stop_recording"))])
         (Example.world (Some open_client) true)))).
Proof.
  apply (@stop_recording_leaves_idle Example.storage Example.council
           (Example.peers (lit "hello")) (Example.world (Some open_client) true)
           [(lit "type", JStr (lit "stop_recording"))]); reflexivity.
Defined.

Lemma audio_message_keeps_flag `{Storage, Council, Peers} (w : Voice.world) (message : pydict) :
  dict_get message (lit "type") = Some (JStr (lit "audio")) →
  let s' := Voice.self (state_of (run (Voice.handle_message message) w)) in
  Voice._is_recording s' = Voice._is_recording (Voice.self w)
  ∧ (is_Some (Voice.realtime_client s') ↔ is_Some (Voice.realtime_client (Voice.self w))).
Proof.
  intros Htype. cbv zeta.
  destruct w as [[cid key voice chunks client recording] st].
  voice_unfold. message_type Htype.
  destruct (truthy _); last done.
  destruct (match dict_get_default message (lit "data") (JStr []) with
            | JStr payload => b64decode payload
            | _ => Raise (PyExn TypeError
                            (not_bytes_like (dict_get_default message (lit "data") (JStr []))))
            end) as [decoded|e]; last done.
  cbn -[Realtime.send_audio]. destruct client as [c|]; last done.
  cbn -[Realtime.send_audio].
  destruct (Realtime.send_audio decoded c) as [[t c'] [[]|e]]; cbn; by split.
Qed.

Lemma handle_message_keeps_flag `{Storage, Council, Peers}
    (w : Voice.world) (message : pydict) :
  ws_close = Ret tt →
  flag_matches_client (Voice.self w) →
  flag_matches_client (Voice.self (state_of (run (Voice.handle_message message) w))).
Proof.
  intros Hclose Hflag.
  destruct (Voice.type_is (dict_get message (lit "type")) "start_recording") eqn:Hstart.
  { apply type_is_true in Hstart.
    pose proof (start_recording_run w) as (Hstate & _). cbv zeta in Hstate.
    unfold Voice.handle_message. cbv zeta. message_type Hstart. rewrite run_bind.
    destruct (run Voice._start_recording w) as [[t w'] [[]|e]];
      unfold state_of in *; cbn [fst snd] in *; subst w'; by split. }
  destruct (Voice.type_is (dict_get message (lit "type")) "audio") eqn:Haudio.
  { apply type_is_true in Haudio.
    destruct (audio_message_keeps_flag w message Haudio) as [Hrecording Hclient].
    unfold flag_matches_client in *. by rewrite Hrecording, Hclient. }
  destruct (Voice.type_is (dict_get message (lit "type")) "stop_recording") eqn:Hstop.
  { apply type_is_true in Hstop.
    pose proof (stop_recording_run w Hclose) as [[Hclient Hrecording] _].
    cbv zeta in Hclient, Hrecording.
    unfold Voice.handle_message. cbv zeta. message_type Hstop. rewrite run_bind.
    destruct (run Voice._stop_recording w) as [[t w'] [[]|e]];
      unfold state_of, flag_matches_client, run, mret, M_ret in *; cbn [fst snd] in *;
      rewrite Hclient, Hrecording; split; (done || by intros [? ?]). }
  unfold Voice.handle_message. cbv zeta. rewrite Hstart, Haudio, Hstop.
  by destruct (Voice.type_is _ "close").
Qed.

(** X25.  When closing the transcription socket succeeds, the message
    loop keeps the recording flag and the client in step: if the flag is
    set exactly when a client is installed before the loop (as in a new
    session), then so it is when the loop ends, after any messages and
    whether the loop returned or raised. *)
Theorem recording_flag_tracks_client `{Storage, Council, Peers}
    (received : list (result pydict)) (w : Voice.world) :
  ws_close = Ret tt →
  flag_matches_client (Voice.self w) →
  flag_matches_client (Voice.self (state_of (run (Voice.message_loop received) w)))
  ∧ ∀ conversation_id api_key tts_voice,
      flag_matches_client (Voice.new conversation_id api_key tts_voice).
Proof.
  intros Hclose Hflag. split; last first.
  { intros cid key voice. split; [done | by intros [? ?]]. }
  revert w Hflag. induction received as [|r received IH]; intros w Hflag; first done.
  cbn [Voice.message_loop]. rewrite run_bind.
  destruct r as [data|e]; last done.
  change (run (lift (Ret data)) w) with (@nil action, w, Ret data).
  cbv iota beta. rewrite run_bind.
  pose proof (handle_message_keeps_flag w data Hclose Hflag) as Hstep.
  destruct (run (Voice.handle_message data) w) as [[t1 w1] [[|]|e]];
    unfold state_of in *; cbn [fst snd] in *; try done.
  specialize (IH w1 Hstep).
  by destruct (run (Voice.message_loop received) w1) as [[t2 w2] r2].
Qed.

Lemma recording_flag_tracks_client_witness :
  flag_matches_client (Voice.self (state_of
    (run (@Voice.message_loop Example.storage Example.council (Example.peers (lit "hello"))
            [ Ret [(lit "type", JStr (lit "start_recording"))];
              Ret [(lit "type", JStr (lit "stop_recording"))] ])
         (Example.world None false)))).
Proof.
  apply (@recording_flag_tracks_client Example.storage Example.council
           (Example.peers (lit "hello"))
           [ Ret [(lit "type", JStr (lit "start_recording"))];
             Ret [(lit "type", JStr (lit "stop_recording"))] ]
           (Example.world None false)); first reflexivity.
  split; [done | by intros [? ?]].
Defined.

(** X30.  A [stop_recording] message on an open connection on which
    speech was transcribed is answered by a council turn: the two commit
    frames are sent, the transcription is reported to the client, the turn
    runs on the transcribed text, and the transcription socket is closed
    last.  An exception that leaves the turn is reported to the client as
    an [error] event with its text, and does not leave the handler.  In
    both cases the session ends idle.  (The client accepts every event and
    the provider every frame.) *)
Theorem spoken_turn_is_answered `{Storage, Council, Peers}
    (w : Voice.world) (message : pydict) (text : pystr) :
  dict_get message (lit "type") = Some (JStr (lit "stop_recording")) →
  Voice.realtime_client (Voice.self w) = Some open_client →
  Forall (λ frame, ws_send frame = Ret tt) commit_frames →
  result_of (run Realtime.receive_messages open_client) = Ret (JStr text) →
  strip text ≠ [] →
  (∀ event, websocket_send_json event = Ret tt) →
  ws_close = Ret tt →
  let heard :=
    Voice.World
      (Voice.set_realtime_client
         (Some (state_of (run Realtime.receive_messages open_client)))
         (Voice.set_is_recording false (Voice.self w)))
      (Voice.storage w) in
  let turn := run (Voice._run_council_process text) heard in
  run (Voice.handle_message message) w
  = ( (RtSend <$> commit_frames)
      ++ [WsSendJson (transcription_event text)]
      ++ trace_of turn
      ++ match result_of turn with
         | Ret _ => []
         | Raise e => [WsSendJson (error_event e)]
         end
      ++ [RtClose],
      Voice.World
        (Voice.set_realtime_client None (Voice.set_is_recording false (Voice.self w)))
        (Voice.storage (state_of turn)),
      Ret true ).
Proof.
  intros Htype Hclient Hcommit Hreceived Hspoken Hsend Hclose. cbv zeta.
  unfold open_client in *.
  destruct w as [[cid key voice chunks rc recording] st]. cbn in Hclient. subst rc.
  apply Forall_cons in Hcommit as [Hcommit1 Hcommit2].
  apply Forall_cons in Hcommit2 as [Hcommit2 _].
  destruct (receive_messages_quiet {| Realtime.ws := true; Realtime._connected := true |})
    as (connected & v & Hrun).
  cbn [Realtime.ws] in Hrun.
  rewrite Hrun in Hreceived |- *. injection Hreceived as ->.
  assert (Htext : Voice.spoken_text (JStr text) = Ret (Some text)).
  { unfold Voice.spoken_text. cbn [truthy].
    destruct (bool_decide (text = [])) eqn:Hempty.
    - apply bool_decide_eq_true in Hempty. by subst text.
    - cbn [negb]. by rewrite bool_decide_false. }
  pose proof (@respects_run_council _ _ _ (λ _, True) (λ w w', Voice.self w' = Voice.self w)
                ltac:(by intros ?) ltac:(by intros ? ? ? ? ?; etrans)
                ltac:(done) ltac:(done) ltac:(done) text
                (Voice.World
                   (Voice.Session cid key voice chunks
                      (Some {| Realtime.ws := true; Realtime._connected := connected |}) false)
                   st)) as [_ Hself].
  unfold Voice.handle_message. cbv zeta. message_type Htype.
  unfold Voice._stop_recording.
  unfold Realtime.commit_audio, Realtime.send, Realtime.close,
    run, try_finally, try_except, Voice.on_self, Voice.on_client, zoom, modify, get_state,
    lift, mret, M_ret, mbind, M_bind in Hrun, Hself |- *.
  cbn -[Realtime.receive_messages Voice._run_council_process Voice.send_event].
  rewrite Hcommit1. cbn -[Realtime.receive_messages Voice._run_council_process Voice.send_event].
  rewrite Hcommit2. cbn -[Realtime.receive_messages Voice._run_council_process Voice.send_event].
  rewrite Hrun. cbn -[Voice._run_council_process Voice.send_event].
  rewrite Htext. cbn -[Voice._run_council_process Voice.send_event].
  unfold Voice.send_event at 1. rewrite Hsend.
  cbn -[Voice._run_council_process Voice.send_event]. decide_literals.
  unfold state_of in Hself.
  cbv [Voice.set_realtime_client Voice.set_is_recording Voice.self Voice.storage
       Voice.conversation_id Voice.api_key Voice.tts_voice Voice.audio_chunks
       Voice.realtime_client Voice._is_recording] in Hself |- *.
  destruct (Voice._run_council_process text _) as [[t2 [s2 st2]] r2].
  cbn [fst snd] in Hself. subst s2.
  unfold trace_of, result_of, state_of. cbn [fst snd].
  destruct r2 as [[]|e]; cbn [find_handler].
  - rewrite Hclose. cbn. by rewrite ?app_nil_r.
  - rewrite isinstance_Exception. unfold Voice.send_event. rewrite Hsend.
    cbn. decide_literals. rewrite Hclose. cbn. by rewrite ?app_nil_r, <- ?app_assoc.
Qed.

Lemma spoken_turn_is_answered_witness :
  let out :=
    run (@Voice.handle_message Example.storage Example.council (Example.peers (lit "hello"))
           [(lit "type", JStr (lit "stop_recording"))])
        (Example.world (Some open_client) true) in
  result_of out = Ret true
  ∧ last (trace_of out) = Some RtClose
  ∧ (RtSend <$> commit_frames) ++ [WsSendJson (transcription_event (lit "hello"))]
    `prefix_of` trace_of out.
Proof.
  cbv zeta.
  rewrite (@spoken_turn_is_answered Example.storage Example.council
             (Example.peers (lit "hello")) (Example.world (Some open_client) true)
             [(lit "type", JStr (lit "stop_recording"))] (lit "hello"));
    [| reflexivity | reflexivity | by repeat constructor | reflexivity
     | vm_compute; discriminate | reflexivity | reflexivity].
  unfold result_of, trace_of. cbn [fst snd].
  split; first done. split.
  - by rewrite !app_assoc, last_snoc.
  - rewrite app_assoc. by eexists.
Defined.

(** ** main.py: the voice endpoint *)

(** X26.  Every connection attempt on which the token check returns starts
    with exactly one action on the life cycle of the client socket, and has
    no other: the socket is accepted when no setup requirement fails, and
    closed otherwise.  After accepting, neither the endpoint nor the
    session closes the socket or accepts it again, whatever the client
    sends and whatever fails. *)
Theorem one_lifecycle_action_per_attempt `{Storage, Council, Auth.Crypto, Peers}
    (db : Users.table) (OPENAI_API_KEY : option pystr) (st : Store)
    (conversation_id : pystr) (token : option pystr) (received : list (result pydict)) :
  (∀ tok, token = Some tok → returned (Auth.verify_token tok) = true) →
  let t := trace_of (run (Main.voice_chat_endpoint db OPENAI_API_KEY conversation_id
                            token received) st) in
  ∃ a rest,
    t = a :: rest
    ∧ is_lifecycle a = true
    ∧ Forall (λ a, is_lifecycle a = false) rest
    ∧ (a = WsAccept
       ↔ setup_failure_of db OPENAI_API_KEY st conversation_id token = None).
Proof.
  intros Hreturned. cbv zeta.
  unfold setup_failure_of, Main.voice_chat_endpoint, run, Main.close, emit, trace_of.
  destruct token as [[|ch token]|];
    [by eexists _, []; cbn| |by eexists _, []; cbn].
  specialize (Hreturned _ eq_refl).
  unfold mbind, M_bind, lift.
  destruct (Auth.verify_token (ch :: token)) as [[payload|]|e];
    [|by eexists _, []; cbn|done].
  destruct (Users.get_user_by_id db (Main.payload_sub payload)) as [current_user|] eqn:Huser;
    [|by eexists _, []; cbn].
  apply get_user_by_id_id in Huser as (id & Hsub & Hid).
  destruct OPENAI_API_KEY as [[|k key]|];
    [by eexists _, []; cbn| |by eexists _, []; cbn].
  cbn [Main.falsy get_state].
  destruct (get_conversation st conversation_id) as [conversation|];
    [|by eexists _, []; cbn].
  rewrite Hid, Hsub.
  assert (Hown : owner_differs (conv_user_id conversation) (JStr id)
                 = negb (bool_decide (conv_user_id conversation = Some id))).
  { destruct (conv_user_id conversation) as [owner|]; cbn; last done.
    f_equal. apply bool_decide_ext. split; [by intros -> | by intros [= ->]]. }
  rewrite Hown. destruct (bool_decide (conv_user_id conversation = Some id)); cbn [negb];
    last by eexists _, []; cbn.
  pose proof (@respects_endpoint_session _ _ _ (λ a, is_lifecycle a = false) (λ _ _, True)
                ltac:(by intros ?) ltac:(by intros ? ? ?) ltac:(by intros; repeat split)
                ltac:(done) ltac:(done) ltac:(done) ltac:(done) ltac:(done) ltac:(done)
                received
                (Voice.World (Voice.new conversation_id (k :: key) Main.TTS_VOICE) st))
    as [Hsession _].
  unfold zoom, run, trace_of in *.
  destruct (try_except _ _ _) as [[t w] r]. cbn.
  by eexists _, t.
Qed.

Lemma one_lifecycle_action_per_attempt_witness :
  ∃ rest,
    trace_of (run (@Main.voice_chat_endpoint Example.storage Example.council Example.crypto
                     (Example.peers []) Example.db (Some (lit "sk-test")) (lit "c1")
                     (Some (lit "good")) [Ret [(lit "type", JStr (lit "close"))]])
                Example.store1)
    = WsAccept :: rest
    ∧ Forall (λ a, is_lifecycle a = false) rest.
Proof.
  destruct (@one_lifecycle_action_per_attempt Example.storage Example.council Example.crypto
              (Example.peers []) Example.db (Some (lit "sk-test")) Example.store1 (lit "c1")
              (Some (lit "good")) [Ret [(lit "type", JStr (lit "close"))]])
    as (a & rest & Htrace & _ & Hrest & Haccept).
  - intros tok [= <-]. reflexivity.
  - exists rest. split; last done. rewrite Htrace. f_equal.
    apply Haccept. vm_compute. reflexivity.
Defined.

(** ** main.py: reading and streaming *)

Lemma owner_differs_false (owner : option pystr) (user_id : pystr) :
  owner_differs owner (JStr user_id) = false ↔ owner = Some user_id.
Proof.
  destruct owner as [owner|]; cbn; last done.
  rewrite negb_false_iff, bool_decide_eq_true. split; [by intros -> | by intros [= ->]].
Qed.

(** X27.  Reading a conversation has no effect, and answers only its
    owner: it returns the stored conversation when the caller's id is the
    id stored with it, 404 when there is no such conversation and 403 when
    it belongs to someone else.  The streaming endpoint makes the same
    checks before it streams: what reading refuses it refuses with the
    same error and without effect, and otherwise its run is the event
    generator's, told whether the conversation had no message yet. *)
Theorem conversation_access_is_owner_only `{Storage, Council}
    (conversation_id content : pystr) (current_user : pydict) (st : Store) :
  let read := run (Conversations.get_conversation conversation_id current_user) st in
  let stream := run (Main.send_message_stream conversation_id content current_user) st in
  trace_of read = [] ∧ state_of read = st
  ∧ (∀ conversation,
       result_of read = Ret conversation →
       get_conversation st conversation_id = Some conversation
       ∧ (∀ user_id, dict_get current_user (lit "id") = Some (JStr user_id) →
            conv_user_id conversation = Some user_id)
       ∧ stream
         = run (Main.event_generator conversation_id content
                  (bool_decide (length (conv_messages conversation) = 0%nat))) st)
  ∧ (∀ e, result_of read = Raise e → stream = ([], st, Raise e))
  ∧ (get_conversation st conversation_id = None →
     result_of read = Raise (HTTPExn 404 (lit "Conversation not found")))
  ∧ (∀ conversation user_id,
       get_conversation st conversation_id = Some conversation →
       dict_get current_user (lit "id") = Some (JStr user_id) →
       conv_user_id conversation ≠ Some user_id →
       result_of read = Raise (HTTPExn 403 (lit "Access denied"))).
Proof.
  cbv zeta.
  unfold Main.send_message_stream, Main.owned_conversation, Conversations.get_conversation.
  rewrite !run_bind.
  change (run get_state st) with (@nil action, st, Ret st). cbv iota beta.
  destruct (get_conversation st conversation_id) as [conversation|]; last first.
  { cbn. repeat split; try done. by intros e [= <-]. }
  rewrite !run_bind. unfold dict_index.
  destruct (dict_get current_user (lit "id")) as [id|]; last first.
  { cbn. repeat split; try done. by intros e [= <-]. }
  change (run (lift (Ret id)) st) with (@nil action, st, Ret id). cbv iota beta.
  destruct (owner_differs (conv_user_id conversation) id) eqn:Hown.
  - cbn. split; [done|split; [done|split; [done|split; [|split; [done|done]]]]].
    by intros e [= <-].
  - cbn. split; [done|split; [done|split; [|split; [done|split; [done|]]]]].
    + intros ? [= <-]. split; first done. split.
      * intros user_id [= ->]. by apply owner_differs_false.
      * match goal with |- context [run ?m st] => by destruct (run m st) as [[t s] r] end.
    + intros ? user_id [= <-] [= ->] Hne. by apply owner_differs_false in Hown.
Qed.

Ltac no_complete_event Hin :=
  exfalso;
  repeat (apply elem_of_cons in Hin as [Hin|Hin];
          [try discriminate Hin; injection Hin as Hin; vm_compute in Hin; discriminate Hin|]);
  by apply elem_of_nil in Hin.

Lemma stored_in_order_streaming `{Storage, Council}
    (conversation_id content : pystr) (current_user : pydict) (st : Store) :
  let out := run (Main.send_message_stream conversation_id content current_user) st in
  stored_in_order (trace_of out)
  ∧ (Yield [(lit "type", JStr (lit "complete"))] ∈ trace_of out →
     existsb is_persisted (trace_of out) = true).
Proof.
  cbv zeta. unfold stored_in_order.
  outcome_of (run (Main.send_message_stream conversation_id content current_user) st).
  main_unfold_in Hrun.
  explore Hrun; conclude Hrun.
  all: (split; [done|]).
  all: unfold trace_of; cbn [fst snd]; intros Hin; try done.
  all: no_complete_event Hin.
Qed.

Lemma stored_in_order_atomic `{Storage, Council}
    (conversation_id content : pystr) (current_user : pydict) (st : Store) :
  let out := run (Main.send_message conversation_id content current_user) st in
  stored_in_order (trace_of out)
  ∧ (returned (result_of out) = true → existsb is_persisted (trace_of out) = true).
Proof.
  cbv zeta. unfold stored_in_order.
  outcome_of (run (Main.send_message conversation_id content current_user) st).
  main_unfold_in Hrun.
  explore Hrun; conclude Hrun; done.
Qed.

Lemma stored_in_order_voice `{Storage, Council, Peers}
    (user_query : pystr) (w : Voice.world) :
  let out := run (Voice._run_council_process user_query) w in
  stored_in_order (trace_of out)
  ∧ (is_Some (get_conversation (Voice.storage w) (Voice.conversation_id (Voice.self w))) →
     returned (result_of out) = true →
     existsb is_persisted (trace_of out) = true).
Proof.
  cbv zeta. unfold stored_in_order.
  outcome_of (run (Voice._run_council_process user_query) w).
  voice_turn_unfold_in Hrun.
  destruct w as [s st]. cbn [Voice.self Voice.storage] in *.
  explore Hrun; conclude Hrun; try done.
  all: try (split; [done | by intros [? [=]]]).
  all: match goal with
       | Haudio : Voice._stream_audio_response ?text ?w = (?t, _, _) |- _ =>
           pose proof (playback_stream_audio text w) as Hplay;
           unfold run, trace_of in Hplay; rewrite Haudio in Hplay; cbn in Hplay
       end.
  all: rewrite ?precedes_from_playback by (done || by intros [[]|[]|[]| | | | | |]).
  all: done.
Qed.

(** X28.  On every surface a turn touches the store in the same order:
    the user message is stored before Stage 1 starts, and the answer is
    handed to the store only after Stage 3 is done, on every path, failed
    or not.  A turn that reports success has stored the answer: an atomic
    request that returns, a stream that yields [complete], and a voice turn
    on an existing conversation that returns. *)
Theorem turn_stored_in_order `{Storage, Council, Peers}
    (conversation_id content : pystr) (current_user : pydict) (st : Store)
    (session : Voice.VoiceChatSession) :
  let atomic := run (Main.send_message conversation_id content current_user) st in
  let streaming := run (Main.send_message_stream conversation_id content current_user) st in
  let voice := run (Voice._run_council_process content) (Voice.World session st) in
  (stored_in_order (trace_of atomic)
   ∧ stored_in_order (trace_of streaming)
   ∧ stored_in_order (trace_of voice))
  ∧ (returned (result_of atomic) = true → existsb is_persisted (trace_of atomic) = true)
  ∧ (Yield [(lit "type", JStr (lit "complete"))] ∈ trace_of streaming →
     existsb is_persisted (trace_of streaming) = true)
  ∧ (is_Some (get_conversation st (Voice.conversation_id session)) →
     returned (result_of voice) = true →
     existsb is_persisted (trace_of voice) = true).
Proof.
  cbv zeta.
  destruct (stored_in_order_atomic conversation_id content current_user st) as [Ha1 Ha2].
  destruct (stored_in_order_streaming conversation_id content current_user st) as [Hs1 Hs2].
  destruct (stored_in_order_voice content (Voice.World session st)) as [Hv1 Hv2].
  done.
Qed.
